(** * HubCore: the action-dispatch pipeline, identity manager and consent ledger

    A shallow embedding of [hubcore/config.py], [hubcore/auth.py],
    [hubcore/consent.py], [hubcore/router.py] and [hubcore/base_hub.py].

    Conventions of the embedding.
    - A Python [str] is a Rocq [string] holding its UTF-8 bytes.  The string
      operations used by the code ([endswith], [split] on an ASCII separator,
      [in]) give the same answer on the bytes as on the code points.
    - A Python [dict] with string keys is a [gmap string _]: lookups and
      equality of dictionaries do not depend on insertion order.
    - A [datetime] is the number of microseconds since [datetime.min],
      0001-01-01 00:00:00, a [Z] between 0 and [Auth.datetime_max]; a
      [timedelta] is a number of microseconds.  The date arithmetic of the
      code raises [OverflowError] where Python's does.
    - What the code draws from its environment (the clock, [secrets],
      [uuid], the HTTP transport, the hooks a subclass overrides) is an
      explicit input of the model.
    - Calls to [logger] are not recorded: they do not influence control
      flow or any returned value. *)

From stdpp Require Import gmap strings list fin_maps.
From Stdlib Require Import ZArith Lia Ascii String.

Open Scope string_scope.
Open Scope Z_scope.

(* ===================================================================== *)
(** ** Python string primitives used by the code                          *)
(* ===================================================================== *)

Module PyStr.

(** [s.endswith(suffix)]: some tail of [s] is [suffix]. *)
Fixpoint endswith (s suffix : string) : bool :=
  if String.eqb s suffix then true
  else match s with
       | EmptyString => false
       | String _ s' => endswith s' suffix
       end.

(** [s.startswith(p)]. *)
Fixpoint startswith (s p : string) {struct p} : bool :=
  match p, s with
  | EmptyString, _ => true
  | String b p', String a s' => Ascii.eqb a b && startswith s' p'
  | String _ _, EmptyString => false
  end.

(** [needle in s] for two strings: [needle] occurs as a substring. *)
Fixpoint contains (s needle : string) : bool :=
  if startswith s needle then true
  else match s with
       | EmptyString => false
       | String _ s' => contains s' needle
       end.

(** [s.split(c)[0]] and [s.split(c, 1)[0]] for a one-character separator:
    what precedes the first occurrence of [c], the whole string if there
    is none. *)
Fixpoint before_first (c : ascii) (s : string) : string :=
  match s with
  | EmptyString => EmptyString
  | String a s' => if Ascii.eqb a c then EmptyString
                   else String a (before_first c s')
  end.

(** [s.split(c, 1)[1]] when [c] occurs in [s]: what follows the first
    occurrence. *)
Fixpoint after_first (c : ascii) (s : string) : string :=
  match s with
  | EmptyString => EmptyString
  | String a s' => if Ascii.eqb a c then s' else after_first c s'
  end.

(** [s[:n]]. *)
Fixpoint take (n : nat) (s : string) : string :=
  match n, s with
  | S n', String a s' => String a (take n' s')
  | _, _ => EmptyString
  end.

(** [s[n:]]. *)
Fixpoint drop (n : nat) (s : string) : string :=
  match n, s with
  | S n', String _ s' => drop n' s'
  | _, _ => s
  end.

(** A UTF-8 continuation byte, [10xxxxxx]. *)
Definition is_continuation (a : ascii) : bool :=
  let n := nat_of_ascii a in (128 <=? n)%nat && (n <? 192)%nat.

(** The characters of a string, as iteration and indexing see them: the
    bytes grouped by code point. *)
Fixpoint chars (s : string) : list string :=
  match s with
  | EmptyString => []
  | String a s' =>
      match chars s' with
      | String b c :: cs =>
          if is_continuation b then String a (String b c) :: cs
          else String a EmptyString :: String b c :: cs
      | cs => String a EmptyString :: cs
      end
  end.

End PyStr.

(* ===================================================================== *)
(** ** SHA-256, as [hashlib.sha256(...).hexdigest()] computes it           *)
(* ===================================================================== *)

Module Sha256.

Definition mask32 : Z := 0xffffffff.
Definition w32 (x : Z) : Z := Z.land x mask32.
Definition add32 (x y : Z) : Z := w32 (x + y).
Definition rotr (n x : Z) : Z :=
  Z.lor (Z.shiftr x n) (w32 (Z.shiftl x (32 - n))).

Definition Ch (x y z : Z) := Z.lxor (Z.land x y) (Z.land (Z.lxor x mask32) z).
Definition Maj (x y z : Z) :=
  Z.lxor (Z.lxor (Z.land x y) (Z.land x z)) (Z.land y z).
Definition Sigma0 x := Z.lxor (Z.lxor (rotr 2 x) (rotr 13 x)) (rotr 22 x).
Definition Sigma1 x := Z.lxor (Z.lxor (rotr 6 x) (rotr 11 x)) (rotr 25 x).
Definition sigma0 x := Z.lxor (Z.lxor (rotr 7 x) (rotr 18 x)) (Z.shiftr x 3).
Definition sigma1 x := Z.lxor (Z.lxor (rotr 17 x) (rotr 19 x)) (Z.shiftr x 10).

(** The constants of FIPS 180-4: the first 32 bits of the fractional parts
    of the cube roots (round constants) and of the square roots (initial
    state) of the first primes. *)
Definition is_prime (n : nat) : bool :=
  forallb (fun d => negb (Z.of_nat n mod Z.of_nat d =? 0)) (seq 2 (n - 2)).

Definition primes : list Z :=
  Eval vm_compute in firstn 64 (Z.of_nat <$> List.filter is_prime (seq 2 320)).

(** The integer cube root, one bit at a time. *)
Fixpoint cbrt_from (bit : nat) (n x : Z) : Z :=
  match bit with
  | O => x
  | S b =>
      let y := x + 2 ^ Z.of_nat b in
      cbrt_from b n (if y * y * y <=? n then y else x)
  end.

Definition frac_cbrt32 (p : Z) : Z := w32 (cbrt_from 48 (p * 2 ^ 96) 0).
Definition frac_sqrt32 (p : Z) : Z := w32 (Z.sqrt (p * 2 ^ 64)).

Definition K : list Z := Eval vm_compute in frac_cbrt32 <$> primes.

(** The eight working words. *)
Record hstate := HState {
  ha : Z; hb : Z; hc : Z; hd : Z; he : Z; hf : Z; hg : Z; hh : Z }.

Definition H0 : hstate :=
  Eval vm_compute in
    let h i := frac_sqrt32 (nth i primes 0) in
    HState (h 0%nat) (h 1%nat) (h 2%nat) (h 3%nat)
           (h 4%nat) (h 5%nat) (h 6%nat) (h 7%nat).

(** Padding: a [0x80] byte, zeros up to 56 modulo 64, then the bit length
    as eight big-endian bytes. *)
Definition be_bytes (n : nat) (x : Z) : list Z :=
  (fun i => Z.land (Z.shiftr x (8 * Z.of_nat (n - 1 - i))) 255) <$> seq 0 n.

Definition pad (msg : list Z) : list Z :=
  let len := Z.of_nat (List.length msg) in
  let zeros := Z.to_nat ((55 - len) mod 64) in
  msg ++ [128] ++ replicate zeros 0 ++ be_bytes 8 (8 * len).

Fixpoint words (fuel : nat) (bs : list Z) : list Z :=
  match fuel, bs with
  | S fuel', b0 :: b1 :: b2 :: b3 :: rest =>
      (Z.shiftl b0 24 + Z.shiftl b1 16 + Z.shiftl b2 8 + b3) :: words fuel' rest
  | _, _ => []
  end.

Fixpoint blocks (fuel : nat) (ws : list Z) : list (list Z) :=
  match fuel, ws with
  | S fuel', _ :: _ => firstn 16 ws :: blocks fuel' (skipn 16 ws)
  | _, _ => []
  end.

(** The message schedule, kept most recent word first. *)
Fixpoint extend (n : nat) (rev_w : list Z) : list Z :=
  match n with
  | O => rev_w
  | S n' =>
      let w := add32 (add32 (sigma1 (nth 1 rev_w 0)) (nth 6 rev_w 0))
                     (add32 (sigma0 (nth 14 rev_w 0)) (nth 15 rev_w 0)) in
      extend n' (w :: rev_w)
  end.

Definition schedule (block : list Z) : list Z := rev (extend 48 (rev block)).

Definition round (s : hstate) (kw : Z * Z) : hstate :=
  let t1 := add32 (add32 (add32 (hh s) (Sigma1 (he s)))
                         (add32 (Ch (he s) (hf s) (hg s)) kw.1)) kw.2 in
  let t2 := add32 (Sigma0 (ha s)) (Maj (ha s) (hb s) (hc s)) in
  HState (add32 t1 t2) (ha s) (hb s) (hc s) (add32 (hd s) t1) (he s) (hf s) (hg s).

Definition compress (s : hstate) (block : list Z) : hstate :=
  let r := fold_left round (zip K (schedule block)) s in
  HState (add32 (ha s) (ha r)) (add32 (hb s) (hb r)) (add32 (hc s) (hc r))
         (add32 (hd s) (hd r)) (add32 (he s) (he r)) (add32 (hf s) (hf r))
         (add32 (hg s) (hg r)) (add32 (hh s) (hh r)).

Definition bytes_of_string (s : string) : list Z :=
  (fun a => Z.of_nat (nat_of_ascii a)) <$> list_ascii_of_string s.

Definition digest (s : string) : hstate :=
  let bs := pad (bytes_of_string s) in
  fold_left compress (blocks (List.length bs) (words (List.length bs) bs)) H0.

Definition hexdigit (x : Z) : ascii :=
  match String.get (Z.to_nat (Z.land x 15)) "0123456789abcdef" with
  | Some c => c
  | None => "0"%char
  end.

Definition hex8 (w : Z) (k : string) : string :=
  String (hexdigit (Z.shiftr w 28)) (String (hexdigit (Z.shiftr w 24))
  (String (hexdigit (Z.shiftr w 20)) (String (hexdigit (Z.shiftr w 16))
  (String (hexdigit (Z.shiftr w 12)) (String (hexdigit (Z.shiftr w 8))
  (String (hexdigit (Z.shiftr w 4)) (String (hexdigit w) k))))))).

(** [hashlib.sha256(s.encode()).hexdigest()]: 64 lower-case hex digits. *)
Definition hexdigest (s : string) : string :=
  let d := digest s in
  hex8 (ha d) (hex8 (hb d) (hex8 (hc d) (hex8 (hd d)
  (hex8 (he d) (hex8 (hf d) (hex8 (hg d) (hex8 (hh d) EmptyString))))))).

End Sha256.

(* ===================================================================== *)
(** ** [hubcore/config.py]                                                *)
(* ===================================================================== *)

Module Config.

(** [SkillExposure]: three lists of skill names. *)
Record SkillExposure := {
  exposed : list string;
  hidden : list string;
  internal : list string }.

Definition is_user_callable (se : SkillExposure) (skill_id : string) : bool :=
  bool_decide (skill_id ∈ exposed se).

Definition is_hub_callable (se : SkillExposure) (skill_id : string) : bool :=
  bool_decide (skill_id ∈ exposed se) || bool_decide (skill_id ∈ internal se).

Definition all_available (se : SkillExposure) : list string :=
  exposed se ++ internal se.

(** [HubAction]. *)
Record HubAction := {
  id : string;
  label : string;
  icon : string;
  agent : string;
  skill : string;
  description : string;
  precondition : option string;
  confirm : bool;
  confirm_message : string;
  primary : bool;
  position : Z;
  group : option string }.

(** [AuthConfig]. *)
Record AuthConfig := {
  method : string;
  email_domain : option string;
  session_duration_hours : Z;
  oauth_provider : option string;
  oauth_client_id : option string }.

Definition validate_email (c : AuthConfig) (email : string) : bool :=
  match email_domain c with
  | None => true
  | Some d => PyStr.endswith email ("@" ++ d)
  end.

(** [ConsentConfig]. *)
Record ConsentConfig := {
  required : bool;
  title : string;
  text : string;
  data_usage : list string;
  data_shared_with : list string;
  revocable : bool;
  optional_participation : bool }.

(** [AgentConnection]. *)
Record AgentConnection := {
  name : string;
  url : string;
  skill_exposure : SkillExposure;
  timeout_seconds : Z;
  retry_attempts : Z;
  healthy : bool;
  last_health_check : option string }.

End Config.

(* ===================================================================== *)
(** ** [hubcore/auth.py]                                                  *)
(* ===================================================================== *)

Module Auth.

Definition minute : Z := 60 * 1000000.
Definition hour : Z := 60 * minute.
Definition day : Z := 24 * hour.

(** [datetime.max], 9999-12-31 23:59:59.999999: the last microsecond of
    day 3652059 of the calendar ([datetime.min] is 0). *)
Definition datetime_max : Z := 3652059 * day - 1.

(** [timedelta(...)] of the given length: the constructor raises
    [OverflowError] ([None]) when the number of whole days has a magnitude
    above 999999999. *)
Definition timedelta (microseconds : Z) : option Z :=
  if (-999999999 <=? microseconds / day) && (microseconds / day <=? 999999999)
  then Some microseconds else None.

(** [t + delta] on a [datetime]: [OverflowError] ([None]) when the sum is
    before [datetime.min] or after [datetime.max]. *)
Definition datetime_add (t delta : Z) : option Z :=
  if (0 <=? t + delta) && (t + delta <=? datetime_max)
  then Some (t + delta) else None.

(** [now + timedelta(...)], the two steps in the order Python takes them. *)
Definition after (now microseconds : Z) : option Z :=
  delta ← timedelta microseconds; datetime_add now delta.

(** An entry of [_pending_links]: [{"email": ..., "expires": ...}]. *)
Record PendingLink := {
  pl_email : string;
  pl_expires : Z }.

(** An entry of [_sessions]. *)
Record Session := {
  user_id : string;
  email : string;
  expires : Z;
  created : Z }.

(** [AuthManager]: the configuration and the two in-memory stores. *)
Record AuthManager := {
  config : Config.AuthConfig;
  _pending_links : gmap string PendingLink;
  _sessions : gmap string Session }.

(** [AuthManager(config)]. *)
Definition new (c : Config.AuthConfig) : AuthManager :=
  {| config := c; _pending_links := ∅; _sessions := ∅ |}.

(** The dictionaries the operations return; the last constructor of each
    is the other way the call ends: the [OverflowError] that the date
    arithmetic raises, with nothing returned. *)
Inductive SendResult :=
| SendOk (message dev_token : string)
| SendError (error : string)
| SendOverflowError.

Inductive VerifyResult :=
| VerifyOk (session_token uid mail : string) (session_expires : Z)
| VerifyError (error : string)
| VerifyOverflowError.

Record UserInfo := {
  ui_user_id : string;
  ui_email : string;
  ui_expires : Z }.

(** [_email_to_user_id]. *)
Definition _email_to_user_id (mail : string) : string :=
  if PyStr.endswith mail "@virginia.edu"
  then PyStr.before_first "@" mail
  else PyStr.take 12 (Sha256.hexdigest mail).

(** [send_magic_link].  [token] is the value [secrets.token_urlsafe(32)]
    returns and [now] the reading of [datetime.now()].  The expiry is
    computed before the link is stored, so an [OverflowError] leaves the
    manager as it was. *)
Definition send_magic_link (m : AuthManager) (mail token : string) (now : Z)
  : SendResult * AuthManager :=
  if negb (Config.validate_email (config m) mail) then
    (SendError ("Email must be from " ++
                default "None" (Config.email_domain (config m))), m)
  else
    match after now (15 * minute) with
    | None => (SendOverflowError, m)
    | Some expires =>
        (SendOk ("Magic link sent to " ++ mail) token,
         {| config := config m;
            _pending_links :=
              <[token := {| pl_email := mail; pl_expires := expires |}]>
                (_pending_links m);
            _sessions := _sessions m |})
    end.

(** [verify_magic_link].  [session_token] is the value drawn from
    [secrets]; [now0], [now1], [now2] are the three successive readings of
    the clock (expiry test, session expiry, creation stamp).  The session
    expiry is computed after the expiry test and before the session is
    stored and the link deleted: when [session_duration_hours] carries it
    out of the calendar the call raises [OverflowError], with the link
    still pending and no session. *)
Definition verify_magic_link (m : AuthManager) (token session_token : string)
    (now0 now1 now2 : Z) : VerifyResult * AuthManager :=
  match _pending_links m !! token with
  | None => (VerifyError "Invalid or expired link", m)
  | Some pending =>
      if pl_expires pending <? now0 then
        (VerifyError "Link has expired",
         {| config := config m;
            _pending_links := delete token (_pending_links m);
            _sessions := _sessions m |})
      else
        let mail := pl_email pending in
        let uid := _email_to_user_id mail in
        match after now1 (Config.session_duration_hours (config m) * hour) with
        | None => (VerifyOverflowError, m)
        | Some session_expires =>
            (VerifyOk session_token uid mail session_expires,
             {| config := config m;
                _pending_links := delete token (_pending_links m);
                _sessions :=
                  <[session_token := {| user_id := uid; email := mail;
                                        expires := session_expires;
                                        created := now2 |}]> (_sessions m) |})
        end
  end.

(** [validate_session]. *)
Definition validate_session (m : AuthManager) (session_token : string)
    (now : Z) : option UserInfo * AuthManager :=
  match _sessions m !! session_token with
  | None => (None, m)
  | Some session =>
      if expires session <? now then
        (None,
         {| config := config m;
            _pending_links := _pending_links m;
            _sessions := delete session_token (_sessions m) |})
      else
        (Some {| ui_user_id := user_id session;
                 ui_email := email session;
                 ui_expires := expires session |}, m)
  end.

(** [invalidate_session]. *)
Definition invalidate_session (m : AuthManager) (session_token : string)
  : bool * AuthManager :=
  match _sessions m !! session_token with
  | Some _ =>
      (true,
       {| config := config m;
          _pending_links := _pending_links m;
          _sessions := delete session_token (_sessions m) |})
  | None => (false, m)
  end.

(** [cleanup_expired]. *)
Definition cleanup_expired (m : AuthManager) (now : Z) : AuthManager :=
  {| config := config m;
     _pending_links :=
       filter (fun kv => ¬ (pl_expires kv.2 < now)) (_pending_links m);
     _sessions :=
       filter (fun kv => ¬ (expires kv.2 < now)) (_sessions m) |}.

End Auth.

(* ===================================================================== *)
(** ** [hubcore/consent.py]                                               *)
(* ===================================================================== *)

Module Consent.

(** An entry of [_consents]. *)
Record ConsentRecord := {
  user_id : string;
  timestamp : Z;
  revoked : bool;
  revoked_at : option Z;
  consent_version : string }.

Record ConsentManager := {
  config : Config.ConsentConfig;
  _consents : gmap string ConsentRecord }.

Definition new (c : Config.ConsentConfig) : ConsentManager :=
  {| config := c; _consents := ∅ |}.

Inductive RecordResult :=
| Recorded (uid : string) (at_time : Z) (message : string).

Inductive RevokeResult :=
| Revoked (uid message : string)
| RevokeError (error : string).

(** [has_consented]. *)
Definition has_consented (m : ConsentManager) (uid : string) : bool :=
  if negb (Config.required (config m)) then true
  else match _consents m !! uid with
       | None => false
       | Some consent => if revoked consent then false else true
       end.

(** [record_consent]; [now] is the reading of the clock. *)
Definition record_consent (m : ConsentManager) (uid : string) (now : Z)
  : RecordResult * ConsentManager :=
  (Recorded uid now "Consent recorded successfully",
   {| config := config m;
      _consents :=
        <[uid := {| user_id := uid; timestamp := now; revoked := false;
                    revoked_at := None; consent_version := "1.0" |}]>
          (_consents m) |}).

(** [revoke_consent]; [now] is the reading of the clock. *)
Definition revoke_consent (m : ConsentManager) (uid : string) (now : Z)
  : RevokeResult * ConsentManager :=
  if negb (Config.revocable (config m)) then
    (RevokeError "Consent cannot be revoked for this hub", m)
  else match _consents m !! uid with
       | None => (RevokeError "No consent record found", m)
       | Some consent =>
           (Revoked uid "Consent has been revoked",
            {| config := config m;
               _consents :=
                 <[uid := {| user_id := user_id consent;
                             timestamp := timestamp consent;
                             revoked := true;
                             revoked_at := Some now;
                             consent_version := consent_version consent |}]>
                   (_consents m) |})
       end.

(** [get_all_consented_users]. *)
Definition get_all_consented_users (m : ConsentManager) : gset string :=
  dom (filter (fun kv => revoked kv.2 = false) (_consents m)).

(** The dictionary [get_consent_info] returns; the two dates are kept as
    dates, their [isoformat()] rendering is not represented. *)
Record ConsentInfo := {
  ci_user_id : string;
  ci_consented_at : Z;
  ci_revoked : bool;
  ci_revoked_at : option Z;
  ci_consent_version : string }.

(** [get_consent_info]. *)
Definition get_consent_info (m : ConsentManager) (uid : string)
  : option ConsentInfo :=
  match _consents m !! uid with
  | None => None
  | Some consent =>
      Some {| ci_user_id := user_id consent;
              ci_consented_at := timestamp consent;
              ci_revoked := revoked consent;
              ci_revoked_at := revoked_at consent;
              ci_consent_version := consent_version consent |}
  end.

End Consent.

(* ===================================================================== *)
(** ** Python values and the dynamic operations the router relies on      *)
(* ===================================================================== *)

Module Py.

(** A decoded JSON document ([response.json()], the [params] and result
    bags).  Numbers are restricted to integers. *)
#[local] Unset Elimination Schemes.
Inductive json : Type :=
| JNull
| JBool (b : bool)
| JInt (z : Z)
| JStr (s : string)
| JList (l : list json)
| JDict (d : gmap string json).
#[local] Set Elimination Schemes.

Abbreviation dict := (gmap string json).

Inductive pytype := TNone | TBool | TInt | TStr | TList | TDict.

Definition type_of (v : json) : pytype :=
  match v with
  | JNull => TNone | JBool _ => TBool | JInt _ => TInt
  | JStr _ => TStr | JList _ => TList | JDict _ => TDict
  end.

(** Errors the interpreter raises when an operation meets a value of the
    wrong shape. *)
Inductive builtin_error :=
| NotContainer (t : pytype)        (* TypeError, [x in v] *)
| NotSubscriptable (t : pytype)    (* TypeError, [v[k]] *)
| BadSubscript (t : pytype)        (* TypeError, [v["k"]] on a sequence *)
| NoLen (t : pytype)               (* TypeError, [len(v)] *)
| NotIterable (t : pytype)         (* TypeError, [for x in v] *)
| NoAttribute (t : pytype) (attr : string)   (* AttributeError *)
| MissingKey (key : json)          (* KeyError *)
| IndexOutOfRange (t : pytype).    (* IndexError *)

(** Exceptions, all of them subclasses of [Exception]. *)
Inductive exn :=
| RuntimeError (msg : string)
| ValueError (msg : string)
| PermissionError (msg : string)
| AgentError (payload : json)      (* [Exception(f"Agent error: {payload}")] *)
| HTTPError (msg : string)         (* [httpx.HTTPError] *)
| JSONDecodeError (msg : string)
| Builtin (e : builtin_error)
| Raised (cls msg : string).       (* any other exception, by class name *)

Inductive outcome (A : Type) :=
| Ok (a : A)
| Raise (e : exn).
Arguments Ok {A} a.
Arguments Raise {A} e.

#[global] Instance outcome_ret : MRet outcome := fun A a => Ok a.
#[global] Instance outcome_bind : MBind outcome := fun A B f m =>
  match m with
  | Ok a => f a
  | Raise e => Raise e
  end.

(** What the Python runtime contributes to the text of a message:
    [str(v)] of a decoded JSON value (inside an f-string) and the wording
    of the interpreter's own errors. *)
Record Runtime := {
  py_str : json -> string;
  builtin_str : builtin_error -> string }.

(** [str(e)]. *)
Definition exn_str (rt : Runtime) (e : exn) : string :=
  match e with
  | RuntimeError m | ValueError m | PermissionError m => m
  | AgentError payload => "Agent error: " ++ py_str rt payload
  | HTTPError m | JSONDecodeError m => m
  | Builtin b => builtin_str rt b
  | Raised _ m => m
  end.

(** Truth value of an object. *)
Definition truthy (v : json) : bool :=
  match v with
  | JNull => false
  | JBool b => b
  | JInt z => negb (z =? 0)
  | JStr s => negb (String.eqb s "")
  | JList l => match l with [] => false | _ :: _ => true end
  | JDict d => negb (bool_decide (size d = 0%nat))
  end.

(** [v == s] for a string [s]. *)
Definition eq_str (v : json) (s : string) : bool :=
  match v with
  | JStr s' => String.eqb s' s
  | _ => false
  end.

(** [key in v]: key test on a dict, membership on a list, substring test
    on a string. *)
Definition py_in (key : string) (v : json) : outcome bool :=
  match v with
  | JDict d => Ok (bool_decide (is_Some (d !! key)))
  | JList l => Ok (existsb (fun x => eq_str x key) l)
  | JStr s => Ok (PyStr.contains s key)
  | _ => Raise (Builtin (NotContainer (type_of v)))
  end.

(** [v[key]] for a string key. *)
Definition getitem_str (v : json) (key : string) : outcome json :=
  match v with
  | JDict d => match d !! key with
               | Some x => Ok x
               | None => Raise (Builtin (MissingKey (JStr key)))
               end
  | JList _ | JStr _ => Raise (Builtin (BadSubscript (type_of v)))
  | _ => Raise (Builtin (NotSubscriptable (type_of v)))
  end.

(** [v[0]]. *)
Definition getitem_0 (v : json) : outcome json :=
  match v with
  | JList (x :: _) => Ok x
  | JStr s => match PyStr.chars s with
              | c :: _ => Ok (JStr c)
              | [] => Raise (Builtin (IndexOutOfRange TStr))
              end
  | JList [] => Raise (Builtin (IndexOutOfRange TList))
  | JDict _ => Raise (Builtin (MissingKey (JInt 0)))
  | _ => Raise (Builtin (NotSubscriptable (type_of v)))
  end.

(** [v.get(key, dflt)]. *)
Definition get (v : json) (key : string) (dflt : json) : outcome json :=
  match v with
  | JDict d => Ok (default dflt (d !! key))
  | _ => Raise (Builtin (NoAttribute (type_of v) "get"))
  end.

(** [len(v)]. *)
Definition len (v : json) : outcome Z :=
  match v with
  | JStr s => Ok (Z.of_nat (List.length (PyStr.chars s)))
  | JList l => Ok (Z.of_nat (List.length l))
  | JDict d => Ok (Z.of_nat (size d))
  | _ => Raise (Builtin (NoLen (type_of v)))
  end.

(** The items [for x in v] visits.  A dict yields its keys; their order
    is not represented, and every use below fails on the first one. *)
Definition iter (v : json) : outcome (list json) :=
  match v with
  | JList l => Ok l
  | JStr s => Ok (JStr <$> PyStr.chars s)
  | JDict d => Ok (JStr <$> (map_to_list d).*1)
  | _ => Raise (Builtin (NotIterable (type_of v)))
  end.

End Py.

(* ===================================================================== *)
(** ** The effects of the pipeline                                        *)
(* ===================================================================== *)

Module Eff.
Import Py.

(** What the pipeline does that an observer outside can count: a request
    posted to an agent, a lifecycle hook entered. *)
Inductive event :=
| Post (url : string) (message : json)
| HookStart (action_id user_id : string) (params : dict)
| HookComplete (action_id user_id : string) (result : json).

(** The answer of the transport to one [client.post] followed by
    [raise_for_status()] and [response.json()]. *)
Inductive http_reply :=
| Reply (data : json)
| HttpFail (msg : string)          (* [httpx.HTTPError] *)
| BadJson (msg : string).          (* [json.JSONDecodeError] *)

(** The environment: the identifiers [uuid.uuid4()] hands out, and the
    agents behind the transport, whose answer may depend on everything
    that happened before. *)
Record World := {
  uuid4 : nat -> string;
  http_post : list event -> string -> json -> http_reply }.

Record State := {
  trace : list event;
  uuid_count : nat }.

Definition M (A : Type) : Type := State -> outcome A * State.

#[global] Instance M_ret : MRet M := fun A a s => (Ok a, s).
#[global] Instance M_bind : MBind M := fun A B f m s =>
  match m s with
  | (Ok a, s') => f a s'
  | (Raise e, s') => (Raise e, s')
  end.

Definition raise {A} (e : exn) : M A := fun s => (Raise e, s).

Definition lift {A} (o : outcome A) : M A := fun s => (o, s).

(** [try: m except Exception as e: h e]. *)
Definition try_except {A} (m : M A) (h : exn -> M A) : M A := fun s =>
  match m s with
  | (Raise e, s') => h e s'
  | r => r
  end.

(** The state once one more event is on record. *)
Definition with_event (s : State) (ev : event) : State :=
  {| trace := trace s ++ [ev]; uuid_count := uuid_count s |}.

Definition emit (ev : event) : M unit := fun s => (Ok tt, with_event s ev).

Definition fresh_uuid (w : World) : M string := fun s =>
  (Ok (uuid4 w (uuid_count s)),
   {| trace := trace s; uuid_count := S (uuid_count s) |}).

(** [client.post(url, json=message)], [raise_for_status()],
    [response.json()]. *)
Definition post (w : World) (url : string) (message : json) : M json :=
  fun s =>
    let s' := with_event s (Post url message) in
    match http_post w (trace s) url message with
    | Reply data => (Ok data, s')
    | HttpFail msg => (Raise (HTTPError msg), s')
    | BadJson msg => (Raise (JSONDecodeError msg), s')
    end.

End Eff.

(* ===================================================================== *)
(** ** [hubcore/router.py]                                                *)
(* ===================================================================== *)

Module Router.
Import Py Eff.

(** The envelope [_build_a2a_message] returns, for a given message id.
    In [{"user_id": user_id, **params}] the entries of [params] are
    written after [user_id], so on a common key they win. *)
Definition a2a_envelope (message_id skill_id user_id : string)
    (params : dict) : json :=
  JDict {[
    "jsonrpc" := JStr "2.0";
    "id" := JStr message_id;
    "method" := JStr "message/send";
    "params" := JDict {[
      "message" := JDict {[
        "role" := JStr "user";
        "parts" := JList [
          JDict {[
            "kind" := JStr "data";
            "data" := JDict {[
              "skill" := JStr skill_id;
              "parameters" :=
                JDict (params ∪ {[ "user_id" := JStr user_id ]}) ]} ]} ];
        "messageId" := JStr message_id;
        "kind" := JStr "message" ]} ]} ]}.

(** The loop of [_extract_result] over the parts of the first artifact:
    the [data] of the first part whose [kind] is ["data"]. *)
Fixpoint first_data_part (parts : list json) : outcome (option json) :=
  match parts with
  | [] => Ok None
  | part :: rest =>
      kind ← get part "kind" JNull;
      if eq_str kind "data"
      then d ← get part "data" (JDict ∅); Ok (Some d)
      else first_data_part rest
  end.

(** [_extract_result]. *)
Definition _extract_result (result : json) : outcome json :=
  has ← py_in "artifacts" result;
  if (has : bool) then
    artifacts ← getitem_str result "artifacts";
    if truthy artifacts then
      n ← len artifacts;
      if 0 <? n then
        first ← getitem_0 artifacts;
        parts ← get first "parts" (JList []);
        items ← iter parts;
        found ← first_data_part items;
        match found with
        | Some d => Ok d
        | None => Ok result
        end
      else Ok result
    else Ok result
  else Ok result.

(** What [_send_to_agent] does with the decoded body. *)
Definition unwrap_response (data : json) : outcome json :=
  has_result ← py_in "result" data;
  if (has_result : bool) then
    r ← getitem_str data "result"; _extract_result r
  else
    has_error ← py_in "error" data;
    if (has_error : bool) then
      e ← getitem_str data "error"; Raise (AgentError e)
    else Ok data.

Section WithWorld.
Variable rt : Runtime.
Variable w : World.
Variable agents : gmap string Config.AgentConnection.

(** [_build_a2a_message]. *)
Definition _build_a2a_message (skill_id user_id : string) (params : dict)
  : M json :=
  message_id ← fresh_uuid w;
  mret (a2a_envelope message_id skill_id user_id params).

(** [_send_to_agent]; the two [except] clauses re-raise. *)
Definition _send_to_agent (agent_url : string) (message : json) : M json :=
  data ← post w agent_url message;
  lift (unwrap_response data).

(** [route_action]. *)
Definition route_action (action : Config.HubAction) (user_id : string)
    (params : dict) : M json :=
  match agents !! Config.agent action with
  | None => raise (ValueError ("Agent not found: " ++ Config.agent action))
  | Some agent =>
      if negb (Config.is_hub_callable (Config.skill_exposure agent)
                                      (Config.skill action)) then
        raise (PermissionError
                 ("Skill " ++ Config.skill action ++
                  " is not available for agent " ++ Config.agent action))
      else
        message ← _build_a2a_message (Config.skill action) user_id params;
        _send_to_agent (Config.url agent) message
  end.

(** The first lines of [check_precondition]: the agent and the skill a
    reference names. *)
Definition parse_precondition (precondition_skill : string)
  : string * string :=
  if PyStr.contains precondition_skill "." then
    (PyStr.before_first "." precondition_skill,
     PyStr.after_first "." precondition_skill)
  else ("le_veilleur", precondition_skill).

(** The interpretation of the agent's answer inside the [try] block. *)
Definition interpret_precondition (result : json) : outcome json :=
  has ← py_in "has_pending" result;
  if (has : bool) then
    satisfied ← get result "has_pending" (JBool false);
    message ← get result "message" (JStr "No pending worksheet found");
    pending ← get result "has_pending" JNull;
    Ok (JDict {[
      "satisfied" := satisfied;
      "message" := message;
      "action_required" :=
        if negb (truthy pending) then JStr "generate_worksheet"
        else JNull ]})
  else Ok result.

(** [check_precondition]. *)
Definition check_precondition (precondition_skill user_id : string)
    (params : dict) : M json :=
  let '(agent_name, skill_name) := parse_precondition precondition_skill in
  match agents !! agent_name with
  | None => mret (JDict {[ "satisfied" := JBool true ]})
  | Some agent =>
      let check_params := params ∪ {[ "student_id" := JStr user_id ]} in
      message ← _build_a2a_message skill_name user_id check_params;
      try_except
        (result ← _send_to_agent (Config.url agent) message;
         lift (interpret_precondition result))
        (fun e => mret (JDict {[ "satisfied" := JBool false;
                                 "message" := JStr (exn_str rt e) ]}))
  end.

(** [call_agent_skill]. *)
Definition call_agent_skill (agent_name skill_id : string) (params : dict)
  : M json :=
  match agents !! agent_name with
  | None => raise (ValueError ("Agent not found: " ++ agent_name))
  | Some agent =>
      message ← _build_a2a_message skill_id "hub" params;
      _send_to_agent (Config.url agent) message
  end.

End WithWorld.

End Router.

(* ===================================================================== *)
(** ** [hubcore/base_hub.py]                                              *)
(* ===================================================================== *)

Module Hub.
Import Py Eff.

(** An initialised hub as [handle_action] sees it.  The two hooks are the
    methods a subclass may override: they may do anything the pipeline
    can (raise, call an agent) and they receive [params] and [result] by
    reference, so each returns the object as it left it. *)
Record BaseHub := {
  initialized : bool;
  agents : gmap string Config.AgentConnection;
  actions : list Config.HubAction;
  on_action_start : string -> string -> dict -> M dict;
  on_action_complete : string -> string -> json -> M json }.

(** The hooks of [BaseHub] itself: [pass]. *)
Definition default_on_action_start (_ _ : string) (params : dict) : M dict :=
  mret params.
Definition default_on_action_complete (_ _ : string) (result : json) : M json :=
  mret result.

(** [_get_action]: the first action carrying the id. *)
Definition _get_action (hub : BaseHub) (action_id : string)
  : option Config.HubAction :=
  List.find (fun a => String.eqb (Config.id a) action_id) (actions hub).

(** [if action.precondition:] holds for a non-empty string. *)
Definition declared_precondition (action : Config.HubAction) : option string :=
  match Config.precondition action with
  | Some p => if String.eqb p "" then None else Some p
  | None => None
  end.

Section WithWorld.
Variable rt : Runtime.
Variable w : World.

(** The precondition step of [handle_action]: [Some r] when the
    pipeline returns the [precondition_failed] result [r], [None] when
    it goes on to routing. *)
Definition precondition_step (hub : BaseHub) (action : Config.HubAction)
    (user_id : string) (params : dict) : M (option json) :=
  match declared_precondition action with
  | None => mret None
  | Some p =>
      precondition_result ←
        Router.check_precondition rt w (agents hub) p user_id params;
      satisfied ← lift (get precondition_result "satisfied" (JBool false));
      if negb (truthy satisfied) then
        message ← lift (get precondition_result "message"
                            (JStr "Precondition not met"));
        action_required ← lift (get precondition_result
                                    "action_required" JNull);
        mret (Some (JDict {[ "status" := JStr "precondition_failed";
                             "message" := message;
                             "action_required" := action_required ]}))
      else mret None
  end.

(** [handle_action]. *)
Definition handle_action (hub : BaseHub) (action_id user_id : string)
    (params : dict) : M json :=
  if negb (initialized hub) then raise (RuntimeError "Hub not initialized")
  else match _get_action hub action_id with
  | None => raise (ValueError ("Unknown action: " ++ action_id))
  | Some action =>
      match agents hub !! Config.agent action with
      | None => raise (ValueError ("Unknown agent: " ++ Config.agent action))
      | Some agent =>
          if negb (Config.is_user_callable (Config.skill_exposure agent)
                                           (Config.skill action)) then
            raise (PermissionError
                     ("Skill " ++ Config.skill action ++
                      " is not available in this hub"))
          else
            _ ← emit (HookStart action_id user_id params);
            params ← on_action_start hub action_id user_id params;
            failed ← precondition_step hub action user_id params;
            match failed with
            | Some r => mret r
            | None =>
                result ← Router.route_action w (agents hub) action
                                             user_id params;
                _ ← emit (HookComplete action_id user_id result);
                result ← on_action_complete hub action_id user_id result;
                mret result
            end
      end
  end.

End WithWorld.

End Hub.

(* ===================================================================== *)
(** ** [hubcore/base_hub.py]: construction, initialisation, services       *)
(* ===================================================================== *)

Module Lifecycle.
Import Py Eff.

(** [UITheme] and [HubConfig] of [config.py]. *)
Inductive UITheme := ORGANIC | MINIMAL | DARK | ACADEMIC.

Record HubConfig := {
  name : string;
  slug : string;
  description : string;
  version : string;
  auth_required : bool;
  consent_required : bool;
  theme : UITheme;
  tagline : string;
  icon : string;
  course : option string;
  semester : option string }.

(** What a subclass of [BaseHub] supplies: the four abstract methods, the
    two configuration methods and the hooks.  The configuration methods
    are taken as the values they return. *)
Record HubClass := {
  configure : HubConfig;
  register_agents : gmap string string;
  define_skill_exposure : gmap string Config.SkillExposure;
  define_ui_actions : list Config.HubAction;
  configure_auth : Config.AuthConfig;
  configure_consent : Config.ConsentConfig;
  on_initialize : M unit;
  on_user_login : string -> string -> M unit;
  on_user_consent : string -> M unit;
  on_action_start : string -> string -> dict -> M dict;
  on_action_complete : string -> string -> json -> M json }.

(** The attributes of a hub object.  [self.router] is left out: it is
    created by [initialize] and holds the very objects [self.agents] and
    [self.actions]. *)
Record HubObject := {
  config : option HubConfig;
  agents : gmap string Config.AgentConnection;
  actions : list Config.HubAction;
  auth_manager : option Auth.AuthManager;
  consent_manager : option Consent.ConsentManager;
  initialized : bool;
  started_at : option Z }.

(** [BaseHub.__init__]. *)
Definition created : HubObject :=
  {| config := None; agents := ∅; actions := []; auth_manager := None;
     consent_manager := None; initialized := false; started_at := None |}.

(** [SkillExposure()]. *)
Definition empty_exposure : Config.SkillExposure :=
  {| Config.exposed := []; Config.hidden := []; Config.internal := [] |}.

(** [AgentConnection(name=..., url=..., skill_exposure=...)]. *)
Definition connect (agent_name url : string) (se : Config.SkillExposure)
  : Config.AgentConnection :=
  {| Config.name := agent_name; Config.url := url;
     Config.skill_exposure := se;
     Config.timeout_seconds := 30; Config.retry_attempts := 3;
     Config.healthy := false; Config.last_health_check := None |}.

(** The loop of [initialize] over [agent_urls.items()]: one connection per
    registered address, written into [self.agents]. *)
Definition registered (cls : HubClass) : gmap string Config.AgentConnection :=
  map_imap
    (fun agent_name url =>
       Some (connect agent_name url
               (default empty_exposure
                        (define_skill_exposure cls !! agent_name))))
    (register_agents cls).

(** The attributes once [initialize] has reached its last statement,
    the call of the [on_initialize] hook; [now] is the reading of the
    clock. *)
Definition initialized_object (cls : HubClass) (self : HubObject) (now : Z)
  : HubObject :=
  {| config := Some (configure cls);
     agents := registered cls ∪ agents self;
     actions := define_ui_actions cls;
     auth_manager := Some (Auth.new (configure_auth cls));
     consent_manager := Some (Consent.new (configure_consent cls));
     initialized := true;
     started_at := Some now |}.

(** [initialize]: the outcome of the call and the object it leaves. *)
Definition initialize (cls : HubClass) (self : HubObject) (now : Z)
  : State -> (outcome unit * HubObject) * State :=
  fun s =>
    let self' := initialized_object cls self now in
    let '(o, s') := on_initialize cls s in
    ((o, self'), s').

(** The hub as [handle_action] reads it. *)
Definition base_hub (cls : HubClass) (self : HubObject) : Hub.BaseHub :=
  {| Hub.initialized := initialized self;
     Hub.agents := agents self;
     Hub.actions := actions self;
     Hub.on_action_start := on_action_start cls;
     Hub.on_action_complete := on_action_complete cls |}.

(** [handle_action] on the object. *)
Definition handle_action_on (rt : Runtime) (w : World) (cls : HubClass)
    (self : HubObject) (action_id user_id : string) (params : dict) : M json :=
  Hub.handle_action rt w (base_hub cls self) action_id user_id params.

(** A method called on an attribute that is still [None]. *)
Definition none_has_no {A} (method : string) : outcome A :=
  Raise (Builtin (NoAttribute TNone method)).

(** [check_auth]. *)
Definition check_auth (self : HubObject) (session_token : string) (now : Z)
  : outcome (option Auth.UserInfo) * HubObject :=
  match auth_manager self with
  | None => (none_has_no "validate_session", self)
  | Some am =>
      let '(user, am') := Auth.validate_session am session_token now in
      (Ok user,
       {| config := config self; agents := agents self;
          actions := actions self; auth_manager := Some am';
          consent_manager := consent_manager self;
          initialized := initialized self; started_at := started_at self |})
  end.

(** [request_magic_link]: what the manager returns, or the
    [OverflowError] it raises. *)
Definition request_magic_link (self : HubObject) (mail token : string)
    (now : Z) : outcome Auth.SendResult * HubObject :=
  match auth_manager self with
  | None => (none_has_no "send_magic_link", self)
  | Some am =>
      let '(r, am') := Auth.send_magic_link am mail token now in
      (match r with
       | Auth.SendOverflowError =>
           Raise (Raised "OverflowError" "date value out of range")
       | _ => Ok r
       end,
       {| config := config self; agents := agents self;
          actions := actions self; auth_manager := Some am';
          consent_manager := consent_manager self;
          initialized := initialized self; started_at := started_at self |})
  end.

(** [check_consent]. *)
Definition check_consent (self : HubObject) (user_id : string) : outcome bool :=
  match consent_manager self with
  | None => none_has_no "has_consented"
  | Some cm => Ok (Consent.has_consented cm user_id)
  end.

(** [record_consent]: the ledger is written first, the [on_user_consent]
    hook runs second. *)
Definition record_consent (cls : HubClass) (self : HubObject)
    (user_id : string) (now : Z)
  : State -> (outcome Consent.RecordResult * HubObject) * State :=
  fun s =>
    match consent_manager self with
    | None => ((none_has_no "record_consent", self), s)
    | Some cm =>
        let '(r, cm') := Consent.record_consent cm user_id now in
        let self' :=
          {| config := config self; agents := agents self;
             actions := actions self; auth_manager := auth_manager self;
             consent_manager := Some cm';
             initialized := initialized self;
             started_at := started_at self |} in
        match on_user_consent cls user_id s with
        | (Ok _, s') => ((Ok r, self'), s')
        | (Raise e, s') => ((Raise e, self'), s')
        end
    end.

End Lifecycle.

(* ===================================================================== *)
(** ** [hubcore/handlers/hub_handler.py]                                  *)
(* ===================================================================== *)

Module Handler.
Import Py Eff.

(** What the routes read of a request: the [Authorization] header and the
    [session_token] cookie. *)
Record Request := {
  authorization : option string;
  session_cookie : option string }.

(** How a route ends: with a body, with an [HTTPException], or with an
    exception it does not catch. *)
Inductive reply (A : Type) :=
| Served (body : A)
| HTTPException (status_code : Z) (detail : string)
| Uncaught (e : exn).
Arguments Served {A} body.
Arguments HTTPException {A} status_code detail.
Arguments Uncaught {A} e.

(** [_get_session_token]. *)
Definition _get_session_token (request : Request) : option string :=
  match authorization request with
  | Some auth_header =>
      if negb (String.eqb auth_header "")
         && PyStr.startswith auth_header "Bearer "
      then Some (PyStr.drop 7 auth_header)
      else session_cookie request
  | None => session_cookie request
  end.

(** [if not session_token]: [None] or the empty string. *)
Definition no_token (session_token : option string) : bool :=
  match session_token with
  | None => true
  | Some t => String.eqb t ""
  end.

(** [_require_auth]. *)
Definition _require_auth (self : Lifecycle.HubObject) (request : Request)
    (now : Z) : reply Auth.UserInfo * Lifecycle.HubObject :=
  match _get_session_token request with
  | Some session_token =>
      if String.eqb session_token "" then
        (HTTPException 401 "Authentication required", self)
      else
        match Lifecycle.check_auth self session_token now with
        | (Raise e, self') => (Uncaught e, self')
        | (Ok None, self') =>
            (HTTPException 401 "Invalid or expired session", self')
        | (Ok (Some user), self') => (Served user, self')
        end
  | None => (HTTPException 401 "Authentication required", self)
  end.

(** [except ValueError] and [except PermissionError] test the class of
    the exception, [isinstance(e, ValueError)], so a subclass is caught
    too.  Of the exceptions the pipeline raises itself,
    [json.JSONDecodeError] is a subclass of [ValueError]; [RuntimeError],
    [Exception], [httpx.HTTPError] and the interpreter's [TypeError],
    [AttributeError], [KeyError] and [IndexError] are subclasses of
    neither.  For an exception known by its class name, [issubclass] is
    Python's [issubclass] on the names of the classes of the running
    program. *)
Definition is_value_error (issubclass : string -> string -> bool) (e : exn)
  : bool :=
  match e with
  | ValueError _ | JSONDecodeError _ => true
  | Raised c _ => issubclass c "ValueError"
  | _ => false
  end.

Definition is_permission_error (issubclass : string -> string -> bool)
    (e : exn) : bool :=
  match e with
  | PermissionError _ => true
  | Raised c _ => issubclass c "PermissionError"
  | _ => false
  end.

Section WithWorld.
Variable rt : Runtime.
Variable w : World.
Variable cls : Lifecycle.HubClass.
Variable issubclass : string -> string -> bool.

(** The consent gate of the two action routes: [Some r] when the route
    ends there. *)
Definition consent_gate (self : Lifecycle.HubObject) (user_id detail : string)
  : option (reply json) :=
  match Lifecycle.config self with
  | None => Some (Uncaught (Builtin (NoAttribute TNone "consent_required")))
  | Some c =>
      if Lifecycle.consent_required c then
        match Lifecycle.check_consent self user_id with
        | Raise e => Some (Uncaught e)
        | Ok has_consent =>
            if negb has_consent then Some (HTTPException 403 detail)
            else None
        end
      else None
  end.

(** [execute_action], the route [POST /action]. *)
Definition execute_action (self : Lifecycle.HubObject)
    (action_id : string) (params : dict) (request : Request) (now : Z)
  : State -> (reply json * Lifecycle.HubObject) * State :=
  fun s =>
    match _require_auth self request now with
    | (Served user, self') =>
        match consent_gate self' (Auth.ui_user_id user)
                "Consent required before using this hub" with
        | Some r => ((r, self'), s)
        | None =>
            match Hub.handle_action rt w (Lifecycle.base_hub cls self')
                    action_id (Auth.ui_user_id user) params s with
            | (Ok result, s') => ((Served result, self'), s')
            | (Raise e, s') =>
                if is_value_error issubclass e then
                  ((HTTPException 400 (exn_str rt e), self'), s')
                else if is_permission_error issubclass e then
                  ((HTTPException 403 (exn_str rt e), self'), s')
                else ((HTTPException 500 "Action failed", self'), s')
            end
        end
    | (HTTPException c d, self') => ((HTTPException c d, self'), s)
    | (Uncaught e, self') => ((Uncaught e, self'), s)
    end.

(** [execute_action_by_id], the route [POST /action/{action_id}]: no
    clause for the other exceptions. *)
Definition execute_action_by_id (self : Lifecycle.HubObject)
    (action_id : string) (params : dict) (request : Request) (now : Z)
  : State -> (reply json * Lifecycle.HubObject) * State :=
  fun s =>
    match _require_auth self request now with
    | (Served user, self') =>
        match consent_gate self' (Auth.ui_user_id user)
                "Consent required" with
        | Some r => ((r, self'), s)
        | None =>
            match Hub.handle_action rt w (Lifecycle.base_hub cls self')
                    action_id (Auth.ui_user_id user) params s with
            | (Ok result, s') => ((Served result, self'), s')
            | (Raise e, s') =>
                if is_value_error issubclass e then
                  ((HTTPException 400 (exn_str rt e), self'), s')
                else if is_permission_error issubclass e then
                  ((HTTPException 403 (exn_str rt e), self'), s')
                else ((Uncaught e, self'), s')
            end
        end
    | (HTTPException c d, self') => ((HTTPException c d, self'), s)
    | (Uncaught e, self') => ((Uncaught e, self'), s)
    end.

End WithWorld.

(** [logout], the route [POST /auth/logout]: the body is always
    [{"success": True, "message": "Logged out"}]. *)
Definition logout (self : Lifecycle.HubObject) (request : Request)
  : reply unit * Lifecycle.HubObject :=
  match _get_session_token request with
  | Some session_token =>
      if String.eqb session_token "" then (Served tt, self)
      else
        match Lifecycle.auth_manager self with
        | None => (Uncaught (Builtin (NoAttribute TNone "invalidate_session")),
                   self)
        | Some am =>
            (Served tt,
             {| Lifecycle.config := Lifecycle.config self;
                Lifecycle.agents := Lifecycle.agents self;
                Lifecycle.actions := Lifecycle.actions self;
                Lifecycle.auth_manager :=
                  Some (Auth.invalidate_session am session_token).2;
                Lifecycle.consent_manager := Lifecycle.consent_manager self;
                Lifecycle.initialized := Lifecycle.initialized self;
                Lifecycle.started_at := Lifecycle.started_at self |})
        end
  | None => (Served tt, self)
  end.

End Handler.

(* ===================================================================== *)
(** * Properties                                                          *)
(* ===================================================================== *)

(** ** Strings and SHA-256 *)

Module PyStrFacts.
Import PyStr.

Lemma endswith_refl s : endswith s s = true.
Proof. destruct s; simpl; [done|]. by rewrite Ascii.eqb_refl, String.eqb_refl. Qed.

Lemma endswith_app p s : endswith (p ++ s) s = true.
Proof.
  induction p as [|a p IH].
  - apply endswith_refl.
  - change (endswith (String a p ++ s) s)
      with (if String.eqb (String a (p ++ s)) s then true
            else endswith (p ++ s) s).
    rewrite IH. by destruct (String.eqb _ s).
Qed.

Lemma before_first_app c p s :
  contains p (String c "") = false ->
  before_first c (p ++ String c s) = p.
Proof.
  induction p as [|a p IH]; simpl.
  - by rewrite Ascii.eqb_refl.
  - destruct (Ascii.eqb a c); simpl; [done|].
    intros H. by rewrite IH.
Qed.

Lemma before_first_no_sep c s :
  contains s (String c "") = false -> before_first c s = s.
Proof.
  induction s as [|a s IH]; simpl; [done|].
  destruct (Ascii.eqb a c); simpl; [done|].
  intros H. by rewrite IH.
Qed.

Lemma length_take n s :
  (n <= String.length s)%nat -> String.length (take n s) = n.
Proof.
  revert s. induction n as [|n IH]; intros [|a s]; simpl; try lia.
  intros H. rewrite IH; lia.
Qed.

End PyStrFacts.

Module Sha256Facts.
Import Sha256.

Example sha256_abc :
  hexdigest "abc" =
  "ba7816bf8f01cfea414140de5dae2223b00361a396177a9cb410ff61f20015ad".
Proof. vm_compute. reflexivity. Qed.

Example sha256_empty :
  hexdigest "" =
  "e3b0c44298fc1c149afbf4c8996fb92427ae41e4649b934ca495991b7852b855".
Proof. vm_compute. reflexivity. Qed.

(** A message of 70 bytes: two blocks. *)
Example sha256_two_blocks :
  hexdigest
    "aaaaaaaaaaaaaaaaaaaaaaaaaaaaaaaaaaaaaaaaaaaaaaaaaaaaaaaaaaaaaaaaaaaaaa" =
  "6bd5e5034855a11241f0dee8fc72850ffd9955b28347a86428b5fa19119f6ad0".
Proof. vm_compute. reflexivity. Qed.

(** A message of 56 bytes: the padding spills into a second block. *)
Example sha256_padding_spill :
  hexdigest "abcdbcdecdefdefgefghfghighijhijkijkljklmklmnlmnomnopnopq" =
  "248d6a61d20638b8e5c026930c3e6039a33ce45964ff2167f6ecedd419db06c1".
Proof. vm_compute. reflexivity. Qed.

Lemma length_hexdigest s : String.length (hexdigest s) = 64%nat.
Proof. reflexivity. Qed.

End Sha256Facts.

(** ** Identity manager *)

Module AuthFacts.
Import Auth.

Lemma email_to_user_id_local (loc : string) :
  PyStr.contains loc "@" = false ->
  _email_to_user_id (loc ++ "@virginia.edu") = loc.
Proof.
  intros H. unfold _email_to_user_id.
  rewrite PyStrFacts.endswith_app.
  by apply (PyStrFacts.before_first_app "@"%char loc "virginia.edu").
Qed.

Lemma length_email_hash mail :
  String.length (PyStr.take 12 (Sha256.hexdigest mail)) = 12%nat.
Proof.
  apply PyStrFacts.length_take. rewrite Sha256Facts.length_hexdigest. lia.
Qed.

(** The date arithmetic succeeds exactly when the sum is a date of the
    calendar: from a clock reading, a sum inside the calendar is never
    refused for the length of its [timedelta]. *)
Lemma after_in_calendar now delta :
  0 <= now <= datetime_max ->
  0 <= now + delta <= datetime_max ->
  after now delta = Some (now + delta).
Proof.
  intros Hn Hs. unfold after, timedelta, datetime_add.
  assert (Hday : 0 < day) by reflexivity.
  assert (Hd : -999999999 <= delta / day <= 999999999).
  { unfold datetime_max in *. split.
    - apply Z.div_le_lower_bound; lia.
    - apply Z.div_le_upper_bound; lia. }
  destruct Hd as [Hd1 Hd2].
  apply Z.leb_le in Hd1. apply Z.leb_le in Hd2. rewrite Hd1, Hd2. simpl.
  destruct Hs as [Hs1 Hs2].
  apply Z.leb_le in Hs1. apply Z.leb_le in Hs2. by rewrite Hs1, Hs2.
Qed.

Lemma after_out_of_calendar now delta :
  now + delta < 0 \/ datetime_max < now + delta ->
  after now delta = None.
Proof.
  intros Hout. unfold after, timedelta, datetime_add.
  destruct (_ && _); [|done]. simpl.
  destruct (Z.leb_spec 0 (now + delta)); [|done].
  destruct (Z.leb_spec (now + delta) datetime_max); [lia|done].
Qed.

Lemma after_some now delta e :
  after now delta = Some e -> e = now + delta /\ 0 <= e <= datetime_max.
Proof.
  unfold after, timedelta, datetime_add.
  destruct (_ && _); [|done]. simpl.
  destruct (Z.leb_spec 0 (now + delta)); [|done].
  destruct (Z.leb_spec (now + delta) datetime_max); [|done].
  simpl. intros [= <-]. lia.
Qed.

(** A pending link that has not expired is consumed by the verification
    when the session's expiry is a date: the session is stored under the
    drawn token, the link is gone, and the other links and sessions are
    untouched. *)
Lemma verify_pending m token stok now0 now1 now2 pending exp :
  _pending_links m !! token = Some pending ->
  now0 <= pl_expires pending ->
  after now1 (Config.session_duration_hours (config m) * hour) = Some exp ->
  let uid := _email_to_user_id (pl_email pending) in
  let m' := (verify_magic_link m token stok now0 now1 now2).2 in
  (verify_magic_link m token stok now0 now1 now2).1
    = VerifyOk stok uid (pl_email pending) exp
  /\ _sessions m' !! stok
     = Some {| user_id := uid; email := pl_email pending;
               expires := exp; created := now2 |}
  /\ (forall t, t <> stok -> _sessions m' !! t = _sessions m !! t)
  /\ _pending_links m' !! token = None
  /\ (forall t, t <> token -> _pending_links m' !! t = _pending_links m !! t)
  /\ config m' = config m.
Proof.
  intros Hp Hle He. unfold verify_magic_link. rewrite Hp.
  destruct (Z.ltb_spec (pl_expires pending) now0) as [?|_]; [lia|].
  rewrite He. simpl.
  repeat split.
  - apply lookup_insert_eq.
  - intros t Ht. by apply lookup_insert_ne.
  - apply lookup_delete_eq.
  - intros t Ht. by apply lookup_delete_ne.
Qed.

(** When the session's expiry is not a date, the verification of a pending
    link that has not expired raises [OverflowError] and changes nothing:
    the link is still pending. *)
Lemma verify_overflow m token stok now0 now1 now2 pending :
  _pending_links m !! token = Some pending ->
  now0 <= pl_expires pending ->
  after now1 (Config.session_duration_hours (config m) * hour) = None ->
  verify_magic_link m token stok now0 now1 now2 = (VerifyOverflowError, m).
Proof.
  intros Hp Hle He. unfold verify_magic_link. rewrite Hp.
  destruct (Z.ltb_spec (pl_expires pending) now0) as [?|_]; [lia|].
  by rewrite He.
Qed.

Lemma verify_unknown m token stok now0 now1 now2 :
  _pending_links m !! token = None ->
  verify_magic_link m token stok now0 now1 now2
    = (VerifyError "Invalid or expired link", m).
Proof. intros H. unfold verify_magic_link. by rewrite H. Qed.

Lemma verify_expired m token stok now0 now1 now2 pending :
  _pending_links m !! token = Some pending ->
  pl_expires pending < now0 ->
  let m' := (verify_magic_link m token stok now0 now1 now2).2 in
  (verify_magic_link m token stok now0 now1 now2).1
    = VerifyError "Link has expired"
  /\ _pending_links m' !! token = None
  /\ (forall t, t <> token -> _pending_links m' !! t = _pending_links m !! t)
  /\ _sessions m' = _sessions m.
Proof.
  intros Hp Hlt. unfold verify_magic_link. rewrite Hp.
  destruct (Z.ltb_spec (pl_expires pending) now0) as [_|?]; [|lia]. simpl.
  repeat split.
  - apply lookup_delete_eq.
  - intros t Ht. by apply lookup_delete_ne.
Qed.

Lemma send_accepted m mail token now :
  Config.validate_email (config m) mail = true ->
  0 <= now -> now + 15 * minute <= datetime_max ->
  let m' := (send_magic_link m mail token now).2 in
  (send_magic_link m mail token now).1
    = SendOk ("Magic link sent to " ++ mail) token
  /\ _pending_links m' !! token
     = Some {| pl_email := mail; pl_expires := now + 15 * minute |}
  /\ (forall t, t <> token -> _pending_links m' !! t = _pending_links m !! t)
  /\ _sessions m' = _sessions m
  /\ config m' = config m.
Proof.
  intros H Hnow Hexp. unfold send_magic_link. rewrite H. simpl.
  assert (Hminute : 0 < minute) by reflexivity.
  rewrite after_in_calendar by lia. simpl. repeat split.
  - apply lookup_insert_eq.
  - intros t Ht. by apply lookup_insert_ne.
Qed.

(** 2026-01-01 00:00:00, day 739616 after [datetime.min]. *)
Definition new_year_2026 : Z := 739616 * day.

(** A hub whose sessions are to last 100000000 hours, some 11400 years. *)
Definition long_session_config : Config.AuthConfig :=
  {| Config.method := "magic_link"; Config.email_domain := None;
     Config.session_duration_hours := 100000000;
     Config.oauth_provider := None; Config.oauth_client_id := None |}.

Definition long_session_link : AuthManager :=
  {| config := long_session_config;
     _pending_links :=
       {[ "tok" := {| pl_email := "bob@virginia.edu";
                      pl_expires := new_year_2026 + 15 * minute |} ]};
     _sessions := ∅ |}.

(** [C5], as stated, fails: on a hub configured with sessions of 100000000
    hours, a pending link presented on 2026-01-01, before its expiry, is
    not verified with success.  The session's expiry is beyond
    [datetime.max], the call raises [OverflowError], no session is stored
    and the link is still pending. *)
Lemma C5_overflow_counterexample :
  _pending_links long_session_link !! "tok"
    = Some {| pl_email := "bob@virginia.edu";
              pl_expires := new_year_2026 + 15 * minute |}
  /\ verify_magic_link long_session_link "tok" "sess"
       new_year_2026 new_year_2026 new_year_2026
     = (VerifyOverflowError, long_session_link)
  /\ _sessions long_session_link = ∅.
Proof. split; [reflexivity|]. split; reflexivity. Qed.

(** [C5], amended.  A pending token presented before its expiry, at a time
    from which the session's expiry [now + session_duration_hours] is
    still a date of the calendar, is verified with success: the user id is
    derived from the stored email, a session is stored under the fresh
    session token with that expiry, the pending link is deleted, and any
    later verification of the same token fails with "Invalid or expired
    link" and changes nothing.  When that expiry is not a date of the
    calendar, the call raises [OverflowError] and changes nothing: the
    link stays pending.  A pending token presented after its expiry fails
    with "Link has expired" and its record is deleted. *)
Theorem C5_verify_magic_link_once m token stok now0 now1 now2 pending :
  _pending_links m !! token = Some pending ->
  let r := verify_magic_link m token stok now0 now1 now2 in
  (now0 <= pl_expires pending ->
   0 <= now1 <= datetime_max ->
   0 <= now1 + Config.session_duration_hours (config m) * hour
     <= datetime_max ->
     r.1 = VerifyOk stok (_email_to_user_id (pl_email pending))
                    (pl_email pending)
                    (now1 + Config.session_duration_hours (config m) * hour)
     /\ _sessions r.2 !! stok
        = Some {| user_id := _email_to_user_id (pl_email pending);
                  email := pl_email pending;
                  expires :=
                    now1 + Config.session_duration_hours (config m) * hour;
                  created := now2 |}
     /\ _pending_links r.2 !! token = None
     /\ forall stok' t0 t1 t2,
          verify_magic_link r.2 token stok' t0 t1 t2
            = (VerifyError "Invalid or expired link", r.2))
  /\ (now0 <= pl_expires pending ->
      now1 + Config.session_duration_hours (config m) * hour < 0
      \/ datetime_max
           < now1 + Config.session_duration_hours (config m) * hour ->
        r = (VerifyOverflowError, m))
  /\ (pl_expires pending < now0 ->
        r.1 = VerifyError "Link has expired"
        /\ _pending_links r.2 !! token = None
        /\ _sessions r.2 = _sessions m).
Proof.
  intros Hp r. split; [|split].
  - intros Hle Hnow Hexp.
    destruct (verify_pending m token stok now0 now1 now2 pending _ Hp Hle
                (after_in_calendar _ _ Hnow Hexp))
      as (Hr & Hs & _ & Hd & _).
    repeat split; try done.
    intros. by apply verify_unknown.
  - intros Hle Hout.
    apply (verify_overflow m token stok now0 now1 now2 pending Hp Hle).
    by apply after_out_of_calendar.
  - intros Hlt.
    destruct (verify_expired m token stok now0 now1 now2 pending Hp Hlt)
      as (Hr & Hd & _ & Hs).
    done.
Qed.

Definition open_config : Config.AuthConfig :=
  {| Config.method := "magic_link"; Config.email_domain := None;
     Config.session_duration_hours := 24;
     Config.oauth_provider := None; Config.oauth_client_id := None |}.

Definition one_link : AuthManager :=
  {| config := open_config;
     _pending_links := {[ "tok" := {| pl_email := "bob@virginia.edu";
                                      pl_expires := 1000 |} ]};
     _sessions := ∅ |}.

Lemma C5_verify_magic_link_once_witness :
  (verify_magic_link one_link "tok" "sess" 10 11 12).1
    = VerifyOk "sess" "bob" "bob@virginia.edu" (11 + 24 * hour)
  /\ (verify_magic_link
        (verify_magic_link one_link "tok" "sess" 10 11 12).2
        "tok" "sess2" 20 21 22).1
     = VerifyError "Invalid or expired link".
Proof.
  destruct (C5_verify_magic_link_once one_link "tok" "sess" 10 11 12
              {| pl_email := "bob@virginia.edu"; pl_expires := 1000 |}
              eq_refl) as [Hok _].
  destruct Hok as (Hr & _ & _ & Hagain);
    [vm_compute; discriminate
    |vm_compute; split; discriminate
    |vm_compute; split; discriminate|].
  split.
  - exact Hr.
  - by rewrite Hagain.
Defined.

(** [C6] [validate_session] returns [None] for an unknown token and leaves
    the store as it is; for a session looked up after its expiry it
    returns [None] and the same call removes that session (and only that
    one); for a session that has not expired it returns the user id, email
    and expiry stored at issuance and changes nothing.  The record stored
    by a successful [verify_magic_link] is the one returned. *)
Theorem C6_validate_session m stok now :
  (_sessions m !! stok = None ->
     validate_session m stok now = (None, m))
  /\ (forall sess, _sessions m !! stok = Some sess -> expires sess < now ->
        (validate_session m stok now).1 = None
        /\ _sessions (validate_session m stok now).2 !! stok = None
        /\ (forall t, t <> stok ->
              _sessions (validate_session m stok now).2 !! t
                = _sessions m !! t)
        /\ _pending_links (validate_session m stok now).2
             = _pending_links m)
  /\ (forall sess, _sessions m !! stok = Some sess -> now <= expires sess ->
        validate_session m stok now
          = (Some {| ui_user_id := user_id sess; ui_email := email sess;
                     ui_expires := expires sess |}, m))
  /\ (forall m0 token t0 t1 t2 uid mail exp,
        verify_magic_link m0 token stok t0 t1 t2
          = (VerifyOk stok uid mail exp, m) ->
        now <= exp ->
        validate_session m stok now
          = (Some {| ui_user_id := uid; ui_email := mail;
                     ui_expires := exp |}, m)).
Proof.
  assert (Hlive : forall sess, _sessions m !! stok = Some sess ->
            now <= expires sess ->
            validate_session m stok now
              = (Some {| ui_user_id := user_id sess; ui_email := email sess;
                         ui_expires := expires sess |}, m)).
  { intros sess Hs Hle. unfold validate_session. rewrite Hs.
    by destruct (Z.ltb_spec (expires sess) now); [lia|]. }
  split; [|split; [|split]].
  - intros H. unfold validate_session. by rewrite H.
  - intros sess Hs Hlt. unfold validate_session. rewrite Hs.
    destruct (Z.ltb_spec (expires sess) now); [|lia]. simpl.
    repeat split.
    + apply lookup_delete_eq.
    + intros t Ht. by apply lookup_delete_ne.
  - exact Hlive.
  - intros m0 token t0 t1 t2 uid mail exp Hv Hle.
    unfold verify_magic_link in Hv.
    destruct (_pending_links m0 !! token) as [pending|]; [|done].
    destruct (pl_expires pending <? t0); [done|].
    destruct (after t1 _) as [session_expires|]; [|done].
    injection Hv as Hu Hm He Hm'. subst m.
    rewrite (Hlive {| user_id := uid; email := mail; expires := exp;
                      created := t2 |}); simpl.
    + done.
    + rewrite <- Hu, <- Hm, <- He. apply lookup_insert_eq.
    + done.
Qed.

Definition one_session : AuthManager :=
  {| config := open_config;
     _pending_links := ∅;
     _sessions := {[ "sess" := {| user_id := "bob";
                                  email := "bob@virginia.edu";
                                  expires := 500; created := 0 |} ]} |}.

Lemma C6_validate_session_witness :
  (validate_session one_session "sess" 501).1 = None
  /\ _sessions (validate_session one_session "sess" 501).2 !! "sess" = None
  /\ validate_session one_session "sess" 500
     = (Some {| ui_user_id := "bob"; ui_email := "bob@virginia.edu";
                ui_expires := 500 |}, one_session)
  /\ validate_session one_session "other" 0 = (None, one_session).
Proof.
  pose proof (C6_validate_session one_session "sess" 501) as (_ & Hexp & _).
  pose proof (C6_validate_session one_session "sess" 500) as (_ & _ & Hlive & _).
  pose proof (C6_validate_session one_session "other" 0) as (Hnone & _).
  destruct (Hexp {| user_id := "bob"; email := "bob@virginia.edu";
                    expires := 500; created := 0 |} eq_refl)
    as (H1 & H2 & _); [simpl; lia|].
  split; [|split; [|split]].
  - exact H1.
  - exact H2.
  - apply (Hlive {| user_id := "bob"; email := "bob@virginia.edu";
                    expires := 500; created := 0 |} eq_refl). simpl. lia.
  - apply Hnone. reflexivity.
Defined.

(** A hub restricted to a domain other than the one [_email_to_user_id]
    tests for. *)
Definition example_com_config : Config.AuthConfig :=
  {| Config.method := "magic_link";
     Config.email_domain := Some "example.com";
     Config.session_duration_hours := 24;
     Config.oauth_provider := None; Config.oauth_client_id := None |}.

(** [C9], as stated, fails: on a hub configured with the domain
    [example.com], the address [bob@example.com] matches the configured
    domain, a link is issued and verified for it, and the user id is the
    hash prefix [5ff860bf1190], not the local part [bob]. *)
Lemma C9_configured_domain_counterexample :
  Config.validate_email example_com_config "bob@example.com" = true
  /\ (verify_magic_link
        (send_magic_link (new example_com_config) "bob@example.com" "tok" 0).2
        "tok" "sess" 1 2 3).1
     = VerifyOk "sess" "5ff860bf1190" "bob@example.com" (2 + 24 * hour)
  /\ _email_to_user_id "bob@example.com"
     <> PyStr.before_first "@" "bob@example.com".
Proof.
  vm_compute. split; [reflexivity|]. split; [reflexivity|discriminate].
Qed.

(** [C9], amended.  The derivation is a function of the email alone, with
    no reference to the configured domain: an email ending in
    ["@virginia.edu"] maps to what precedes its first ['@'] (so
    [loc@virginia.edu] maps to [loc]); any other email maps to the first
    12 hexadecimal digits of its SHA-256 digest, a string of length 12;
    equal emails give equal user ids. *)
Theorem C9_email_to_user_id mail :
  (PyStr.endswith mail "@virginia.edu" = true ->
     _email_to_user_id mail = PyStr.before_first "@" mail)
  /\ (forall loc, PyStr.contains loc "@" = false ->
        mail = loc ++ "@virginia.edu" -> _email_to_user_id mail = loc)
  /\ (PyStr.endswith mail "@virginia.edu" = false ->
        _email_to_user_id mail = PyStr.take 12 (Sha256.hexdigest mail)
        /\ String.length (_email_to_user_id mail) = 12%nat)
  /\ (forall mail', mail' = mail ->
        _email_to_user_id mail' = _email_to_user_id mail).
Proof.
  split; [|split; [|split]].
  - intros H. unfold _email_to_user_id. by rewrite H.
  - intros loc Hloc ->. by apply email_to_user_id_local.
  - intros H. unfold _email_to_user_id. rewrite H. split; [done|].
    apply length_email_hash.
  - by intros mail' ->.
Qed.

Lemma C9_email_to_user_id_witness :
  _email_to_user_id "bob@virginia.edu" = "bob"
  /\ _email_to_user_id "bob@other.edu" = "bc39850ea4c1"
  /\ String.length (_email_to_user_id "bob@other.edu") = 12%nat.
Proof.
  pose proof (C9_email_to_user_id "bob@virginia.edu") as (_ & Hloc & _).
  pose proof (C9_email_to_user_id "bob@other.edu") as (_ & _ & Hhash & _).
  split; [|split].
  - apply (Hloc "bob"); reflexivity.
  - destruct Hhash as [Heq _]; [vm_compute; reflexivity|].
    rewrite Heq. vm_compute. reflexivity.
  - destruct Hhash as [_ Hlen]; [vm_compute; reflexivity|]. exact Hlen.
Defined.

(** Two distinct pending links, verified one after the other. *)
Lemma verify_two m a b pa pb sa sb a0 a1 a2 b0 b1 b2 :
  a <> b -> sa <> sb ->
  _pending_links m !! a = Some pa ->
  _pending_links m !! b = Some pb ->
  a0 <= pl_expires pa -> b0 <= pl_expires pb ->
  let dur := Config.session_duration_hours (config m) * hour in
  0 <= a1 <= datetime_max -> 0 <= a1 + dur <= datetime_max ->
  0 <= b1 <= datetime_max -> 0 <= b1 + dur <= datetime_max ->
  let ra := verify_magic_link m a sa a0 a1 a2 in
  let rb := verify_magic_link ra.2 b sb b0 b1 b2 in
  ra.1 = VerifyOk sa (_email_to_user_id (pl_email pa)) (pl_email pa) (a1 + dur)
  /\ rb.1 = VerifyOk sb (_email_to_user_id (pl_email pb)) (pl_email pb)
                     (b1 + dur)
  /\ _sessions rb.2 !! sa
     = Some {| user_id := _email_to_user_id (pl_email pa);
               email := pl_email pa; expires := a1 + dur; created := a2 |}
  /\ _sessions rb.2 !! sb
     = Some {| user_id := _email_to_user_id (pl_email pb);
               email := pl_email pb; expires := b1 + dur; created := b2 |}
  /\ _pending_links rb.2 !! a = None
  /\ _pending_links rb.2 !! b = None.
Proof.
  intros Hab Hs Ha Hb Hla Hlb dur Ha1 Hae Hb1 Hbe ra rb.
  destruct (verify_pending m a sa a0 a1 a2 pa _ Ha Hla
              (after_in_calendar _ _ Ha1 Hae))
    as (Hra & Hsa & _ & Hda & Hoa & Hca).
  fold ra in Hra, Hsa, Hda, Hoa, Hca.
  assert (Hb' : _pending_links ra.2 !! b = Some pb)
    by (rewrite Hoa; [done|congruence]).
  assert (Hbe' : after b1 (Config.session_duration_hours (config ra.2) * hour)
                 = Some (b1 + dur))
    by (rewrite Hca; by apply after_in_calendar).
  destruct (verify_pending ra.2 b sb b0 b1 b2 pb _ Hb' Hlb Hbe')
    as (Hrb & Hsb & Hosb & Hdb & Hob & _).
  fold rb in Hrb, Hsb, Hosb, Hdb, Hob.
  repeat split; try done.
  - rewrite Hosb; [done|congruence].
  - rewrite Hob; [done|done].
Qed.

(** [C10], as stated, fails: on a hub configured with sessions of
    100000000 hours, two links requested for one email on 2026-01-01 are
    both pending, but neither can be verified with success: each
    verification raises [OverflowError] and leaves both links pending. *)
Lemma C10_overflow_counterexample :
  let m2 := (send_magic_link
               (send_magic_link (new long_session_config)
                  "bob@virginia.edu" "A" new_year_2026).2
               "bob@virginia.edu" "B" new_year_2026).2 in
  _pending_links m2 !! "A"
    = Some {| pl_email := "bob@virginia.edu";
              pl_expires := new_year_2026 + 15 * minute |}
  /\ _pending_links m2 !! "B"
     = Some {| pl_email := "bob@virginia.edu";
               pl_expires := new_year_2026 + 15 * minute |}
  /\ verify_magic_link m2 "A" "s1" new_year_2026 new_year_2026 new_year_2026
     = (VerifyOverflowError, m2)
  /\ verify_magic_link m2 "B" "s2" new_year_2026 new_year_2026 new_year_2026
     = (VerifyOverflowError, m2).
Proof.
  vm_compute. split; [reflexivity|]. split; [reflexivity|].
  split; reflexivity.
Qed.

(** [C10], amended.  After two accepted [send_magic_link] calls for one
    email, with distinct tokens drawn, both tokens are pending at once,
    each with its own 15-minute expiry.  Verifying them before expiry, in
    either order and with distinct session tokens drawn, at times from
    which the session's expiry [now + session_duration_hours] is still a
    date of the calendar, succeeds for both with the same user id and
    leaves two sessions; after that neither token verifies again.  The
    clock readings and the two link expiries are dates of the calendar. *)
Theorem C10_second_link_keeps_first m mail tok1 tok2 t1 t2 :
  Config.validate_email (config m) mail = true ->
  tok1 <> tok2 ->
  0 <= t1 -> t1 + 15 * minute <= datetime_max ->
  0 <= t2 -> t2 + 15 * minute <= datetime_max ->
  let m1 := (send_magic_link m mail tok1 t1).2 in
  let m2 := (send_magic_link m1 mail tok2 t2).2 in
  (send_magic_link m mail tok1 t1).1
    = SendOk ("Magic link sent to " ++ mail) tok1
  /\ (send_magic_link m1 mail tok2 t2).1
     = SendOk ("Magic link sent to " ++ mail) tok2
  /\ _pending_links m2 !! tok1
     = Some {| pl_email := mail; pl_expires := t1 + 15 * minute |}
  /\ _pending_links m2 !! tok2
     = Some {| pl_email := mail; pl_expires := t2 + 15 * minute |}
  /\ forall a b ta tb,
       (a, ta, b, tb) = (tok1, t1, tok2, t2)
       \/ (a, ta, b, tb) = (tok2, t2, tok1, t1) ->
       forall sa sb a0 a1 a2 b0 b1 b2,
         sa <> sb ->
         a0 <= ta + 15 * minute -> b0 <= tb + 15 * minute ->
         let dur := Config.session_duration_hours (config m) * hour in
         0 <= a1 <= datetime_max -> 0 <= a1 + dur <= datetime_max ->
         0 <= b1 <= datetime_max -> 0 <= b1 + dur <= datetime_max ->
         let ra := verify_magic_link m2 a sa a0 a1 a2 in
         let rb := verify_magic_link ra.2 b sb b0 b1 b2 in
         ra.1 = VerifyOk sa (_email_to_user_id mail) mail (a1 + dur)
         /\ rb.1 = VerifyOk sb (_email_to_user_id mail) mail (b1 + dur)
         /\ _sessions rb.2 !! sa
            = Some {| user_id := _email_to_user_id mail; email := mail;
                      expires := a1 + dur; created := a2 |}
         /\ _sessions rb.2 !! sb
            = Some {| user_id := _email_to_user_id mail; email := mail;
                      expires := b1 + dur; created := b2 |}
         /\ (forall s' x y z,
               (verify_magic_link rb.2 a s' x y z).1
                 = VerifyError "Invalid or expired link")
         /\ (forall s' x y z,
               (verify_magic_link rb.2 b s' x y z).1
                 = VerifyError "Invalid or expired link").
Proof.
  intros Hv Hne Ht1 Hx1 Ht2 Hx2 m1 m2.
  destruct (send_accepted m mail tok1 t1 Hv Ht1 Hx1)
    as (Hr1 & Hp1 & _ & _ & Hc1).
  fold m1 in Hp1, Hc1.
  assert (Hv1 : Config.validate_email (config m1) mail = true)
    by (by rewrite Hc1).
  destruct (send_accepted m1 mail tok2 t2 Hv1 Ht2 Hx2)
    as (Hr2 & Hp2 & Ho2 & _ & Hc2).
  fold m2 in Hp2, Ho2, Hc2.
  assert (Hp1' : _pending_links m2 !! tok1
                 = Some {| pl_email := mail; pl_expires := t1 + 15 * minute |})
    by (rewrite Ho2; done).
  assert (Hcfg : config m2 = config m) by congruence.
  split; [done|]. split; [done|]. split; [done|]. split; [done|].
  intros a b ta tb Hord sa sb a0 a1 a2 b0 b1 b2 Hs Hla Hlb dur
    Ha1 Hae Hb1 Hbe ra rb.
  assert (Hgen : exists pa pb, a <> b
            /\ _pending_links m2 !! a = Some pa
            /\ _pending_links m2 !! b = Some pb
            /\ pl_email pa = mail /\ pl_email pb = mail
            /\ pl_expires pa = ta + 15 * minute
            /\ pl_expires pb = tb + 15 * minute).
  { destruct Hord as [[= -> -> -> ->]|[= -> -> -> ->]];
      eexists _, _; (split; [congruence|]);
      (split; [eassumption|]); (split; [eassumption|]); done. }
  destruct Hgen as (pa & pb & Hab & Ha & Hb & Hea & Heb & Hxa & Hxb).
  destruct (verify_two m2 a b pa pb sa sb a0 a1 a2 b0 b1 b2 Hab Hs Ha Hb)
    as (H1 & H2 & H3 & H4 & H5 & H6);
    [lia|lia|done|by rewrite Hcfg|done|by rewrite Hcfg|].
  fold ra in H1. fold rb in H2, H3, H4, H5, H6.
  rewrite Hcfg, Hea in H1, H3. rewrite Hcfg, Heb in H2, H4.
  repeat split; try done.
  - intros. by rewrite verify_unknown.
  - intros. by rewrite verify_unknown.
Qed.

Lemma C10_second_link_keeps_first_witness :
  let m2 := (send_magic_link
               (send_magic_link (new open_config) "bob@virginia.edu" "A" 0).2
               "bob@virginia.edu" "B" 5).2 in
  (verify_magic_link m2 "B" "s1" 10 11 12).1
    = VerifyOk "s1" "bob" "bob@virginia.edu" (11 + 24 * hour)
  /\ (verify_magic_link (verify_magic_link m2 "B" "s1" 10 11 12).2
                        "A" "s2" 20 21 22).1
     = VerifyOk "s2" "bob" "bob@virginia.edu" (21 + 24 * hour).
Proof.
  intros m2.
  pose proof (C10_second_link_keeps_first (new open_config)
                "bob@virginia.edu" "A" "B" 0 5 eq_refl) as H.
  destruct H as (_ & _ & _ & _ & H);
    [discriminate|lia|vm_compute; discriminate
    |lia|vm_compute; discriminate|].
  destruct (H "B" "A" 5 0 (or_intror eq_refl) "s1" "s2" 10 11 12 20 21 22)
    as (H1 & H2 & _);
    [discriminate|vm_compute; discriminate|vm_compute; discriminate
    |vm_compute; split; discriminate|vm_compute; split; discriminate
    |vm_compute; split; discriminate|vm_compute; split; discriminate|].
  split; [exact H1|exact H2].
Defined.

End AuthFacts.

(** ** Consent ledger *)

Module ConsentFacts.
Import Consent.

(** A policy under which consent is not required. *)
Definition optional_config : Config.ConsentConfig :=
  {| Config.required := false; Config.title := "Consent Required";
     Config.text := ""; Config.data_usage := [];
     Config.data_shared_with := []; Config.revocable := true;
     Config.optional_participation := true |}.

(** [C7], as stated, fails: under a policy that does not require consent,
    a user without a record gets the no-record error from [revoke_consent],
    yet [has_consented] is [true] for that user before and after. *)
Lemma C7_not_required_counterexample :
  _consents (new optional_config) !! "u1" = None
  /\ revoke_consent (new optional_config) "u1" 0
     = (RevokeError "No consent record found", new optional_config)
  /\ has_consented (new optional_config) "u1" = true
  /\ has_consented (revoke_consent (new optional_config) "u1" 0).2 "u1"
     = true.
Proof. repeat split. Qed.

(** [C7], amended.  When the policy disallows revocation, [revoke_consent]
    fails with the not-revocable error for every user.  Otherwise, for a
    user with no record it fails with the no-record error.  In both cases
    the ledger is unchanged, so [has_consented] gives the same answer
    before and after: [false] when the policy requires consent, [true]
    when it does not. *)
Theorem C7_revoke_without_record m uid now :
  (Config.revocable (config m) = false ->
     revoke_consent m uid now
       = (RevokeError "Consent cannot be revoked for this hub", m))
  /\ (_consents m !! uid = None ->
        (Config.revocable (config m) = true ->
           revoke_consent m uid now
             = (RevokeError "No consent record found", m))
        /\ (revoke_consent m uid now).2 = m
        /\ has_consented (revoke_consent m uid now).2 uid
           = has_consented m uid
        /\ (Config.required (config m) = true ->
              has_consented m uid = false
              /\ has_consented (revoke_consent m uid now).2 uid = false)
        /\ (Config.required (config m) = false ->
              has_consented m uid = true
              /\ has_consented (revoke_consent m uid now).2 uid = true)).
Proof.
  split.
  - intros H. unfold revoke_consent. by rewrite H.
  - intros Hnone.
    assert (Hsame : (revoke_consent m uid now).2 = m).
    { unfold revoke_consent. rewrite Hnone.
      by destruct (Config.revocable (config m)). }
    rewrite Hsame. repeat split; try done.
    + intros H. unfold revoke_consent. by rewrite H, Hnone.
    + unfold has_consented. by rewrite H, Hnone.
    + unfold has_consented. by rewrite H, Hnone.
    + unfold has_consented. by rewrite H.
    + unfold has_consented. by rewrite H.
Qed.

Definition required_config : Config.ConsentConfig :=
  {| Config.required := true; Config.title := "Consent Required";
     Config.text := ""; Config.data_usage := [];
     Config.data_shared_with := []; Config.revocable := true;
     Config.optional_participation := true |}.

Lemma C7_revoke_without_record_witness :
  revoke_consent (new required_config) "u1" 7
    = (RevokeError "No consent record found", new required_config)
  /\ has_consented (new required_config) "u1" = false
  /\ has_consented (revoke_consent (new required_config) "u1" 7).2 "u1"
     = false.
Proof.
  pose proof (C7_revoke_without_record (new required_config) "u1" 7)
    as (_ & H).
  destruct (H eq_refl) as (Hrev & _ & _ & Hreq & _).
  destruct (Hreq eq_refl) as (Hb & Ha).
  split; [exact (Hrev eq_refl)|]. split; [exact Hb|exact Ha].
Defined.

End ConsentFacts.

(** ** The effect monad *)

Module EffFacts.
Import Py Eff.

Lemma bind_ok {A B} (m : M A) (f : A -> M B) s a s' :
  m s = (Ok a, s') -> (m ≫= f) s = f a s'.
Proof. intros H. unfold mbind, M_bind. by rewrite H. Qed.

Lemma bind_raise {A B} (m : M A) (f : A -> M B) s e s' :
  m s = (Raise e, s') -> (m ≫= f) s = (Raise e, s').
Proof. intros H. unfold mbind, M_bind. by rewrite H. Qed.

Lemma emit_run ev s : emit ev s = (Ok tt, with_event s ev).
Proof. reflexivity. Qed.

(** One step of a run: rewrite the head of a bind with a known outcome. *)
Ltac step_ok H := rewrite (bind_ok _ _ _ _ _ H).
Ltac step_raise H := rewrite (bind_raise _ _ _ _ _ H).
Ltac step_emit s := rewrite (bind_ok _ _ _ _ _ (emit_run _ s)).

End EffFacts.

(** ** Agent router *)

Module RouterFacts.
Import Py Eff Router.

(** Reading an envelope back: the skill it names and the parameter bag of
    its data part. *)
Definition field (key : string) (v : json) : option json :=
  match v with
  | JDict d => d !! key
  | _ => None
  end.

Definition data_part (envelope : json) : option json :=
  p ← field "params" envelope;
  m ← field "message" p;
  parts ← field "parts" m;
  match parts with
  | JList [part] => field "data" part
  | _ => None
  end.

Definition envelope_skill (envelope : json) : option string :=
  d ← data_part envelope;
  match field "skill" d with
  | Some (JStr sk) => Some sk
  | _ => None
  end.

Definition envelope_parameters (envelope : json) : option dict :=
  d ← data_part envelope;
  match field "parameters" d with
  | Some (JDict bag) => Some bag
  | _ => None
  end.

Lemma build_a2a_message_run w skill_id user_id params s :
  _build_a2a_message w skill_id user_id params s
    = (Ok (a2a_envelope (uuid4 w (uuid_count s)) skill_id user_id params),
       {| trace := trace s; uuid_count := S (uuid_count s) |}).
Proof. reflexivity. Qed.

Lemma envelope_skill_spec mid skill_id user_id params :
  envelope_skill (a2a_envelope mid skill_id user_id params) = Some skill_id.
Proof. reflexivity. Qed.

Lemma envelope_parameters_spec mid skill_id user_id params :
  envelope_parameters (a2a_envelope mid skill_id user_id params)
    = Some (params ∪ {[ "user_id" := JStr user_id ]}).
Proof. reflexivity. Qed.

(** Every caller-supplied entry is in the bag, and the bag has a
    [user_id] entry. *)
Lemma bag_keeps_params (params : dict) user_id k v :
  params !! k = Some v ->
  (params ∪ {[ "user_id" := JStr user_id ]}) !! k = Some v.
Proof. intros H. by apply lookup_union_Some_l. Qed.

(** When [params] has no [user_id] entry of its own, the bag carries the
    caller's id. *)
Lemma bag_user_id_fresh (params : dict) user_id :
  params !! "user_id" = None ->
  (params ∪ {[ "user_id" := JStr user_id ]}) !! "user_id"
    = Some (JStr user_id).
Proof.
  intros H. rewrite lookup_union_r by done. apply lookup_singleton_eq.
Qed.

(** [C4] fails on the code when [params] has a [user_id] entry of its
    own: the envelope still names the target skill and keeps every
    caller-supplied entry, but the [user_id] of its parameter bag is the
    one from [params], whatever the caller's user id is. *)
Theorem C4_params_override_user_id w skill_id user_id params v s :
  params !! "user_id" = Some v ->
  exists envelope bag,
    (_build_a2a_message w skill_id user_id params s).1 = Ok envelope
    /\ envelope_skill envelope = Some skill_id
    /\ envelope_parameters envelope = Some bag
    /\ bag !! "user_id" = Some v
    /\ (forall k x, params !! k = Some x -> bag !! k = Some x).
Proof.
  intros Hv. rewrite build_a2a_message_run. simpl.
  eexists _, _. split; [reflexivity|].
  split; [apply envelope_skill_spec|].
  split; [apply envelope_parameters_spec|].
  split.
  - by apply bag_keeps_params.
  - intros k x Hk. by apply bag_keeps_params.
Qed.

(** A world in which no agent answers; identifiers are all ["id"]. *)
Definition silent_world : World :=
  {| uuid4 := fun _ => "id";
     http_post := fun _ _ _ => HttpFail "connection refused" |}.

Definition initial_state : State := {| trace := []; uuid_count := 0 |}.

(** The caller is [alice]; the request body carries [user_id = mallory]. *)
Lemma C4_params_override_user_id_witness :
  exists envelope bag,
    (_build_a2a_message silent_world "grade" "alice"
       {[ "user_id" := JStr "mallory" ]} initial_state).1 = Ok envelope
    /\ envelope_parameters envelope = Some bag
    /\ bag !! "user_id" = Some (JStr "mallory")
    /\ bag !! "user_id" <> Some (JStr "alice").
Proof.
  destruct (C4_params_override_user_id silent_world "grade" "alice"
              {[ "user_id" := JStr "mallory" ]} (JStr "mallory")
              initial_state)
    as (envelope & bag & He & _ & Hb & Hu & _); [reflexivity|].
  exists envelope, bag. split; [exact He|]. split; [exact Hb|].
  split; [exact Hu|]. rewrite Hu. discriminate.
Defined.

(** *** Unwrapping a response *)

(** A part that is an object and whose [kind] is not ["data"]. *)
Definition plain_part (p : json) : Prop :=
  exists d, p = JDict d /\ eq_str (default JNull (d !! "kind")) "data" = false.

Lemma first_data_part_none parts :
  Forall plain_part parts -> first_data_part parts = Ok None.
Proof.
  induction 1 as [|p parts (d & -> & Hk) _ IH]; simpl; [done|].
  by rewrite Hk.
Qed.

Lemma first_data_part_found pre (part : dict) post :
  Forall plain_part pre ->
  part !! "kind" = Some (JStr "data") ->
  first_data_part (pre ++ JDict part :: post)
    = Ok (Some (default (JDict ∅) (part !! "data"))).
Proof.
  intros Hpre Hkind.
  induction Hpre as [|p pre (d & -> & Hk) _ IH]; simpl.
  - by rewrite Hkind.
  - by rewrite Hk.
Qed.

Lemma extract_result_no_artifacts (r : dict) :
  r !! "artifacts" = None -> _extract_result (JDict r) = Ok (JDict r).
Proof.
  intros H. unfold _extract_result. simpl.
  rewrite bool_decide_eq_false_2; [done|]. rewrite H. by intros [? ?].
Qed.

Lemma extract_result_artifacts (r : dict) artifacts :
  r !! "artifacts" = Some artifacts ->
  _extract_result (JDict r)
    = if truthy artifacts then
        n ← len artifacts;
        if 0 <? n then
          first ← getitem_0 artifacts;
          parts ← get first "parts" (JList []);
          items ← iter parts;
          found ← first_data_part items;
          match found with
          | Some d => Ok d
          | None => Ok (JDict r)
          end
        else Ok (JDict r)
      else Ok (JDict r).
Proof.
  intros H. unfold _extract_result. simpl.
  rewrite bool_decide_eq_true_2 by (by rewrite H). simpl. by rewrite H.
Qed.

Lemma extract_result_empty_artifacts (r : dict) :
  r !! "artifacts" = Some (JList []) -> _extract_result (JDict r) = Ok (JDict r).
Proof. intros H. by rewrite (extract_result_artifacts r _ H). Qed.

Lemma extract_result_data_part (r art : dict) rest pre (part : dict) post :
  r !! "artifacts" = Some (JList (JDict art :: rest)) ->
  art !! "parts" = Some (JList (pre ++ JDict part :: post)) ->
  Forall plain_part pre ->
  part !! "kind" = Some (JStr "data") ->
  _extract_result (JDict r) = Ok (default (JDict ∅) (part !! "data")).
Proof.
  intros Ha Hp Hpre Hk. rewrite (extract_result_artifacts r _ Ha). simpl.
  rewrite Hp. simpl. by rewrite (first_data_part_found pre part post Hpre Hk).
Qed.

Lemma extract_result_no_data_part (r art : dict) rest parts :
  r !! "artifacts" = Some (JList (JDict art :: rest)) ->
  art !! "parts" = Some (JList parts) ->
  Forall plain_part parts ->
  _extract_result (JDict r) = Ok (JDict r).
Proof.
  intros Ha Hp Hparts. rewrite (extract_result_artifacts r _ Ha). simpl.
  rewrite Hp. simpl. by rewrite (first_data_part_none parts Hparts).
Qed.

Lemma extract_result_no_parts (r art : dict) rest :
  r !! "artifacts" = Some (JList (JDict art :: rest)) ->
  art !! "parts" = None ->
  _extract_result (JDict r) = Ok (JDict r).
Proof.
  intros Ha Hp. rewrite (extract_result_artifacts r _ Ha). simpl.
  by rewrite Hp.
Qed.

Lemma unwrap_response_result (d : dict) r :
  d !! "result" = Some r -> unwrap_response (JDict d) = _extract_result r.
Proof.
  intros H. unfold unwrap_response. simpl.
  rewrite bool_decide_eq_true_2 by (by rewrite H). simpl. by rewrite H.
Qed.

Lemma unwrap_response_no_result (d : dict) :
  d !! "result" = None ->
  unwrap_response (JDict d)
    = match d !! "error" with
      | Some e => Raise (AgentError e)
      | None => Ok (JDict d)
      end.
Proof.
  intros H. unfold unwrap_response. simpl.
  rewrite (bool_decide_eq_false_2 (is_Some (d !! "result")))
    by (rewrite H; by intros [? ?]).
  simpl. destruct (d !! "error") as [e|] eqn:He.
  - by rewrite bool_decide_eq_true_2.
  - rewrite bool_decide_eq_false_2; [done|]. by intros [? ?].
Qed.

Lemma send_to_agent_reply w agent_url message s data :
  http_post w (trace s) agent_url message = Reply data ->
  _send_to_agent w agent_url message s
    = (unwrap_response data, with_event s (Post agent_url message)).
Proof.
  intros H. unfold _send_to_agent, mbind, M_bind, post. rewrite H.
  unfold lift. by destruct (unwrap_response data).
Qed.

Lemma send_to_agent_http_fail w agent_url message s msg :
  http_post w (trace s) agent_url message = HttpFail msg ->
  _send_to_agent w agent_url message s
    = (Raise (HTTPError msg), with_event s (Post agent_url message)).
Proof. intros H. unfold _send_to_agent, mbind, M_bind, post. by rewrite H. Qed.

Lemma send_to_agent_bad_json w agent_url message s msg :
  http_post w (trace s) agent_url message = BadJson msg ->
  _send_to_agent w agent_url message s
    = (Raise (JSONDecodeError msg), with_event s (Post agent_url message)).
Proof. intros H. unfold _send_to_agent, mbind, M_bind, post. by rewrite H. Qed.

(** An agent whose every answer is [data]. *)
Definition constant_world (data : json) : World :=
  {| uuid4 := fun _ => "id"; http_post := fun _ _ _ => Reply data |}.

Definition result_and_error : json :=
  JDict {[ "result" := JDict {[ "status" := JStr "ok" ]};
           "error" := JDict {[ "code" := JInt (-32000) ]} ]}.

Definition plain_result : json :=
  JDict {[ "jsonrpc" := JStr "2.0";
           "result" := JDict {[ "status" := JStr "ok" ]} ]}.

(** A first artifact whose data part comes after a part that is a bare
    string. *)
Definition string_part_reply : json :=
  JDict {[ "jsonrpc" := JStr "2.0";
           "result" := JDict {[
             "artifacts" := JList [
               JDict {[ "parts" := JList [
                 JStr "oops";
                 JDict {[ "kind" := JStr "data";
                          "data" := JDict {[ "grade" := JInt 9 ]} ]} ] ]} ]
           ]} ]}.

(** [C8], as stated, fails: a response that carries an [error] field
    together with a [result] field raises nothing, the result is returned;
    a response with a [result] that has no artifacts is not returned as it
    came, only its [result] field is; and a first artifact whose data part
    comes after a part that is not an object yields no payload at all, the
    lookup of [kind] on that part raises [AttributeError]. *)
Lemma C8_error_with_result_counterexample :
  py_in "error" result_and_error = Ok true
  /\ (_send_to_agent (constant_world result_and_error) "http://agent"
        (JDict ∅) initial_state).1
     = Ok (JDict {[ "status" := JStr "ok" ]})
  /\ (_send_to_agent (constant_world plain_result) "http://agent"
        (JDict ∅) initial_state).1
     = Ok (JDict {[ "status" := JStr "ok" ]})
  /\ (_send_to_agent (constant_world plain_result) "http://agent"
        (JDict ∅) initial_state).1
     <> Ok plain_result
  /\ (_send_to_agent (constant_world string_part_reply) "http://agent"
        (JDict ∅) initial_state).1
     = Raise (Builtin (NoAttribute TStr "get")).
Proof.
  split; [reflexivity|]. split; [reflexivity|]. split; [reflexivity|].
  split; [|reflexivity].
  intros H. vm_compute in H. discriminate H.
Qed.

(** [C8], amended.  For a response that is a JSON object [d]:
    - with no [result] field and an [error] field [e], the call raises the
      agent error carrying [e];
    - with a [result] object whose [artifacts] field is a list that starts
      with an object, the first artifact, whose [parts] field is a list in
      which the object [part] has kind ["data"] and comes after objects of
      another kind only, the call returns the [data] field of [part] ([{}]
      when it has none);
    - with a [result] object that has no [artifacts] field or an empty
      [artifacts] list, the call returns that result as it is;
    - with a [result] object whose first artifact is an object that has no
      [parts] field, or whose [parts] field is a list of objects none of
      which has kind ["data"], the call returns that result as it is;
    - with neither [result] nor [error], the call returns [d] itself. *)
Theorem C8_send_to_agent_unwraps w agent_url message s (d : dict) :
  http_post w (trace s) agent_url message = Reply (JDict d) ->
  let out := (_send_to_agent w agent_url message s).1 in
  (forall e, d !! "result" = None -> d !! "error" = Some e ->
     out = Raise (AgentError e))
  /\ (forall (r art : dict) rest pre (part : dict) post,
        d !! "result" = Some (JDict r) ->
        r !! "artifacts" = Some (JList (JDict art :: rest)) ->
        art !! "parts" = Some (JList (pre ++ JDict part :: post)) ->
        Forall plain_part pre ->
        part !! "kind" = Some (JStr "data") ->
        out = Ok (default (JDict ∅) (part !! "data")))
  /\ (forall r : dict,
        d !! "result" = Some (JDict r) ->
        r !! "artifacts" = None \/ r !! "artifacts" = Some (JList []) ->
        out = Ok (JDict r))
  /\ (forall (r art : dict) rest,
        d !! "result" = Some (JDict r) ->
        r !! "artifacts" = Some (JList (JDict art :: rest)) ->
        art !! "parts" = None ->
        out = Ok (JDict r))
  /\ (forall (r art : dict) rest parts,
        d !! "result" = Some (JDict r) ->
        r !! "artifacts" = Some (JList (JDict art :: rest)) ->
        art !! "parts" = Some (JList parts) ->
        Forall plain_part parts ->
        out = Ok (JDict r))
  /\ (d !! "result" = None -> d !! "error" = None -> out = Ok (JDict d)).
Proof.
  intros Hreply out. subst out.
  rewrite (send_to_agent_reply _ _ _ _ _ Hreply). simpl.
  split; [|split; [|split; [|split; [|split]]]].
  - intros e Hr He. by rewrite unwrap_response_no_result, He.
  - intros r art rest pre part post Hr Ha Hp Hpre Hk.
    rewrite (unwrap_response_result d _ Hr).
    by apply (extract_result_data_part r art rest pre part post).
  - intros r Hr [Ha|Ha]; rewrite (unwrap_response_result d _ Hr).
    + by apply extract_result_no_artifacts.
    + by apply extract_result_empty_artifacts.
  - intros r art rest Hr Ha Hp.
    rewrite (unwrap_response_result d _ Hr).
    by apply (extract_result_no_parts r art rest).
  - intros r art rest parts Hr Ha Hp Hparts.
    rewrite (unwrap_response_result d _ Hr).
    by apply (extract_result_no_data_part r art rest parts).
  - intros Hr He. by rewrite unwrap_response_no_result, He.
Qed.

Definition text_part : dict := {[ "kind" := JStr "text"; "text" := JStr "hi" ]}.
Definition graded_part : dict :=
  {[ "kind" := JStr "data"; "data" := JDict {[ "grade" := JInt 9 ]} ]}.
Definition artifact_reply : dict :=
  {[ "jsonrpc" := JStr "2.0";
     "result" := JDict {[
       "artifacts" := JList [
         JDict {[ "parts" := JList [JDict text_part; JDict graded_part] ]} ]
     ]} ]}.

(** A first artifact that carries a name and no [parts] field. *)
Definition bare_artifact_result : dict :=
  {[ "artifacts" := JList [ JDict {[ "name" := JStr "report" ]} ] ]}.
Definition bare_artifact_reply : dict :=
  {[ "jsonrpc" := JStr "2.0"; "result" := JDict bare_artifact_result ]}.

Lemma C8_send_to_agent_unwraps_witness :
  (_send_to_agent (constant_world (JDict artifact_reply)) "http://agent"
     (JDict ∅) initial_state).1
  = Ok (JDict {[ "grade" := JInt 9 ]})
  /\ (_send_to_agent (constant_world (JDict bare_artifact_reply))
        "http://agent" (JDict ∅) initial_state).1
     = Ok (JDict bare_artifact_result).
Proof.
  pose proof (C8_send_to_agent_unwraps (constant_world (JDict artifact_reply))
                "http://agent" (JDict ∅) initial_state artifact_reply eq_refl)
    as (_ & H & _).
  pose proof (C8_send_to_agent_unwraps
                (constant_world (JDict bare_artifact_reply))
                "http://agent" (JDict ∅) initial_state bare_artifact_reply
                eq_refl)
    as (_ & _ & _ & Hbare & _).
  split;
    [|apply (Hbare bare_artifact_result {[ "name" := JStr "report" ]} []);
      reflexivity].
  apply (H {[ "artifacts" := JList [
                JDict {[ "parts" := JList [JDict text_part;
                                           JDict graded_part] ]} ] ]}
           {[ "parts" := JList [JDict text_part; JDict graded_part] ]}
           [] [JDict text_part] graded_part []).
  - reflexivity.
  - reflexivity.
  - reflexivity.
  - constructor; [|constructor]. exists text_part. split; reflexivity.
  - reflexivity.
Defined.

(** *** Precondition checks *)

Lemma parse_precondition_bare ref :
  PyStr.contains ref "." = false -> parse_precondition ref = ("le_veilleur", ref).
Proof. intros H. unfold parse_precondition. by rewrite H. Qed.

Lemma parse_precondition_dotted a b :
  PyStr.contains a "." = false ->
  parse_precondition (a ++ "." ++ b) = (a, b).
Proof.
  intros H. unfold parse_precondition.
  assert (Hc : PyStr.contains (a ++ "." ++ b) "." = true).
  { clear H. induction a as [|c a IH]; simpl; [done|].
    rewrite IH. by destruct (Ascii.eqb c "."). }
  rewrite Hc. f_equal.
  - by apply (PyStrFacts.before_first_app "."%char a b).
  - induction a as [|c a IH]; simpl in *; [done|].
    destruct (Ascii.eqb c "."); simpl in *; [done|]. by apply IH.
Qed.

(** A missing agent: the answer is [{"satisfied": True}], nothing is sent
    and no identifier is drawn. *)
Lemma check_precondition_fail_open rt w agents ref user_id params s :
  agents !! (parse_precondition ref).1 = None ->
  check_precondition rt w agents ref user_id params s
    = (Ok (JDict {[ "satisfied" := JBool true ]}), s).
Proof.
  intros H. unfold check_precondition.
  destruct (parse_precondition ref) as [agent_name skill_name].
  simpl in H. by rewrite H.
Qed.

(** The request a precondition check sends. *)
Definition check_message (w : World) (ref user_id : string) (params : dict)
    (s : State) : json :=
  a2a_envelope (uuid4 w (uuid_count s)) (parse_precondition ref).2 user_id
               (params ∪ {[ "student_id" := JStr user_id ]}).

Definition after_uuid (s : State) : State :=
  {| trace := trace s; uuid_count := S (uuid_count s) |}.

(** A registered agent: whatever exception the [try] block raises, the
    answer is [satisfied = False] with [str(e)] as message. *)
Lemma check_precondition_fail_closed rt w agents ref user_id params s
    agent e s' :
  agents !! (parse_precondition ref).1 = Some agent ->
  (result ← _send_to_agent w (Config.url agent)
              (check_message w ref user_id params s);
   lift (interpret_precondition result)) (after_uuid s) = (Raise e, s') ->
  check_precondition rt w agents ref user_id params s
    = (Ok (JDict {[ "satisfied" := JBool false;
                    "message" := JStr (exn_str rt e) ]}), s').
Proof.
  unfold check_precondition, check_message.
  destruct (parse_precondition ref) as [agent_name skill_name]. simpl.
  intros Ha Hrun. rewrite Ha.
  unfold mbind at 1. unfold M_bind at 1. rewrite build_a2a_message_run.
  unfold try_except. fold (after_uuid s). by rewrite Hrun.
Qed.

(** [C3] [check_precondition] on a reference whose agent is not registered
    returns [{"satisfied": True}] without raising and without sending
    anything; on a reference whose agent is registered and whose network
    call fails (an HTTP error, or a body that is not JSON) it returns
    [satisfied = False] together with the message of that error, again
    without raising; a reference without ['.'] names the agent
    [le_veilleur] and the whole reference as skill. *)
Theorem C3_check_precondition rt w agents ref user_id params s :
  (agents !! (parse_precondition ref).1 = None ->
     check_precondition rt w agents ref user_id params s
       = (Ok (JDict {[ "satisfied" := JBool true ]}), s))
  /\ (forall agent msg,
        agents !! (parse_precondition ref).1 = Some agent ->
        http_post w (trace s) (Config.url agent)
                  (check_message w ref user_id params s) = HttpFail msg
        \/ http_post w (trace s) (Config.url agent)
                     (check_message w ref user_id params s) = BadJson msg ->
        (check_precondition rt w agents ref user_id params s).1
          = Ok (JDict {[ "satisfied" := JBool false;
                         "message" := JStr msg ]}))
  /\ (PyStr.contains ref "." = false ->
        parse_precondition ref = ("le_veilleur", ref)).
Proof.
  split; [|split].
  - apply check_precondition_fail_open.
  - intros agent msg Ha [Hfail|Hfail].
    + erewrite (check_precondition_fail_closed rt w agents ref user_id params
                  s agent (HTTPError msg)); [done|done|].
      EffFacts.step_raise
        (send_to_agent_http_fail w _ _ (after_uuid s) msg Hfail).
      done.
    + erewrite (check_precondition_fail_closed rt w agents ref user_id params
                  s agent (JSONDecodeError msg)); [done|done|].
      EffFacts.step_raise
        (send_to_agent_bad_json w _ _ (after_uuid s) msg Hfail).
      done.
  - apply parse_precondition_bare.
Qed.

Definition no_exposure : Config.SkillExposure :=
  {| Config.exposed := []; Config.hidden := []; Config.internal := [] |}.

Definition connection (name url : string) (se : Config.SkillExposure)
  : Config.AgentConnection :=
  {| Config.name := name; Config.url := url; Config.skill_exposure := se;
     Config.timeout_seconds := 30; Config.retry_attempts := 3;
     Config.healthy := false; Config.last_health_check := None |}.

(** A runtime whose renderings are empty, for runs in which no rendering
    takes place. *)
Definition blank_runtime : Runtime :=
  {| py_str := fun _ => ""; builtin_str := fun _ => "" |}.

Lemma C3_check_precondition_witness :
  check_precondition blank_runtime silent_world ∅ "tracker.check_pending"
                     "u1" ∅ initial_state
    = (Ok (JDict {[ "satisfied" := JBool true ]}), initial_state)
  /\ (check_precondition blank_runtime silent_world
        {[ "le_veilleur" := connection "le_veilleur" "http://lv" no_exposure ]}
        "check_pending" "u1" ∅ initial_state).1
     = Ok (JDict {[ "satisfied" := JBool false;
                    "message" := JStr "connection refused" ]})
  /\ parse_precondition "check_pending" = ("le_veilleur", "check_pending").
Proof.
  pose proof (C3_check_precondition blank_runtime silent_world ∅
                "tracker.check_pending" "u1" ∅ initial_state) as (Hopen & _).
  pose proof (C3_check_precondition blank_runtime silent_world
                {[ "le_veilleur" := connection "le_veilleur" "http://lv"
                                               no_exposure ]}
                "check_pending" "u1" ∅ initial_state) as (_ & Hclosed & Hbare).
  split; [|split].
  - apply Hopen. reflexivity.
  - apply (Hclosed (connection "le_veilleur" "http://lv" no_exposure)
                   "connection refused"); [reflexivity|].
    left. reflexivity.
  - apply Hbare. reflexivity.
Defined.

End RouterFacts.

(** ** Hub dispatcher *)

Module HubFacts.
Import Py Eff Hub.

(** With distinct ids, every loaded action is the one its id resolves to. *)
Lemma get_action_loaded hub action :
  NoDup (Config.id <$> actions hub) ->
  action ∈ actions hub ->
  _get_action hub (Config.id action) = Some action.
Proof.
  unfold _get_action. induction (actions hub) as [|a l IH]; simpl.
  - intros _ H. by apply elem_of_nil in H.
  - intros Hnd Hin. apply NoDup_cons in Hnd as [Hfresh Hnd].
    destruct (String.eqb_spec (Config.id a) (Config.id action)) as [Heq|Hne].
    + apply elem_of_cons in Hin as [->|Hin]; [done|].
      exfalso. apply Hfresh. rewrite Heq. by apply list_elem_of_fmap_2.
    + apply elem_of_cons in Hin as [->|Hin]; [done|]. by apply IH.
Qed.

(** [C1] On an initialised hub, when the action an id resolves to names a
    skill that is not in the exposed list of its (registered) agent,
    [handle_action] raises [PermissionError] and the state of the world is
    the one it started from: no hook was entered, no precondition was
    evaluated, no request was posted and no identifier was drawn.  This
    holds whatever the hooks and the agents would have done. *)
Theorem C1_unexposed_skill_denied rt w hub action_id user_id params s
    action agent :
  initialized hub = true ->
  _get_action hub action_id = Some action ->
  agents hub !! Config.agent action = Some agent ->
  Config.skill action ∉ Config.exposed (Config.skill_exposure agent) ->
  handle_action rt w hub action_id user_id params s
    = (Raise (PermissionError
                ("Skill " ++ Config.skill action ++
                 " is not available in this hub")), s).
Proof.
  intros Hinit Hact Hagent Hskill. unfold handle_action.
  rewrite Hinit, Hact, Hagent. simpl.
  unfold Config.is_user_callable. by rewrite bool_decide_eq_false_2.
Qed.

(** The hub of [tests/test_base_hub.py], with a third action that points
    at the hidden [skill_3], and with the given hooks. *)
Definition action (id agent skill : string) (precondition : option string)
  : Config.HubAction :=
  {| Config.id := id; Config.label := id; Config.icon := "";
     Config.agent := agent; Config.skill := skill;
     Config.description := ""; Config.precondition := precondition;
     Config.confirm := false; Config.confirm_message := "";
     Config.primary := false; Config.position := 0;
     Config.group := None |}.

Definition test_hub (start : string -> string -> dict -> M dict)
    (complete : string -> string -> json -> M json) : BaseHub :=
  {| initialized := true;
     agents := {[
       "agent_a" := RouterFacts.connection "agent_a" "http://localhost:8001"
          {| Config.exposed := ["skill_1"; "skill_2"];
             Config.hidden := ["skill_3"];
             Config.internal := ["skill_4"] |};
       "agent_b" := RouterFacts.connection "agent_b" "http://localhost:8002"
          {| Config.exposed := ["skill_x"];
             Config.hidden := ["skill_y"];
             Config.internal := [] |} ]};
     actions := [ action "action_1" "agent_a" "skill_1" None;
                  action "action_2" "agent_b" "skill_x" None;
                  action "action_3" "agent_a" "skill_3" None ];
     on_action_start := start;
     on_action_complete := complete |}.

(** Hooks that raise. *)
Definition failing_start (_ _ : string) (_ : dict) : M dict :=
  raise (Raised "RuntimeError" "start hook failed").
Definition failing_complete (_ _ : string) (_ : json) : M json :=
  raise (Raised "RuntimeError" "complete hook failed").

Lemma C1_unexposed_skill_denied_witness :
  handle_action RouterFacts.blank_runtime
    (RouterFacts.constant_world (JDict {[ "result" := JStr "ok" ]}))
    (test_hub failing_start failing_complete) "action_3" "u1" ∅
    RouterFacts.initial_state
  = (Raise (PermissionError "Skill skill_3 is not available in this hub"),
     RouterFacts.initial_state).
Proof.
  apply (C1_unexposed_skill_denied _ _ _ "action_3" "u1" ∅ _
           (action "action_3" "agent_a" "skill_3" None)
           (RouterFacts.connection "agent_a" "http://localhost:8001"
              {| Config.exposed := ["skill_1"; "skill_2"];
                 Config.hidden := ["skill_3"];
                 Config.internal := ["skill_4"] |})).
  - reflexivity.
  - reflexivity.
  - reflexivity.
  - vm_compute. intros H. by repeat (apply elem_of_cons in H as [H|H]; [done|]);
      apply elem_of_nil in H.
Defined.

(** An agent that answers [{"result": {"status": "ok"}}]. *)
Definition ok_world : World :=
  RouterFacts.constant_world
    (JDict {[ "result" := JDict {[ "status" := JStr "ok" ]} ]}).

(** [C2], as stated, fails: with hooks that return, [action_1] yields the
    agent's result; with a start hook that raises, or with a completion
    hook that raises, the same request ends in that exception. *)
Lemma C2_hook_failure_counterexample :
  (handle_action RouterFacts.blank_runtime ok_world
     (test_hub default_on_action_start default_on_action_complete)
     "action_1" "u1" ∅ RouterFacts.initial_state).1
  = Ok (JDict {[ "status" := JStr "ok" ]})
  /\ (handle_action RouterFacts.blank_runtime ok_world
        (test_hub failing_start default_on_action_complete)
        "action_1" "u1" ∅ RouterFacts.initial_state).1
     = Raise (Raised "RuntimeError" "start hook failed")
  /\ (handle_action RouterFacts.blank_runtime ok_world
        (test_hub default_on_action_start failing_complete)
        "action_1" "u1" ∅ RouterFacts.initial_state).1
     = Raise (Raised "RuntimeError" "complete hook failed").
Proof. split; [|split]; reflexivity. Qed.

(** [C2], amended.  Past the permission gate, an exception raised by
    [on_action_start] leaves [handle_action] as it is, before any
    precondition check or routing; an exception raised by
    [on_action_complete] leaves [handle_action] as it is, in place of the
    routed result.  When the hooks return, [handle_action] returns the
    [precondition_failed] result if the precondition step produced one
    (the completion hook is then not entered), and otherwise the routed
    result as the completion hook left it. *)
Theorem C2_hook_exception_propagates rt w hub action_id user_id params s
    action agent :
  initialized hub = true ->
  _get_action hub action_id = Some action ->
  agents hub !! Config.agent action = Some agent ->
  Config.is_user_callable (Config.skill_exposure agent) (Config.skill action)
    = true ->
  let run := handle_action rt w hub action_id user_id params s in
  let s1 := with_event s (HookStart action_id user_id params) in
  (forall e s2,
     on_action_start hub action_id user_id params s1 = (Raise e, s2) ->
     run = (Raise e, s2))
  /\ (forall params' s2,
        on_action_start hub action_id user_id params s1 = (Ok params', s2) ->
        (forall r s3,
           precondition_step rt w hub action user_id params' s2
             = (Ok (Some r), s3) ->
           run = (Ok r, s3))
        /\ (forall s3 result s4,
              precondition_step rt w hub action user_id params' s2
                = (Ok None, s3) ->
              Router.route_action w (agents hub) action user_id params' s3
                = (Ok result, s4) ->
              let s5 := with_event s4
                          (HookComplete action_id user_id result) in
              (forall e s6,
                 on_action_complete hub action_id user_id result s5
                   = (Raise e, s6) ->
                 run = (Raise e, s6))
              /\ (forall result' s6,
                    on_action_complete hub action_id user_id result s5
                      = (Ok result', s6) ->
                    run = (Ok result', s6)))).
Proof.
  intros Hinit Hact Hagent Hcall run s1. subst run.
  unfold handle_action. rewrite Hinit, Hact, Hagent, Hcall. simpl.
  EffFacts.step_emit s. fold s1.
  split.
  - intros e s2 Hstart. by EffFacts.step_raise Hstart.
  - intros params' s2 Hstart. EffFacts.step_ok Hstart.
    split.
    + intros r s3 Hpre. by EffFacts.step_ok Hpre.
    + intros s3 result s4 Hpre Hroute.
      EffFacts.step_ok Hpre. EffFacts.step_ok Hroute. EffFacts.step_emit s4.
      split.
      * intros e s6 Hc. by EffFacts.step_raise Hc.
      * intros result' s6 Hc. by EffFacts.step_ok Hc.
Qed.

Lemma C2_hook_exception_propagates_witness :
  handle_action RouterFacts.blank_runtime ok_world
    (test_hub failing_start default_on_action_complete)
    "action_1" "u1" ∅ RouterFacts.initial_state
  = (Raise (Raised "RuntimeError" "start hook failed"),
     with_event RouterFacts.initial_state (HookStart "action_1" "u1" ∅)).
Proof.
  pose proof (C2_hook_exception_propagates RouterFacts.blank_runtime ok_world
                (test_hub failing_start default_on_action_complete)
                "action_1" "u1" ∅ RouterFacts.initial_state
                (action "action_1" "agent_a" "skill_1" None)
                (RouterFacts.connection "agent_a" "http://localhost:8001"
                   {| Config.exposed := ["skill_1"; "skill_2"];
                      Config.hidden := ["skill_3"];
                      Config.internal := ["skill_4"] |})
                eq_refl eq_refl eq_refl eq_refl) as (H & _).
  apply H. reflexivity.
Defined.

End HubFacts.

(* ===================================================================== *)
(** * Further properties of the code                                      *)
(* ===================================================================== *)

(** ** Skill exposure and email validation *)

Module ConfigProps.
Import Config.

Lemma endswith_inv s suffix :
  PyStr.endswith s suffix = true -> exists p, s = p ++ suffix.
Proof.
  induction s as [|a s IH].
  - destruct suffix; simpl; [by exists ""|done].
  - change (PyStr.endswith (String a s) suffix)
      with (if String.eqb (String a s) suffix then true
            else PyStr.endswith s suffix).
    destruct (String.eqb_spec (String a s) suffix) as [<-|_].
    + by exists "".
    + intros H. destruct (IH H) as [p ->]. by exists (String a p).
Qed.

(** [X1] A skill a user may call is one the hub may call, and the hub may
    call exactly the skills [all_available] lists; a skill that is only in
    [hidden] is callable by neither. *)
Theorem X1_exposure_levels se skill_id :
  (is_user_callable se skill_id = true -> is_hub_callable se skill_id = true)
  /\ (is_hub_callable se skill_id = true <-> skill_id ∈ all_available se)
  /\ (skill_id ∉ exposed se -> skill_id ∉ internal se ->
        is_user_callable se skill_id = false
        /\ is_hub_callable se skill_id = false).
Proof.
  unfold is_user_callable, is_hub_callable, all_available.
  split; [|split].
  - intros H. by rewrite H.
  - rewrite orb_true_iff, !bool_decide_eq_true, elem_of_app. done.
  - intros He Hi. by rewrite !bool_decide_eq_false_2.
Qed.

Lemma X1_exposure_levels_witness :
  let se := {| exposed := ["a"; "b"]; hidden := ["c"]; internal := ["d"] |} in
  is_hub_callable se "a" = true
  /\ is_user_callable se "c" = false /\ is_hub_callable se "c" = false.
Proof.
  intros se.
  pose proof (X1_exposure_levels se "a") as (Hsub & _).
  pose proof (X1_exposure_levels se "c") as (_ & _ & Hhid).
  split; [apply Hsub; reflexivity|].
  apply Hhid; vm_compute; intros H;
    repeat (apply elem_of_cons in H as [H|H]; [discriminate H|]);
    by apply elem_of_nil in H.
Defined.

(** [X2] Without a configured domain every string is a valid email, the
    empty one included; with the domain [d] configured the valid emails
    are exactly the strings that end in ['@'] followed by [d], whatever
    precedes. *)
Theorem X2_validate_email c mail :
  (email_domain c = None -> validate_email c mail = true)
  /\ (forall d, email_domain c = Some d ->
        (validate_email c mail = true <-> exists p, mail = p ++ "@" ++ d)).
Proof.
  unfold validate_email. split.
  - by intros ->.
  - intros d ->. split.
    + apply endswith_inv.
    + intros [p ->]. apply PyStrFacts.endswith_app.
Qed.

Lemma X2_validate_email_witness :
  validate_email AuthFacts.example_com_config "@example.com" = true
  /\ validate_email AuthFacts.open_config "" = true.
Proof.
  pose proof (X2_validate_email AuthFacts.example_com_config "@example.com")
    as (_ & H).
  pose proof (X2_validate_email AuthFacts.open_config "") as (Hopen & _).
  split.
  - apply (H "example.com" eq_refl). by exists "".
  - apply Hopen. reflexivity.
Defined.

End ConfigProps.

(** ** Identity manager: rejection, logout, sweeping, invariants *)

Module AuthProps.
Import Auth.

(** [X3] When a domain is configured and the email does not end in it,
    [send_magic_link] answers "Email must be from <domain>" and stores
    nothing: the manager is the one it was given, and the token drawn for
    the refused request, unless it was pending already, does not verify. *)
Theorem X3_send_rejected m mail token now d :
  Config.email_domain (config m) = Some d ->
  PyStr.endswith mail ("@" ++ d) = false ->
  send_magic_link m mail token now
    = (SendError ("Email must be from " ++ d), m)
  /\ (_pending_links m !! token = None ->
      forall stok n0 n1 n2,
        verify_magic_link (send_magic_link m mail token now).2 token stok
                          n0 n1 n2
          = (VerifyError "Invalid or expired link", m)).
Proof.
  intros Hd He.
  assert (Hrun : send_magic_link m mail token now
                 = (SendError ("Email must be from " ++ d), m)).
  { unfold send_magic_link, Config.validate_email. by rewrite Hd, He. }
  split; [exact Hrun|]. intros Hfree stok n0 n1 n2. rewrite Hrun. simpl.
  by apply AuthFacts.verify_unknown.
Qed.

Lemma X3_send_rejected_witness :
  send_magic_link (new AuthFacts.example_com_config) "bob@other.edu" "tok" 0
    = (SendError "Email must be from example.com",
       new AuthFacts.example_com_config).
Proof.
  apply (X3_send_rejected (new AuthFacts.example_com_config)
           "bob@other.edu" "tok" 0 "example.com"); reflexivity.
Defined.

Lemma invalidate_absent m t :
  _sessions m !! t = None -> invalidate_session m t = (false, m).
Proof. intros H. unfold invalidate_session. by rewrite H. Qed.

Lemma invalidate_present m t sess :
  _sessions m !! t = Some sess ->
  invalidate_session m t
    = (true, {| config := config m; _pending_links := _pending_links m;
                _sessions := delete t (_sessions m) |}).
Proof. intros H. unfold invalidate_session. by rewrite H. Qed.

Lemma invalidate_lookup m t :
  _sessions (invalidate_session m t).2 !! t = None.
Proof.
  destruct (_sessions m !! t) as [sess|] eqn:H.
  - rewrite (invalidate_present m t sess H). apply lookup_delete_eq.
  - by rewrite (invalidate_absent m t H).
Qed.

(** [X4] [invalidate_session] answers [True] exactly when the token had a
    session; afterwards the token has none, so [validate_session] answers
    [None] for it at any time and a second [invalidate_session] answers
    [False] and changes nothing; the other sessions and the pending links
    are untouched. *)
Theorem X4_invalidate_session m t :
  let m' := (invalidate_session m t).2 in
  ((invalidate_session m t).1 = true <-> is_Some (_sessions m !! t))
  /\ (forall now, validate_session m' t now = (None, m'))
  /\ invalidate_session m' t = (false, m')
  /\ (forall t', t' <> t -> _sessions m' !! t' = _sessions m !! t')
  /\ _pending_links m' = _pending_links m
  /\ config m' = config m.
Proof.
  intros m'. pose proof (invalidate_lookup m t) as Hgone. fold m' in Hgone.
  split; [|split; [|split; [|split; [|split]]]].
  - unfold invalidate_session.
    destruct (_sessions m !! t); simpl; split;
      first [done | by eexists | by intros [? ?]].
  - intros now. unfold validate_session. by rewrite Hgone.
  - by apply invalidate_absent.
  - intros t' Hne. subst m'. unfold invalidate_session.
    destruct (_sessions m !! t); simpl; [|done]. by apply lookup_delete_ne.
  - subst m'. unfold invalidate_session. by destruct (_sessions m !! t).
  - subst m'. unfold invalidate_session. by destruct (_sessions m !! t).
Qed.

(** What [cleanup_expired] leaves of each store. *)
Lemma cleanup_pending m now t :
  _pending_links (cleanup_expired m now) !! t
    = match _pending_links m !! t with
      | Some p => if pl_expires p <? now then None else Some p
      | None => None
      end.
Proof.
  unfold cleanup_expired. simpl. rewrite map_lookup_filter.
  destruct (_pending_links m !! t) as [p|]; simpl; [|done].
  destruct (Z.ltb_spec (pl_expires p) now).
  - by rewrite option_guard_False by (simpl; lia).
  - by rewrite option_guard_True by (simpl; lia).
Qed.

Lemma cleanup_sessions m now t :
  _sessions (cleanup_expired m now) !! t
    = match _sessions m !! t with
      | Some sess => if expires sess <? now then None else Some sess
      | None => None
      end.
Proof.
  unfold cleanup_expired. simpl. rewrite map_lookup_filter.
  destruct (_sessions m !! t) as [sess|]; simpl; [|done].
  destruct (Z.ltb_spec (expires sess) now).
  - by rewrite option_guard_False by (simpl; lia).
  - by rewrite option_guard_True by (simpl; lia).
Qed.

Lemma manager_eq m1 m2 :
  config m1 = config m2 ->
  (forall t, _pending_links m1 !! t = _pending_links m2 !! t) ->
  (forall t, _sessions m1 !! t = _sessions m2 !! t) ->
  m1 = m2.
Proof.
  destruct m1, m2. simpl. intros -> Hp Hs. f_equal; by apply map_eq.
Qed.

(** [X5] [cleanup_expired] at time [now] removes exactly the links and
    the sessions whose expiry is before [now] and keeps the others as they
    are.  A second sweep at the same time changes nothing, and a sweep at
    [now] followed by one at a later time is the later sweep alone. *)
Theorem X5_cleanup_expired m now :
  (forall t p, _pending_links (cleanup_expired m now) !! t = Some p
               <-> _pending_links m !! t = Some p /\ now <= pl_expires p)
  /\ (forall t sess, _sessions (cleanup_expired m now) !! t = Some sess
                     <-> _sessions m !! t = Some sess /\ now <= expires sess)
  /\ cleanup_expired (cleanup_expired m now) now = cleanup_expired m now
  /\ (forall later, now <= later ->
        cleanup_expired (cleanup_expired m now) later
          = cleanup_expired m later).
Proof.
  assert (Hlater : forall later, now <= later ->
            cleanup_expired (cleanup_expired m now) later
              = cleanup_expired m later).
  { intros later Hle. apply manager_eq; [done| |].
    - intros t. rewrite !cleanup_pending.
      destruct (_pending_links m !! t) as [p|]; [|done].
      destruct (Z.ltb_spec (pl_expires p) now);
        destruct (Z.ltb_spec (pl_expires p) later); try done; lia.
    - intros t. rewrite !cleanup_sessions.
      destruct (_sessions m !! t) as [sess|]; [|done].
      destruct (Z.ltb_spec (expires sess) now);
        destruct (Z.ltb_spec (expires sess) later); try done; lia. }
  split; [|split; [|split]].
  - intros t p. rewrite cleanup_pending.
    destruct (_pending_links m !! t) as [q|].
    + destruct (Z.ltb_spec (pl_expires q) now).
      * split; [done|]. intros [[= ->] ?]. lia.
      * split; [intros [= ->]; split; [done|lia]|]. by intros [[= ->] _].
    + split; [done|]. by intros [? _].
  - intros t sess. rewrite cleanup_sessions.
    destruct (_sessions m !! t) as [q|].
    + destruct (Z.ltb_spec (expires q) now).
      * split; [done|]. intros [[= ->] ?]. lia.
      * split; [intros [= ->]; split; [done|lia]|]. by intros [[= ->] _].
    + split; [done|]. by intros [? _].
  - apply Hlater. lia.
  - exact Hlater.
Qed.

Lemma validate_lookup m t later t' :
  _sessions (validate_session m t later).2 !! t'
    = match _sessions m !! t' with
      | Some sess =>
          if decide (t' = t) then
            if expires sess <? later then None else Some sess
          else Some sess
      | None => None
      end.
Proof.
  unfold validate_session.
  destruct (decide (t' = t)) as [->|Hne].
  - destruct (_sessions m !! t) as [sess|] eqn:Hs; simpl; [|by rewrite Hs].
    destruct (expires sess <? later); simpl.
    + apply lookup_delete_eq.
    + done.
  - destruct (_sessions m !! t) as [sess|] eqn:Hs; simpl.
    + destruct (expires sess <? later); simpl.
      * rewrite lookup_delete_ne by done. by destruct (_sessions m !! t').
      * by destruct (_sessions m !! t').
    + by destruct (_sessions m !! t').
Qed.

Lemma validate_keeps_rest m t later :
  config (validate_session m t later).2 = config m
  /\ _pending_links (validate_session m t later).2 = _pending_links m.
Proof.
  unfold validate_session. destruct (_sessions m !! t) as [sess|]; [|done].
  by destruct (expires sess <? later).
Qed.

(** [X6] A sweep does not change what [validate_session] answers at the
    time of the sweep or later, and sweeping before a lookup leaves the
    same manager as sweeping after it. *)
Theorem X6_cleanup_keeps_validation m t now later :
  now <= later ->
  (validate_session (cleanup_expired m now) t later).1
    = (validate_session m t later).1
  /\ (validate_session (cleanup_expired m now) t later).2
     = cleanup_expired (validate_session m t later).2 now.
Proof.
  intros Hle. split.
  - unfold validate_session. rewrite cleanup_sessions.
    destruct (_sessions m !! t) as [sess|]; [|done].
    destruct (Z.ltb_spec (expires sess) now);
      destruct (Z.ltb_spec (expires sess) later); try done; lia.
  - apply manager_eq.
    + rewrite (proj1 (validate_keeps_rest _ _ _)). simpl.
      by rewrite (proj1 (validate_keeps_rest _ _ _)).
    + intros t'. rewrite (proj2 (validate_keeps_rest _ _ _)).
      rewrite !cleanup_pending.
      by rewrite (proj2 (validate_keeps_rest _ _ _)).
    + intros t'. rewrite validate_lookup, !cleanup_sessions, validate_lookup.
      destruct (_sessions m !! t') as [sess|]; [|done].
      destruct (decide (t' = t));
        destruct (expires sess <? now) eqn:E1;
        destruct (expires sess <? later) eqn:E2;
        simpl; rewrite ?E1, ?E2; done.
Qed.

Lemma X6_cleanup_keeps_validation_witness :
  (validate_session (cleanup_expired AuthFacts.one_session 400) "sess" 500).1
    = Some {| ui_user_id := "bob"; ui_email := "bob@virginia.edu";
              ui_expires := 500 |}
  /\ (validate_session (cleanup_expired AuthFacts.one_session 400)
        "sess" 501).1 = None.
Proof.
  destruct (X6_cleanup_keeps_validation AuthFacts.one_session "sess" 400 500)
    as [H1 _]; [lia|].
  destruct (X6_cleanup_keeps_validation AuthFacts.one_session "sess" 400 501)
    as [H2 _]; [lia|].
  split; [rewrite H1|rewrite H2]; reflexivity.
Defined.

(** [X7] An expired pending link is answered "Link has expired" when it is
    verified, but once a sweep has removed it the same verification is
    answered "Invalid or expired link" and changes nothing. *)
Theorem X7_cleanup_changes_verify_error m t stok now n1 n2 p :
  _pending_links m !! t = Some p ->
  pl_expires p < now ->
  (verify_magic_link m t stok now n1 n2).1 = VerifyError "Link has expired"
  /\ verify_magic_link (cleanup_expired m now) t stok now n1 n2
     = (VerifyError "Invalid or expired link", cleanup_expired m now).
Proof.
  intros Hp Hlt. split.
  - by destruct (AuthFacts.verify_expired m t stok now n1 n2 p Hp Hlt).
  - apply AuthFacts.verify_unknown. rewrite cleanup_pending, Hp.
    by destruct (Z.ltb_spec (pl_expires p) now); [|lia].
Qed.

Lemma X7_cleanup_changes_verify_error_witness :
  (verify_magic_link AuthFacts.one_link "tok" "s" 1001 0 0).1
    = VerifyError "Link has expired"
  /\ (verify_magic_link (cleanup_expired AuthFacts.one_link 1001)
        "tok" "s" 1001 0 0).1
     = VerifyError "Invalid or expired link".
Proof.
  destruct (X7_cleanup_changes_verify_error AuthFacts.one_link "tok" "s"
              1001 0 0 {| pl_email := "bob@virginia.edu";
                          pl_expires := 1000 |} eq_refl)
    as [H1 H2]; [simpl; lia|].
  split; [exact H1|by rewrite H2].
Defined.

(** *** The manager as a state machine *)

(** One call of any operation of the manager, with any arguments. *)
Inductive step : AuthManager -> AuthManager -> Prop :=
| step_send m mail token now :
    step m (send_magic_link m mail token now).2
| step_verify m token stok n0 n1 n2 :
    step m (verify_magic_link m token stok n0 n1 n2).2
| step_validate m t now :
    step m (validate_session m t now).2
| step_invalidate m t :
    step m (invalidate_session m t).2
| step_cleanup m now :
    step m (cleanup_expired m now).

(** Every pending link is for an email the configuration accepts; every
    session is for such an email and carries the user id derived from
    it. *)
Definition sound (m : AuthManager) : Prop :=
  (forall t p, _pending_links m !! t = Some p ->
     Config.validate_email (config m) (pl_email p) = true)
  /\ (forall t sess, _sessions m !! t = Some sess ->
        user_id sess = _email_to_user_id (email sess)
        /\ Config.validate_email (config m) (email sess) = true).

Lemma step_config m m' : step m m' -> config m' = config m.
Proof.
  destruct 1; simpl.
  - unfold send_magic_link. destruct (negb _); [done|].
    by destruct (after _ _).
  - unfold verify_magic_link. destruct (_pending_links m !! token); [|done].
    destruct (_ <? _); [done|]. by destruct (after _ _).
  - apply validate_keeps_rest.
  - unfold invalidate_session. by destruct (_sessions m !! t).
  - done.
Qed.

Lemma step_sound m m' : step m m' -> sound m -> sound m'.
Proof.
  intros Hstep [Hp Hs]. pose proof (step_config m m' Hstep) as Hc.
  unfold sound. rewrite Hc. clear Hc.
  destruct Hstep as [m mail token now|m token stok n0 n1 n2|m t now|m t|m now].
  - unfold send_magic_link.
    destruct (Config.validate_email (config m) mail) eqn:Hv; simpl;
      [|by split].
    destruct (after _ _) as [expires|]; simpl; [|by split].
    split; [|done]. intros t p.
    destruct (decide (t = token)) as [->|Hne].
    + rewrite lookup_insert_eq. by intros [= <-].
    + rewrite lookup_insert_ne by done. apply Hp.
  - unfold verify_magic_link.
    destruct (_pending_links m !! token) as [pending|] eqn:Hpend;
      [|by split].
    destruct (pl_expires pending <? n0); simpl.
    + split; [|done]. intros t p.
      destruct (decide (t = token)) as [->|Hne].
      * by rewrite lookup_delete_eq.
      * rewrite lookup_delete_ne by done. apply Hp.
    + destruct (after _ _) as [session_expires|]; simpl; [|by split].
      split.
      * intros t p. destruct (decide (t = token)) as [->|Hne].
        -- by rewrite lookup_delete_eq.
        -- rewrite lookup_delete_ne by done. apply Hp.
      * intros t sess. destruct (decide (t = stok)) as [->|Hne].
        -- rewrite lookup_insert_eq. intros [= <-]. simpl.
           split; [done|]. by apply (Hp token).
        -- rewrite lookup_insert_ne by done. apply Hs.
  - split.
    + rewrite (proj2 (validate_keeps_rest m t now)). apply Hp.
    + intros t' sess. rewrite validate_lookup.
      destruct (_sessions m !! t') as [q|] eqn:Hq; [|done].
      destruct (decide (t' = t)); [destruct (_ <? _); [done|]|];
        intros [= <-]; by apply (Hs t').
  - unfold invalidate_session.
    destruct (_sessions m !! t) eqn:Ht; simpl; [|by split].
    split; [done|]. intros t' sess.
    destruct (decide (t' = t)) as [->|Hne].
    + by rewrite lookup_delete_eq.
    + rewrite lookup_delete_ne by done. apply Hs.
  - split.
    + intros t p. rewrite cleanup_pending.
      destruct (_pending_links m !! t) as [q|] eqn:Hq; [|done].
      destruct (_ <? _); [done|]. intros [= <-]. by apply (Hp t).
    + intros t sess. rewrite cleanup_sessions.
      destruct (_sessions m !! t) as [q|] eqn:Hq; [|done].
      destruct (_ <? _); [done|]. intros [= <-]. by apply (Hs t).
Qed.

Lemma reachable_sound c m : rtc step (new c) m -> config m = c /\ sound m.
Proof.
  intros H.
  refine (rtc_ind_r (fun m => config m = c /\ sound m) (new c) _ _ m H).
  - split; [done|]. split; intros ? ?; simpl; by rewrite lookup_empty.
  - intros m1 m2 _ Hstep [Hc Hs]. split.
    + by rewrite (step_config m1 m2 Hstep).
    + by apply (step_sound m1 m2).
Qed.

(** [X8] Whatever sequence of operations a manager created with
    configuration [c] has gone through, its configuration is still [c],
    every pending link is for an email [c] accepts, and every session is
    for an email [c] accepts and carries the user id [_email_to_user_id]
    derives from that email. *)
Theorem X8_reachable_managers_are_sound c m :
  rtc step (new c) m ->
  config m = c
  /\ (forall t p, _pending_links m !! t = Some p ->
        Config.validate_email c (pl_email p) = true)
  /\ (forall t sess, _sessions m !! t = Some sess ->
        user_id sess = _email_to_user_id (email sess)
        /\ Config.validate_email c (email sess) = true).
Proof.
  intros H. destruct (reachable_sound c m H) as (Hc & Hp & Hs).
  rewrite Hc in Hp, Hs. done.
Qed.

Lemma X8_reachable_managers_are_sound_witness :
  config (verify_magic_link
            (send_magic_link (new AuthFacts.example_com_config)
                             "bob@example.com" "tok" 0).2
            "tok" "sess" 1 2 3).2
  = AuthFacts.example_com_config.
Proof.
  refine (proj1 (X8_reachable_managers_are_sound
                   AuthFacts.example_com_config _ _)).
  eapply rtc_l; [apply step_send|].
  eapply rtc_l; [apply step_verify|]. apply rtc_refl.
Defined.

(** [X9] No operation rewrites a session: after any call, a token that had
    a session has either that very session or none.  The one exception is
    a verification that draws, as its new session token, a token already in
    use. *)
Theorem X9_sessions_are_never_rewritten m t sess :
  _sessions m !! t = Some sess ->
  (forall mail token now,
     _sessions (send_magic_link m mail token now).2 !! t = Some sess)
  /\ (forall token stok n0 n1 n2, stok <> t ->
        _sessions (verify_magic_link m token stok n0 n1 n2).2 !! t
          = Some sess)
  /\ (forall t' now,
        _sessions (validate_session m t' now).2 !! t = Some sess
        \/ _sessions (validate_session m t' now).2 !! t = None)
  /\ (forall t',
        _sessions (invalidate_session m t').2 !! t = Some sess
        \/ _sessions (invalidate_session m t').2 !! t = None)
  /\ (forall now,
        _sessions (cleanup_expired m now) !! t = Some sess
        \/ _sessions (cleanup_expired m now) !! t = None).
Proof.
  intros Hs. split; [|split; [|split; [|split]]].
  - intros mail token now. unfold send_magic_link.
    destruct (negb _); [done|]. by destruct (after _ _).
  - intros token stok n0 n1 n2 Hne. unfold verify_magic_link.
    destruct (_pending_links m !! token) as [p|]; [|done].
    destruct (_ <? _); simpl; [done|].
    destruct (after _ _); simpl; [|done]. by rewrite lookup_insert_ne.
  - intros t' now. rewrite validate_lookup, Hs.
    destruct (decide (t = t')); [destruct (_ <? _)|]; auto.
  - intros t'. unfold invalidate_session.
    destruct (_sessions m !! t') eqn:Ht'; simpl; [|auto].
    destruct (decide (t = t')) as [->|Hne].
    + right. apply lookup_delete_eq.
    + left. by rewrite lookup_delete_ne.
  - intros now. rewrite cleanup_sessions, Hs. destruct (_ <? _); auto.
Qed.

Lemma X9_sessions_are_never_rewritten_witness :
  _sessions (send_magic_link AuthFacts.one_session "a@b" "tok" 0).2 !! "sess"
  = Some {| user_id := "bob"; email := "bob@virginia.edu";
            expires := 500; created := 0 |}.
Proof.
  apply (X9_sessions_are_never_rewritten AuthFacts.one_session "sess"
           {| user_id := "bob"; email := "bob@virginia.edu";
              expires := 500; created := 0 |} eq_refl).
Defined.

(** [X10] On a manager restricted to [virginia.edu], for an address
    [loc@virginia.edu] with no ['@'] in [loc], and as long as the link's
    expiry and the session's expiry are dates of the calendar: the link is
    issued, its verification within 15 minutes opens a session for the
    user id [loc], that session validates until its expiry, and after
    [invalidate_session] it validates no more. *)
Theorem X10_login_flow m loc token stok t0 v0 v1 v2 now :
  Config.email_domain (config m) = Some "virginia.edu" ->
  PyStr.contains loc "@" = false ->
  0 <= t0 -> t0 + 15 * minute <= datetime_max ->
  v0 <= t0 + 15 * minute ->
  0 <= v1 <= datetime_max ->
  0 <= v1 + Config.session_duration_hours (config m) * hour <= datetime_max ->
  now <= v1 + Config.session_duration_hours (config m) * hour ->
  let mail := loc ++ "@virginia.edu" in
  let exp := v1 + Config.session_duration_hours (config m) * hour in
  let m1 := (send_magic_link m mail token t0).2 in
  let m2 := (verify_magic_link m1 token stok v0 v1 v2).2 in
  (send_magic_link m mail token t0).1
    = SendOk ("Magic link sent to " ++ mail) token
  /\ (verify_magic_link m1 token stok v0 v1 v2).1
     = VerifyOk stok loc mail exp
  /\ validate_session m2 stok now
     = (Some {| ui_user_id := loc; ui_email := mail; ui_expires := exp |},
        m2)
  /\ (validate_session (invalidate_session m2 stok).2 stok now).1 = None.
Proof.
  intros Hd Hloc Ht0 Hx0 Hv Hv1 Hxv Hn mail exp m1 m2.
  assert (Hvalid : Config.validate_email (config m) mail = true).
  { unfold Config.validate_email. rewrite Hd.
    apply PyStrFacts.endswith_app. }
  destruct (AuthFacts.send_accepted m mail token t0 Hvalid Ht0 Hx0)
    as (Hsend & Hp & _ & _ & Hc).
  fold m1 in Hp, Hc.
  assert (Hafter : after v1 (Config.session_duration_hours (config m1) * hour)
                   = Some exp)
    by (rewrite Hc; by apply AuthFacts.after_in_calendar).
  destruct (AuthFacts.verify_pending m1 token stok v0 v1 v2 _ exp Hp)
    as (Hver & Hsess & _); [simpl; lia|exact Hafter|].
  fold m2 in Hsess. cbn [pl_email] in Hver, Hsess.
  unfold mail in Hver, Hsess.
  rewrite (AuthFacts.email_to_user_id_local loc Hloc) in Hver, Hsess.
  fold mail exp in Hver, Hsess.
  split; [done|]. split; [done|]. split.
  - unfold validate_session. rewrite Hsess. simpl.
    by destruct (Z.ltb_spec exp now); [lia|].
  - unfold validate_session. by rewrite invalidate_lookup.
Qed.

Definition uva_config : Config.AuthConfig :=
  {| Config.method := "magic_link";
     Config.email_domain := Some "virginia.edu";
     Config.session_duration_hours := 24;
     Config.oauth_provider := None; Config.oauth_client_id := None |}.

Lemma X10_login_flow_witness :
  (verify_magic_link
     (send_magic_link (new uva_config) "bob@virginia.edu" "tok" 0).2
     "tok" "sess" 5 6 7).1
  = VerifyOk "sess" "bob" "bob@virginia.edu" (6 + 24 * hour).
Proof.
  destruct (X10_login_flow (new uva_config) "bob" "tok" "sess" 0 5 6 7 8
              eq_refl eq_refl) as (_ & H & _);
    [lia|vm_compute; discriminate|vm_compute; discriminate
    |vm_compute; split; discriminate|vm_compute; split; discriminate
    |vm_compute; discriminate|].
  exact H.
Defined.

End AuthProps.

(** ** Consent ledger: recording, revoking, queries, invariants *)

Module ConsentProps.
Import Consent.

(** [X11] [record_consent] always succeeds and leaves the user with a
    fresh, unrevoked record stamped with the time of the call, whatever
    was recorded for that user before (a revocation included); the user
    then counts as having consented under every policy, and the other
    users' records are untouched. *)
Theorem X11_record_consent m uid now :
  let r := record_consent m uid now in
  r.1 = Recorded uid now "Consent recorded successfully"
  /\ get_consent_info r.2 uid
     = Some {| ci_user_id := uid; ci_consented_at := now;
               ci_revoked := false; ci_revoked_at := None;
               ci_consent_version := "1.0" |}
  /\ has_consented r.2 uid = true
  /\ (forall other, other <> uid ->
        _consents r.2 !! other = _consents m !! other)
  /\ config r.2 = config m.
Proof.
  simpl. split; [done|]. split; [|split; [|split]].
  - unfold get_consent_info. simpl. by rewrite lookup_insert_eq.
  - unfold has_consented. simpl. rewrite lookup_insert_eq. simpl.
    by destruct (negb _).
  - intros other Hne. by rewrite lookup_insert_ne.
  - done.
Qed.

(** [X12] When the policy allows revocation and the user has a record,
    [revoke_consent] succeeds: the record stays, marked revoked and stamped
    with the time of the call, its consent time and version unchanged; the
    other records are untouched, and under a policy that requires consent
    the user no longer counts as having consented.  Revoking again succeeds
    again and moves the revocation stamp to the later call. *)
Theorem X12_revoke_consent m uid now consent :
  Config.revocable (config m) = true ->
  _consents m !! uid = Some consent ->
  let r := revoke_consent m uid now in
  r.1 = Revoked uid "Consent has been revoked"
  /\ get_consent_info r.2 uid
     = Some {| ci_user_id := user_id consent;
               ci_consented_at := timestamp consent;
               ci_revoked := true; ci_revoked_at := Some now;
               ci_consent_version := consent_version consent |}
  /\ (forall other, other <> uid ->
        _consents r.2 !! other = _consents m !! other)
  /\ (Config.required (config m) = true -> has_consented r.2 uid = false)
  /\ (forall later,
        (revoke_consent r.2 uid later).1
          = Revoked uid "Consent has been revoked"
        /\ get_consent_info (revoke_consent r.2 uid later).2 uid
           = Some {| ci_user_id := user_id consent;
                     ci_consented_at := timestamp consent;
                     ci_revoked := true; ci_revoked_at := Some later;
                     ci_consent_version := consent_version consent |}).
Proof.
  intros Hrev Hc r.
  assert (Hrun : r = (Revoked uid "Consent has been revoked",
            {| config := config m;
               _consents :=
                 <[uid := {| user_id := user_id consent;
                             timestamp := timestamp consent;
                             revoked := true; revoked_at := Some now;
                             consent_version := consent_version consent |}]>
                   (_consents m) |})).
  { subst r. unfold revoke_consent. by rewrite Hrev, Hc. }
  rewrite Hrun. clear Hrun r. simpl.
  split; [done|]. split; [|split; [|split]].
  - unfold get_consent_info. simpl. by rewrite lookup_insert_eq.
  - intros other Hne. by rewrite lookup_insert_ne.
  - intros Hreq. unfold has_consented. simpl.
    by rewrite Hreq, lookup_insert_eq.
  - intros later. unfold revoke_consent, get_consent_info. simpl.
    rewrite Hrev. simpl. rewrite lookup_insert_eq. simpl.
    by rewrite lookup_insert_eq.
Qed.

Lemma X12_revoke_consent_witness :
  let m := (record_consent (new ConsentFacts.required_config) "u1" 3).2 in
  (revoke_consent m "u1" 9).1 = Revoked "u1" "Consent has been revoked"
  /\ has_consented m "u1" = true
  /\ has_consented (revoke_consent m "u1" 9).2 "u1" = false.
Proof.
  intros m.
  destruct (X12_revoke_consent m "u1" 9
              {| user_id := "u1"; timestamp := 3; revoked := false;
                 revoked_at := None; consent_version := "1.0" |}
              eq_refl eq_refl) as (H1 & _ & _ & H2 & _).
  split; [exact H1|]. split; [reflexivity|]. apply H2. reflexivity.
Defined.

(** [X13] [get_all_consented_users] is the set of users that have a record
    that is not revoked.  Under a policy that requires consent these are
    exactly the users for whom [has_consented] holds; under a policy that
    does not, [has_consented] holds for everybody, in the set or not. *)
Theorem X13_consented_users m uid :
  (uid ∈ get_all_consented_users m
     <-> exists consent, _consents m !! uid = Some consent
                         /\ revoked consent = false)
  /\ (Config.required (config m) = true ->
        (has_consented m uid = true <-> uid ∈ get_all_consented_users m))
  /\ (Config.required (config m) = false -> has_consented m uid = true).
Proof.
  assert (Hset : uid ∈ get_all_consented_users m
            <-> exists consent, _consents m !! uid = Some consent
                                /\ revoked consent = false).
  { unfold get_all_consented_users. rewrite elem_of_dom. split.
    - intros [consent H]. apply map_lookup_filter_Some in H. by exists consent.
    - intros (consent & H1 & H2). exists consent.
      by apply map_lookup_filter_Some. }
  split; [exact Hset|]. split.
  - intros Hreq. rewrite Hset. unfold has_consented. rewrite Hreq. simpl.
    destruct (_consents m !! uid) as [consent|].
    + destruct (revoked consent) eqn:Hr; split; try done.
      * intros (c & [= <-] & Hc). congruence.
      * intros _. by exists consent.
    + split; [done|]. by intros (c & ? & _).
  - intros Hreq. unfold has_consented. by rewrite Hreq.
Qed.

Lemma X13_consented_users_witness :
  has_consented (new ConsentFacts.optional_config) "u1" = true
  /\ ("u1" ∈ get_all_consented_users
             (record_consent (new ConsentFacts.required_config) "u1" 3).2).
Proof.
  pose proof (X13_consented_users (new ConsentFacts.optional_config) "u1")
    as (_ & _ & Hopt).
  pose proof (X13_consented_users
                (record_consent (new ConsentFacts.required_config) "u1" 3).2
                "u1") as (_ & Hreq & _).
  split; [apply Hopt; reflexivity|].
  apply (Hreq eq_refl). reflexivity.
Defined.

(** *** The ledger as a state machine *)

Inductive step : ConsentManager -> ConsentManager -> Prop :=
| step_record m uid now : step m (record_consent m uid now).2
| step_revoke m uid now : step m (revoke_consent m uid now).2.

(** A record sits under its own user id, carries version ["1.0"], and
    has a revocation stamp exactly when it is revoked. *)
Definition well_formed (m : ConsentManager) : Prop :=
  forall uid consent, _consents m !! uid = Some consent ->
    user_id consent = uid
    /\ consent_version consent = "1.0"
    /\ (revoked consent = true <-> is_Some (revoked_at consent)).

Lemma step_well_formed m m' : step m m' -> well_formed m -> well_formed m'.
Proof.
  intros Hstep Hwf. destruct Hstep as [m uid now|m uid now].
  - intros u c. simpl. destruct (decide (u = uid)) as [->|Hne].
    + rewrite lookup_insert_eq. intros [= <-]. simpl.
      split; [done|]. split; [done|]. split; [done|]. by intros [? ?].
    + rewrite lookup_insert_ne by done. apply Hwf.
  - unfold revoke_consent. destruct (negb _); [done|].
    destruct (_consents m !! uid) as [consent|] eqn:Hc; [|done].
    intros u c. simpl. destruct (decide (u = uid)) as [->|Hne].
    + rewrite lookup_insert_eq. intros [= <-]. simpl.
      destruct (Hwf uid consent Hc) as (Hu & Hv & _).
      split; [done|]. split; [done|]. split; [by eexists|done].
    + rewrite lookup_insert_ne by done. apply Hwf.
Qed.

Lemma step_keeps_records m m' uid :
  step m m' -> is_Some (_consents m !! uid) -> is_Some (_consents m' !! uid).
Proof.
  intros Hstep Hsome. destruct Hstep as [m u now|m u now].
  - simpl. destruct (decide (uid = u)) as [->|Hne].
    + rewrite lookup_insert_eq. by eexists.
    + by rewrite lookup_insert_ne.
  - unfold revoke_consent. destruct (negb _); [done|].
    destruct (_consents m !! u) as [consent|] eqn:Hc; [|done]. simpl.
    destruct (decide (uid = u)) as [->|Hne].
    + rewrite lookup_insert_eq. by eexists.
    + by rewrite lookup_insert_ne.
Qed.

Lemma ledger_step_config m m' : step m m' -> config m' = config m.
Proof.
  destruct 1; [done|]. unfold revoke_consent. destruct (negb _); [done|].
  by destruct (_consents m !! uid).
Qed.

(** [X14] Along any sequence of [record_consent] and [revoke_consent]
    calls on a new ledger, every record sits under its own user id, has
    version ["1.0"] and has a revocation stamp exactly when it is revoked;
    and no record is ever deleted: a user who has a record at some point
    has one at every later point. *)
Theorem X14_ledger_invariants c m m' :
  rtc step (new c) m -> rtc step m m' ->
  well_formed m'
  /\ config m' = c
  /\ (forall uid, is_Some (_consents m !! uid) ->
        is_Some (_consents m' !! uid)).
Proof.
  intros H1 H2.
  assert (Hm : well_formed m /\ config m = c).
  { refine (rtc_ind_r (fun m => well_formed m /\ config m = c) (new c) _ _
              m H1).
    - split; [|done]. intros uid consent. simpl. by rewrite lookup_empty.
    - intros x y _ Hstep [Hwf Hc]. split.
      + by apply (step_well_formed x y).
      + by rewrite (ledger_step_config x y Hstep). }
  refine (rtc_ind_r
            (fun m' => well_formed m' /\ config m' = c
                       /\ forall uid, is_Some (_consents m !! uid) ->
                                      is_Some (_consents m' !! uid))
            m _ _ m' H2).
  - destruct Hm. done.
  - intros x y _ Hstep (Hwf & Hc & Hk). split; [|split].
    + by apply (step_well_formed x y).
    + by rewrite (ledger_step_config x y Hstep).
    + intros uid Hu. apply (step_keeps_records x y uid Hstep). by apply Hk.
Qed.

Lemma X14_ledger_invariants_witness :
  is_Some (_consents
             (revoke_consent
                (record_consent (new ConsentFacts.required_config) "u1" 3).2
                "u1" 9).2 !! "u1").
Proof.
  refine (proj2 (proj2 (X14_ledger_invariants ConsentFacts.required_config
                          (record_consent (new ConsentFacts.required_config)
                                          "u1" 3).2 _ _ _)) "u1" _).
  - eapply rtc_l; [apply step_record|apply rtc_refl].
  - eapply rtc_l; [apply step_revoke|apply rtc_refl].
  - by eexists.
Defined.

End ConsentProps.

(** ** Agent router: routing, internal calls, precondition results *)

Module RouterProps.
Import Py Eff Router.

(** The state after one identifier was drawn and one request posted. *)
Definition after_call (s : State) (url : string) (message : json) : State :=
  {| trace := trace s ++ [Post url message]; uuid_count := S (uuid_count s) |}.

(** What the transport's answer becomes in [_send_to_agent]. *)
Definition delivered (w : World) (s : State) (url : string) (message : json)
  : outcome json :=
  match http_post w (trace s) url message with
  | Reply data => unwrap_response data
  | HttpFail msg => Raise (HTTPError msg)
  | BadJson msg => Raise (JSONDecodeError msg)
  end.

Lemma delivered_after_uuid w s url message :
  delivered w (RouterFacts.after_uuid s) url message
    = delivered w s url message.
Proof. reflexivity. Qed.

Lemma send_to_agent_run w url message s :
  _send_to_agent w url message s
    = (delivered w s url message, with_event s (Post url message)).
Proof.
  unfold _send_to_agent, delivered, mbind, M_bind, post.
  by destruct (http_post w (trace s) url message).
Qed.

Lemma build_then_send w skill_id user_id params url s :
  (message ← _build_a2a_message w skill_id user_id params;
   _send_to_agent w url message) s
  = (delivered w s url
       (a2a_envelope (uuid4 w (uuid_count s)) skill_id user_id params),
     after_call s url
       (a2a_envelope (uuid4 w (uuid_count s)) skill_id user_id params)).
Proof.
  rewrite (EffFacts.bind_ok _ _ _ _ _
             (RouterFacts.build_a2a_message_run w skill_id user_id params s)).
  by rewrite send_to_agent_run.
Qed.

(** [X15] [route_action] posts nothing and draws no identifier when the
    action's agent is not registered ([ValueError]) or when the skill is
    neither exposed nor internal for that agent ([PermissionError]).
    Otherwise, for an exposed or an internal skill alike, it draws one
    identifier and posts exactly one request to the agent's address, and
    its outcome is the unwrapped answer, or the transport's error as it
    came: nothing is retried. *)
Theorem X15_route_action w agents action user_id params s :
  (agents !! Config.agent action = None ->
     route_action w agents action user_id params s
       = (Raise (ValueError ("Agent not found: " ++ Config.agent action)), s))
  /\ (forall agent,
        agents !! Config.agent action = Some agent ->
        Config.skill action ∉ Config.exposed (Config.skill_exposure agent) ->
        Config.skill action ∉ Config.internal (Config.skill_exposure agent) ->
        route_action w agents action user_id params s
          = (Raise (PermissionError
                      ("Skill " ++ Config.skill action ++
                       " is not available for agent " ++
                       Config.agent action)), s))
  /\ (forall agent,
        agents !! Config.agent action = Some agent ->
        Config.skill action ∈ Config.exposed (Config.skill_exposure agent)
        \/ Config.skill action
             ∈ Config.internal (Config.skill_exposure agent) ->
        let message := a2a_envelope (uuid4 w (uuid_count s))
                         (Config.skill action) user_id params in
        route_action w agents action user_id params s
          = (delivered w s (Config.url agent) message,
             after_call s (Config.url agent) message)).
Proof.
  unfold route_action. split; [|split].
  - by intros ->.
  - intros agent -> He Hi. unfold Config.is_hub_callable.
    by rewrite !bool_decide_eq_false_2.
  - intros agent -> Hcall.
    assert (Hc : Config.is_hub_callable (Config.skill_exposure agent)
                   (Config.skill action) = true).
    { unfold Config.is_hub_callable.
      apply orb_true_iff. rewrite !bool_decide_eq_true. done. }
    rewrite Hc. simpl. apply build_then_send.
Qed.

Lemma X15_route_action_witness :
  (route_action RouterFacts.silent_world
     {[ "le_marteau" :=
          RouterFacts.connection "le_marteau" "http://localhost:8022"
            {| Config.exposed := []; Config.hidden := [];
               Config.internal := ["generate_worksheet"] |} ]}
     (HubFacts.action "gen" "le_marteau" "generate_worksheet" None)
     "u1" ∅ RouterFacts.initial_state).1
  = Raise (HTTPError "connection refused").
Proof.
  pose proof (X15_route_action RouterFacts.silent_world
     {[ "le_marteau" :=
          RouterFacts.connection "le_marteau" "http://localhost:8022"
            {| Config.exposed := []; Config.hidden := [];
               Config.internal := ["generate_worksheet"] |} ]}
     (HubFacts.action "gen" "le_marteau" "generate_worksheet" None)
     "u1" ∅ RouterFacts.initial_state) as (_ & _ & H).
  rewrite (H _ eq_refl); [reflexivity|].
  right. apply elem_of_cons. by left.
Defined.

(** [X16] [call_agent_skill] does not consult the exposure lists: for a
    registered agent it posts one request for any skill, hidden ones
    included, under the user id ["hub"] (when [params] brings no [user_id]
    of its own); for an unregistered agent it raises [ValueError] and posts
    nothing. *)
Theorem X16_call_agent_skill w agents agent_name skill_id params s :
  (agents !! agent_name = None ->
     call_agent_skill w agents agent_name skill_id params s
       = (Raise (ValueError ("Agent not found: " ++ agent_name)), s))
  /\ (forall agent,
        agents !! agent_name = Some agent ->
        let message := a2a_envelope (uuid4 w (uuid_count s)) skill_id "hub"
                                    params in
        call_agent_skill w agents agent_name skill_id params s
          = (delivered w s (Config.url agent) message,
             after_call s (Config.url agent) message)
        /\ RouterFacts.envelope_skill message = Some skill_id
        /\ (params !! "user_id" = None ->
              exists bag, RouterFacts.envelope_parameters message = Some bag
                          /\ bag !! "user_id" = Some (JStr "hub"))).
Proof.
  unfold call_agent_skill. split.
  - by intros ->.
  - intros agent ->. split; [apply build_then_send|].
    split; [done|]. intros Hp. eexists. split; [reflexivity|].
    by apply RouterFacts.bag_user_id_fresh.
Qed.

Lemma X16_call_agent_skill_witness :
  (call_agent_skill RouterFacts.silent_world
     {[ "lumiere" :=
          RouterFacts.connection "lumiere" "http://localhost:8021"
            {| Config.exposed := ["check_answers"];
               Config.hidden := ["rubric_grade"];
               Config.internal := [] |} ]}
     "lumiere" "rubric_grade" ∅ RouterFacts.initial_state).2
  = after_call RouterFacts.initial_state "http://localhost:8021"
      (a2a_envelope "id" "rubric_grade" "hub" ∅).
Proof.
  pose proof (X16_call_agent_skill RouterFacts.silent_world
     {[ "lumiere" :=
          RouterFacts.connection "lumiere" "http://localhost:8021"
            {| Config.exposed := ["check_answers"];
               Config.hidden := ["rubric_grade"];
               Config.internal := [] |} ]}
     "lumiere" "rubric_grade" ∅ RouterFacts.initial_state) as (_ & H).
  destruct (H _ eq_refl) as (Hrun & _). by rewrite Hrun.
Defined.

(** How a precondition check on a registered agent runs. *)
Lemma check_precondition_run rt w agents ref user_id params s agent :
  agents !! (parse_precondition ref).1 = Some agent ->
  let message := RouterFacts.check_message w ref user_id params s in
  check_precondition rt w agents ref user_id params s
    = (match delivered w (RouterFacts.after_uuid s) (Config.url agent)
               message ≫= interpret_precondition with
       | Ok v => Ok v
       | Raise e => Ok (JDict {[ "satisfied" := JBool false;
                                 "message" := JStr (exn_str rt e) ]})
       end,
       after_call s (Config.url agent) message).
Proof.
  intros Ha message. unfold check_precondition.
  unfold message, RouterFacts.check_message.
  destruct (parse_precondition ref) as [agent_name skill_name].
  simpl in *. rewrite Ha.
  rewrite (EffFacts.bind_ok _ _ _ _ _
             (RouterFacts.build_a2a_message_run w _ _ _ s)).
  unfold try_except, mbind at 1, M_bind at 1.
  rewrite send_to_agent_run. fold (RouterFacts.after_uuid s).
  destruct (delivered w _ _ _) as [v|e]; simpl; [|done].
  unfold lift. by destruct (interpret_precondition v).
Qed.

(** [X17] [check_precondition] never raises, whatever the agents answer
    and however the transport fails: it always returns a value.  It posts
    nothing when the agent is not registered, and exactly one request, to
    that agent's address, when it is. *)
Theorem X17_check_precondition_total rt w agents ref user_id params s :
  exists v s',
    check_precondition rt w agents ref user_id params s = (Ok v, s')
    /\ (agents !! (parse_precondition ref).1 = None -> s' = s)
    /\ (forall agent,
          agents !! (parse_precondition ref).1 = Some agent ->
          s' = after_call s (Config.url agent)
                 (RouterFacts.check_message w ref user_id params s)).
Proof.
  destruct (agents !! (parse_precondition ref).1) as [agent|] eqn:Ha.
  - rewrite (check_precondition_run rt w agents ref user_id params s agent Ha).
    destruct (delivered w _ _ _ ≫= interpret_precondition) as [v|e];
      eexists _, _; (split; [reflexivity|]);
      (split; [done|]); by intros ? [= <-].
  - rewrite (RouterFacts.check_precondition_fail_open rt w agents ref user_id
               params s Ha).
    eexists _, _. split; [reflexivity|]. split; done.
Qed.

Lemma check_precondition_interprets rt w agents ref user_id params s
    agent data (r : dict) :
  agents !! (parse_precondition ref).1 = Some agent ->
  http_post w (trace s) (Config.url agent)
            (RouterFacts.check_message w ref user_id params s) = Reply data ->
  unwrap_response data = Ok (JDict r) ->
  (forall pending,
     r !! "has_pending" = Some pending ->
     (check_precondition rt w agents ref user_id params s).1
       = Ok (JDict {[
           "satisfied" := pending;
           "message" := default (JStr "No pending worksheet found")
                                (r !! "message");
           "action_required" :=
             if truthy pending then JNull
             else JStr "generate_worksheet" ]}))
  /\ (r !! "has_pending" = None ->
        (check_precondition rt w agents ref user_id params s).1
          = Ok (JDict r)).
Proof.
  intros Ha Hreply Hun.
  rewrite (check_precondition_run rt w agents ref user_id params s agent Ha).
  unfold delivered. simpl. rewrite Hreply, Hun. simpl.
  unfold interpret_precondition. simpl. split.
  - intros pending Hp.
    rewrite bool_decide_eq_true_2 by (by rewrite Hp). simpl.
    rewrite Hp. simpl. by destruct (truthy pending).
  - intros Hp. rewrite bool_decide_eq_false_2; [done|].
    rewrite Hp. by intros [? ?].
Qed.

(** [X18] When the registered agent's answer unwraps to an object with a
    [has_pending] field, the check returns [satisfied] equal to that field,
    the agent's [message] or "No pending worksheet found", and
    [action_required = "generate_worksheet"] exactly when the field is
    falsy; an object without a [has_pending] field is returned as it
    is. *)
Theorem X18_has_pending_interpretation rt w agents ref user_id params s
    agent data (r : dict) :
  agents !! (parse_precondition ref).1 = Some agent ->
  http_post w (trace s) (Config.url agent)
            (RouterFacts.check_message w ref user_id params s) = Reply data ->
  unwrap_response data = Ok (JDict r) ->
  (forall pending,
     r !! "has_pending" = Some pending ->
     (check_precondition rt w agents ref user_id params s).1
       = Ok (JDict {[
           "satisfied" := pending;
           "message" := default (JStr "No pending worksheet found")
                                (r !! "message");
           "action_required" :=
             if truthy pending then JNull
             else JStr "generate_worksheet" ]}))
  /\ (r !! "has_pending" = None ->
        (check_precondition rt w agents ref user_id params s).1
          = Ok (JDict r)).
Proof.
  intros Ha Hreply Hun.
  rewrite (check_precondition_run rt w agents ref user_id params s agent Ha).
  unfold delivered. simpl. rewrite Hreply, Hun. simpl.
  unfold interpret_precondition. simpl. split.
  - intros pending Hp.
    rewrite bool_decide_eq_true_2 by (by rewrite Hp). simpl.
    rewrite Hp. simpl. by destruct (truthy pending).
  - intros Hp. rewrite bool_decide_eq_false_2; [done|].
    rewrite Hp. by intros [? ?].
Qed.

Lemma X18_has_pending_interpretation_witness :
  (check_precondition RouterFacts.blank_runtime
     (RouterFacts.constant_world
        (JDict {[ "result" := JDict {[ "has_pending" := JBool false ]} ]}))
     {[ "le_veilleur" := RouterFacts.connection "le_veilleur" "http://lv"
                           RouterFacts.no_exposure ]}
     "check_pending" "u1" ∅ RouterFacts.initial_state).1
  = Ok (JDict {[ "satisfied" := JBool false;
                 "message" := JStr "No pending worksheet found";
                 "action_required" := JStr "generate_worksheet" ]}).
Proof.
  destruct (X18_has_pending_interpretation RouterFacts.blank_runtime
     (RouterFacts.constant_world
        (JDict {[ "result" := JDict {[ "has_pending" := JBool false ]} ]}))
     {[ "le_veilleur" := RouterFacts.connection "le_veilleur" "http://lv"
                           RouterFacts.no_exposure ]}
     "check_pending" "u1" ∅ RouterFacts.initial_state
     (RouterFacts.connection "le_veilleur" "http://lv" RouterFacts.no_exposure)
     (JDict {[ "result" := JDict {[ "has_pending" := JBool false ]} ]})
     {[ "has_pending" := JBool false ]}) as [H _];
    [reflexivity|reflexivity|reflexivity|].
  rewrite (H (JBool false)); reflexivity.
Defined.

(** [X19] When the [result] of a response is not an object,
    [_send_to_agent] extracts nothing.  A string is returned as it is
    unless it contains the text "artifacts", and a list unless it has the
    element "artifacts": in those two cases, and for [null], a boolean or a
    number, the call raises [TypeError]. *)
Theorem X19_result_not_an_object w agent_url message s (d : dict) :
  http_post w (trace s) agent_url message = Reply (JDict d) ->
  let out := (_send_to_agent w agent_url message s).1 in
  (forall txt, d !! "result" = Some (JStr txt) ->
     out = if PyStr.contains txt "artifacts"
           then Raise (Builtin (BadSubscript TStr)) else Ok (JStr txt))
  /\ (forall l, d !! "result" = Some (JList l) ->
        out = if existsb (fun x => eq_str x "artifacts") l
              then Raise (Builtin (BadSubscript TList)) else Ok (JList l))
  /\ (forall r, d !! "result" = Some r ->
        r = JNull \/ (exists b, r = JBool b) \/ (exists z, r = JInt z) ->
        out = Raise (Builtin (NotContainer (type_of r)))).
Proof.
  intros Hreply out. subst out.
  rewrite (RouterFacts.send_to_agent_reply _ _ _ _ _ Hreply). simpl.
  split; [|split].
  - intros txt Hr. rewrite (RouterFacts.unwrap_response_result d _ Hr).
    unfold _extract_result. simpl. by destruct (PyStr.contains txt _).
  - intros l Hr. rewrite (RouterFacts.unwrap_response_result d _ Hr).
    unfold _extract_result. simpl. by destruct (existsb _ l).
  - intros r Hr Hshape. rewrite (RouterFacts.unwrap_response_result d _ Hr).
    by destruct Hshape as [->|[[b ->]|[z ->]]].
Qed.

Lemma X19_result_not_an_object_witness :
  (_send_to_agent
     (RouterFacts.constant_world (JDict {[ "result" := JStr "ok" ]}))
     "http://agent" (JDict ∅) RouterFacts.initial_state).1 = Ok (JStr "ok")
  /\ (_send_to_agent
        (RouterFacts.constant_world
           (JDict {[ "result" := JStr "no artifacts yet" ]}))
        "http://agent" (JDict ∅) RouterFacts.initial_state).1
     = Raise (Builtin (BadSubscript TStr)).
Proof.
  pose proof (X19_result_not_an_object
     (RouterFacts.constant_world (JDict {[ "result" := JStr "ok" ]}))
     "http://agent" (JDict ∅) RouterFacts.initial_state
     {[ "result" := JStr "ok" ]} eq_refl) as (H1 & _).
  pose proof (X19_result_not_an_object
     (RouterFacts.constant_world
        (JDict {[ "result" := JStr "no artifacts yet" ]}))
     "http://agent" (JDict ∅) RouterFacts.initial_state
     {[ "result" := JStr "no artifacts yet" ]} eq_refl) as (H2 & _).
  split.
  - rewrite (H1 "ok"); reflexivity.
  - rewrite (H2 "no artifacts yet"); reflexivity.
Defined.

End RouterProps.

(** ** Hub dispatcher: lookups, preconditions, composition with the router *)

Module HubProps.
Import Py Eff Hub.

(** [X20] [handle_action] checks, in this order, that the hub is
    initialised ([RuntimeError]), that the action id is known
    ([ValueError]) and that the action's agent is registered
    ([ValueError]); each failure leaves the world untouched: no hook is
    entered and nothing is posted. *)
Theorem X20_handle_action_lookup_errors rt w hub action_id user_id params s :
  (initialized hub = false ->
     handle_action rt w hub action_id user_id params s
       = (Raise (RuntimeError "Hub not initialized"), s))
  /\ (initialized hub = true -> _get_action hub action_id = None ->
        handle_action rt w hub action_id user_id params s
          = (Raise (ValueError ("Unknown action: " ++ action_id)), s))
  /\ (forall action,
        initialized hub = true -> _get_action hub action_id = Some action ->
        agents hub !! Config.agent action = None ->
        handle_action rt w hub action_id user_id params s
          = (Raise (ValueError ("Unknown agent: " ++ Config.agent action)),
             s)).
Proof.
  unfold handle_action. split; [|split].
  - by intros ->.
  - by intros -> ->.
  - by intros action -> -> ->.
Qed.

Lemma X20_handle_action_lookup_errors_witness :
  handle_action RouterFacts.blank_runtime HubFacts.ok_world
    (HubFacts.test_hub default_on_action_start default_on_action_complete)
    "no_such_action" "u1" ∅ RouterFacts.initial_state
  = (Raise (ValueError "Unknown action: no_such_action"),
     RouterFacts.initial_state).
Proof.
  pose proof (X20_handle_action_lookup_errors RouterFacts.blank_runtime
                HubFacts.ok_world
                (HubFacts.test_hub default_on_action_start
                                   default_on_action_complete)
                "no_such_action" "u1" ∅ RouterFacts.initial_state)
    as (_ & H & _).
  apply H; reflexivity.
Defined.

Lemma find_first {A} (f : A -> bool) l :
  match List.find f l with
  | Some a => exists pre post : list A,
                l = (pre ++ a :: post)%list /\ f a = true
                /\ Forall (fun b => f b = false) pre
  | None => Forall (fun b => f b = false) l
  end.
Proof.
  induction l as [|b l IH]; simpl; [done|].
  destruct (f b) eqn:Hb.
  - exists [], l. by repeat split.
  - destruct (List.find f l) as [a|].
    + destruct IH as (pre & post & -> & Ha & Hpre).
      exists (b :: pre), post. repeat split; [done|]. by constructor.
    + by constructor.
Qed.

(** [X21] [_get_action] returns the first loaded action that carries the
    requested id: the action found has that id and every action before it
    in the list has another one; it returns nothing exactly when no loaded
    action has the id. *)
Theorem X21_get_action_first_match hub action_id :
  (forall action, _get_action hub action_id = Some action ->
     Config.id action = action_id
     /\ exists pre post : list Config.HubAction,
          actions hub = (pre ++ action :: post)%list
          /\ Forall (fun b => Config.id b <> action_id) pre)
  /\ (_get_action hub action_id = None
        <-> Forall (fun b => Config.id b <> action_id) (actions hub)).
Proof.
  unfold _get_action.
  pose proof (find_first (fun a => String.eqb (Config.id a) action_id)
                         (actions hub)) as H.
  assert (Hne : forall l,
            Forall (fun b => String.eqb (Config.id b) action_id = false) l
            <-> Forall (fun b => Config.id b <> action_id) l).
  { intros l. apply Forall_proper; [|done]. intros b.
    by rewrite String.eqb_neq. }
  destruct (List.find _ (actions hub)) as [a|].
  - destruct H as (pre & post & Hl & Ha & Hpre). split.
    + intros action [= <-]. split; [by apply String.eqb_eq|].
      exists pre, post. split; [done|]. by apply Hne.
    + split; [done|]. intros Hall. rewrite Hl in Hall.
      apply Forall_app in Hall as [_ Hall].
      apply Forall_cons in Hall as [Hbad _]. by apply String.eqb_eq in Ha.
  - split; [done|]. split; [|done]. intros _. by apply Hne.
Qed.

Lemma X21_get_action_first_match_witness :
  _get_action
    {| initialized := true; agents := ∅;
       actions := [ HubFacts.action "a" "first" "s" None;
                    HubFacts.action "a" "second" "s" None ];
       on_action_start := default_on_action_start;
       on_action_complete := default_on_action_complete |} "b" = None.
Proof.
  apply (X21_get_action_first_match _ "b").
  repeat constructor; discriminate.
Defined.

(** The state in which the start hook is entered, and a hub whose hooks
    are those of [BaseHub]. *)
Definition entered (s : State) (action_id user_id : string) (params : dict)
  : State :=
  with_event s (HookStart action_id user_id params).

Definition plain_hooks (hub : BaseHub) : Prop :=
  on_action_start hub = default_on_action_start
  /\ on_action_complete hub = default_on_action_complete.

(** Past the gate, with the hooks of [BaseHub]: the pipeline is the
    precondition step followed by routing. *)
Lemma handle_action_plain rt w hub action_id user_id params s action agent :
  initialized hub = true ->
  _get_action hub action_id = Some action ->
  agents hub !! Config.agent action = Some agent ->
  Config.skill action ∈ Config.exposed (Config.skill_exposure agent) ->
  plain_hooks hub ->
  handle_action rt w hub action_id user_id params s
    = match precondition_step rt w hub action user_id params
              (entered s action_id user_id params) with
      | (Ok (Some r), s2) => (Ok r, s2)
      | (Ok None, s2) =>
          match Router.route_action w (agents hub) action user_id params
                  s2 with
          | (Ok result, s3) =>
              (Ok result,
               with_event s3 (HookComplete action_id user_id result))
          | (Raise e, s3) => (Raise e, s3)
          end
      | (Raise e, s2) => (Raise e, s2)
      end.
Proof.
  intros Hinit Hact Hagent Hskill [Hstart Hcomplete].
  unfold handle_action, Config.is_user_callable.
  rewrite Hinit, Hact, Hagent, bool_decide_eq_true_2 by done. simpl.
  rewrite Hstart, Hcomplete.
  unfold mbind, M_bind, emit, default_on_action_start,
    default_on_action_complete, mret, M_ret, entered.
  by destruct (precondition_step _ _ _ _ _ _ _) as [[[r|]|e] s2].
Qed.

Lemma route_exposed w agents action user_id params s agent :
  agents !! Config.agent action = Some agent ->
  Config.skill action ∈ Config.exposed (Config.skill_exposure agent) ->
  Router.route_action w agents action user_id params s
    = (RouterProps.delivered w s (Config.url agent)
         (Router.a2a_envelope (uuid4 w (uuid_count s)) (Config.skill action)
                              user_id params),
       RouterProps.after_call s (Config.url agent)
         (Router.a2a_envelope (uuid4 w (uuid_count s)) (Config.skill action)
                              user_id params)).
Proof.
  intros Ha He. unfold Router.route_action, Config.is_hub_callable.
  rewrite Ha, bool_decide_eq_true_2 by done. simpl.
  apply RouterProps.build_then_send.
Qed.

(** [X22] With the hooks of [BaseHub], an action that passes the gate and
    either declares no precondition or declares one whose agent is not
    registered is simply routed: one request goes to the action's agent,
    the outcome is the router's, and the trace is the start hook, the post
    and, on success, the completion hook.  A precondition naming a missing
    agent never blocks and never costs a network call. *)
Theorem X22_missing_precondition_agent_is_no_precondition
    rt w hub action_id user_id params s action agent :
  initialized hub = true ->
  _get_action hub action_id = Some action ->
  agents hub !! Config.agent action = Some agent ->
  Config.skill action ∈ Config.exposed (Config.skill_exposure agent) ->
  plain_hooks hub ->
  declared_precondition action = None
  \/ (exists p, declared_precondition action = Some p
                /\ agents hub !! (Router.parse_precondition p).1 = None) ->
  let s1 := entered s action_id user_id params in
  let message := Router.a2a_envelope (uuid4 w (uuid_count s1))
                   (Config.skill action) user_id params in
  handle_action rt w hub action_id user_id params s
    = match RouterProps.delivered w s1 (Config.url agent) message with
      | Ok result =>
          (Ok result,
           with_event (RouterProps.after_call s1 (Config.url agent) message)
                      (HookComplete action_id user_id result))
      | Raise e =>
          (Raise e, RouterProps.after_call s1 (Config.url agent) message)
      end.
Proof.
  intros Hinit Hact Hagent Hskill Hplain Hpre s1 message.
  rewrite (handle_action_plain rt w hub action_id user_id params s action
             agent) by done.
  fold s1.
  assert (Hstep : precondition_step rt w hub action user_id params s1
                  = (Ok None, s1)).
  { unfold precondition_step. destruct Hpre as [->|(p & -> & Hp)]; [done|].
    rewrite (EffFacts.bind_ok _ _ _ _ _
               (RouterFacts.check_precondition_fail_open rt w (agents hub) p
                  user_id params s1 Hp)).
    done. }
  rewrite Hstep, (route_exposed w (agents hub) action user_id params s1 agent)
    by done.
  fold message. by destruct (RouterProps.delivered _ _ _ _).
Qed.

(** The training hub's grading action: it needs a pending worksheet,
    checked with [le_veilleur], which is not among the agents here. *)
Definition grading_hub : BaseHub :=
  {| initialized := true;
     agents := {[ "lumiere" :=
                    RouterFacts.connection "lumiere" "http://localhost:8021"
                      {| Config.exposed := ["check_answers"];
                         Config.hidden := ["rubric_grade"; "annotate_pdf"];
                         Config.internal := ["ocr_extract"] |} ]};
     actions := [ HubFacts.action "submit_work" "lumiere" "check_answers"
                    (Some "le_veilleur.check_pending") ];
     on_action_start := default_on_action_start;
     on_action_complete := default_on_action_complete |}.

Lemma X22_missing_precondition_agent_is_no_precondition_witness :
  (handle_action RouterFacts.blank_runtime HubFacts.ok_world grading_hub
     "submit_work" "u1" ∅ RouterFacts.initial_state).1
  = Ok (JDict {[ "status" := JStr "ok" ]}).
Proof.
  rewrite (X22_missing_precondition_agent_is_no_precondition
             RouterFacts.blank_runtime HubFacts.ok_world grading_hub
             "submit_work" "u1" ∅ RouterFacts.initial_state
             (HubFacts.action "submit_work" "lumiere" "check_answers"
                (Some "le_veilleur.check_pending"))
             (RouterFacts.connection "lumiere" "http://localhost:8021"
                {| Config.exposed := ["check_answers"];
                   Config.hidden := ["rubric_grade"; "annotate_pdf"];
                   Config.internal := ["ocr_extract"] |})).
  - reflexivity.
  - reflexivity.
  - reflexivity.
  - reflexivity.
  - apply elem_of_cons. by left.
  - split; reflexivity.
  - right. exists "le_veilleur.check_pending". split; reflexivity.
Defined.

(** The result [handle_action] returns when a precondition is not met. *)
Definition precondition_failed (pr : dict) : json :=
  JDict {[ "status" := JStr "precondition_failed";
           "message" := default (JStr "Precondition not met")
                                (pr !! "message");
           "action_required" := default JNull (pr !! "action_required") ]}.

Lemma precondition_step_checked rt w hub action user_id params s p v s2 :
  declared_precondition action = Some p ->
  Router.check_precondition rt w (agents hub) p user_id params s
    = (Ok v, s2) ->
  precondition_step rt w hub action user_id params s
    = match v with
      | JDict pr =>
          if truthy (default (JBool false) (pr !! "satisfied"))
          then (Ok None, s2)
          else (Ok (Some (precondition_failed pr)), s2)
      | _ => (Raise (Builtin (NoAttribute (type_of v) "get")), s2)
      end.
Proof.
  intros Hp Hcheck. unfold precondition_step. rewrite Hp.
  rewrite (EffFacts.bind_ok _ _ _ _ _ Hcheck).
  destruct v as [| | | | |pr]; try done.
  unfold mbind at 1. unfold M_bind at 1. unfold lift at 1. simpl.
  by destruct (truthy _).
Qed.

(** Past the gate, with the hooks of [BaseHub] and a precondition whose
    agent is registered: how [handle_action] ends when the check does not
    let the action through. *)
Lemma handle_action_checked rt w hub action_id user_id params s action agent
    p pagent :
  initialized hub = true ->
  _get_action hub action_id = Some action ->
  agents hub !! Config.agent action = Some agent ->
  Config.skill action ∈ Config.exposed (Config.skill_exposure agent) ->
  plain_hooks hub ->
  declared_precondition action = Some p ->
  agents hub !! (Router.parse_precondition p).1 = Some pagent ->
  let s1 := entered s action_id user_id params in
  let message := RouterFacts.check_message w p user_id params s1 in
  let s2 := RouterProps.after_call s1 (Config.url pagent) message in
  forall v,
    (Router.check_precondition rt w (agents hub) p user_id params s1).1
      = Ok v ->
    match v with
    | JDict pr =>
        truthy (default (JBool false) (pr !! "satisfied")) = false ->
        handle_action rt w hub action_id user_id params s
          = (Ok (precondition_failed pr), s2)
    | _ =>
        handle_action rt w hub action_id user_id params s
          = (Raise (Builtin (NoAttribute (type_of v) "get")), s2)
    end.
Proof.
  intros Hinit Hact Hagent Hskill Hplain Hp Hpa s1 message s2 v Hv.
  rewrite (handle_action_plain rt w hub action_id user_id params s action
             agent) by done.
  fold s1.
  assert (Hcheck : Router.check_precondition rt w (agents hub) p user_id
                     params s1 = (Ok v, s2)).
  { rewrite (RouterProps.check_precondition_run rt w (agents hub) p user_id
               params s1 pagent Hpa) in Hv |- *.
    simpl in Hv. by rewrite Hv. }
  rewrite (precondition_step_checked rt w hub action user_id params s1 p v s2
             Hp Hcheck).
  destruct v as [| | | | |pr]; try done.
  by intros ->.
Qed.

(** [X23] With the hooks of [BaseHub], when the precondition agent's
    answer unwraps to an object whose [has_pending] is falsy,
    [handle_action] returns the [precondition_failed] result with the
    agent's message (or "No pending worksheet found") and
    [action_required = "generate_worksheet"].  The same happens, with the
    message "Precondition not met" by default, when the object has neither
    [has_pending] nor a truthy [satisfied]: an empty answer blocks.  In
    both cases the only request posted is the check: the action's own
    agent is not called and the completion hook is not entered. *)
Theorem X23_unmet_precondition_short_circuits
    rt w hub action_id user_id params s action agent p pagent data
    (r : dict) :
  initialized hub = true ->
  _get_action hub action_id = Some action ->
  agents hub !! Config.agent action = Some agent ->
  Config.skill action ∈ Config.exposed (Config.skill_exposure agent) ->
  plain_hooks hub ->
  declared_precondition action = Some p ->
  agents hub !! (Router.parse_precondition p).1 = Some pagent ->
  let s1 := entered s action_id user_id params in
  let message := RouterFacts.check_message w p user_id params s1 in
  let s2 := RouterProps.after_call s1 (Config.url pagent) message in
  http_post w (trace s1) (Config.url pagent) message = Reply data ->
  Router.unwrap_response data = Ok (JDict r) ->
  (forall pending,
     r !! "has_pending" = Some pending -> truthy pending = false ->
     handle_action rt w hub action_id user_id params s
       = (Ok (JDict {[
            "status" := JStr "precondition_failed";
            "message" := default (JStr "No pending worksheet found")
                                 (r !! "message");
            "action_required" := JStr "generate_worksheet" ]}), s2))
  /\ (r !! "has_pending" = None ->
        truthy (default (JBool false) (r !! "satisfied")) = false ->
        handle_action rt w hub action_id user_id params s
          = (Ok (precondition_failed r), s2)).
Proof.
  intros Hinit Hact Hagent Hskill Hplain Hp Hpa s1 message s2 Hreply Hun.
  pose proof (handle_action_checked rt w hub action_id user_id params s
                action agent p pagent Hinit Hact Hagent Hskill Hplain Hp Hpa)
    as Hend.
  destruct (RouterProps.check_precondition_interprets rt w (agents hub) p user_id params s1
              pagent data r Hpa Hreply Hun) as [Hpend Hpass].
  split.
  - intros pending Hr Hfalsy.
    specialize (Hend _ (Hpend pending Hr)). simpl in Hend.
    rewrite Hfalsy in Hend. by apply Hend.
  - intros Hr Hsat. specialize (Hend _ (Hpass Hr)). by apply Hend.
Qed.

(** The hub of the training example, reduced to its grading action and
    the two agents it involves. *)
Definition checked_hub : BaseHub :=
  {| initialized := true;
     agents := {[
       "lumiere" :=
         RouterFacts.connection "lumiere" "http://localhost:8021"
           {| Config.exposed := ["check_answers"];
              Config.hidden := ["rubric_grade"; "annotate_pdf"];
              Config.internal := ["ocr_extract"] |};
       "le_veilleur" :=
         RouterFacts.connection "le_veilleur" "http://localhost:8023"
           {| Config.exposed := []; Config.hidden := [];
              Config.internal := ["check_pending"] |} ]};
     actions := [ HubFacts.action "submit_work" "lumiere" "check_answers"
                    (Some "le_veilleur.check_pending") ];
     on_action_start := default_on_action_start;
     on_action_complete := default_on_action_complete |}.

Ltac checked_hub_hyps :=
  first [ reflexivity
        | by (apply elem_of_cons; left)
        | by split ].

Lemma X23_unmet_precondition_short_circuits_witness :
  handle_action RouterFacts.blank_runtime
    (RouterFacts.constant_world (JDict {[ "result" := JDict ∅ ]}))
    checked_hub "submit_work" "u1" ∅ RouterFacts.initial_state
  = (Ok (JDict {[ "status" := JStr "precondition_failed";
                  "message" := JStr "Precondition not met";
                  "action_required" := JNull ]}),
     RouterProps.after_call
       (entered RouterFacts.initial_state "submit_work" "u1" ∅)
       "http://localhost:8023"
       (Router.a2a_envelope "id" "check_pending" "u1"
                            {[ "student_id" := JStr "u1" ]})).
Proof.
  destruct (X23_unmet_precondition_short_circuits RouterFacts.blank_runtime
     (RouterFacts.constant_world (JDict {[ "result" := JDict ∅ ]}))
     checked_hub "submit_work" "u1" ∅ RouterFacts.initial_state
     (HubFacts.action "submit_work" "lumiere" "check_answers"
        (Some "le_veilleur.check_pending"))
     (RouterFacts.connection "lumiere" "http://localhost:8021"
        {| Config.exposed := ["check_answers"];
           Config.hidden := ["rubric_grade"; "annotate_pdf"];
           Config.internal := ["ocr_extract"] |})
     "le_veilleur.check_pending"
     (RouterFacts.connection "le_veilleur" "http://localhost:8023"
        {| Config.exposed := []; Config.hidden := [];
           Config.internal := ["check_pending"] |})
     (JDict {[ "result" := JDict ∅ ]}) ∅) as [_ H];
    [checked_hub_hyps..|].
  rewrite H; reflexivity.
Defined.

(** [X24] With the hooks of [BaseHub], when the request to a registered
    precondition agent fails in the transport, [handle_action] does not
    raise: it returns the [precondition_failed] result carrying the
    error's message and no [action_required], and the action's own agent
    is not called. *)
Theorem X24_failed_check_blocks_the_action
    rt w hub action_id user_id params s action agent p pagent msg :
  initialized hub = true ->
  _get_action hub action_id = Some action ->
  agents hub !! Config.agent action = Some agent ->
  Config.skill action ∈ Config.exposed (Config.skill_exposure agent) ->
  plain_hooks hub ->
  declared_precondition action = Some p ->
  agents hub !! (Router.parse_precondition p).1 = Some pagent ->
  let s1 := entered s action_id user_id params in
  let message := RouterFacts.check_message w p user_id params s1 in
  http_post w (trace s1) (Config.url pagent) message = HttpFail msg ->
  handle_action rt w hub action_id user_id params s
    = (Ok (JDict {[ "status" := JStr "precondition_failed";
                    "message" := JStr msg;
                    "action_required" := JNull ]}),
       RouterProps.after_call s1 (Config.url pagent) message).
Proof.
  intros Hinit Hact Hagent Hskill Hplain Hp Hpa s1 message Hfail.
  assert (Hcheck : (Router.check_precondition rt w (agents hub) p user_id
                      params s1).1
                   = Ok (JDict {[ "satisfied" := JBool false;
                                  "message" := JStr msg ]})).
  { rewrite (RouterProps.check_precondition_run rt w (agents hub) p user_id
               params s1 pagent Hpa).
    cbn [fst]. rewrite RouterProps.delivered_after_uuid.
    unfold RouterProps.delivered. fold message. by rewrite Hfail. }
  pose proof (handle_action_checked rt w hub action_id user_id params s
                action agent p pagent Hinit Hact Hagent Hskill Hplain Hp Hpa
                _ Hcheck) as Hend.
  cbv beta iota in Hend. fold s1 message in Hend.
  rewrite Hend; reflexivity.
Qed.

Lemma X24_failed_check_blocks_the_action_witness :
  (handle_action RouterFacts.blank_runtime RouterFacts.silent_world
     checked_hub "submit_work" "u1" ∅ RouterFacts.initial_state).1
  = Ok (JDict {[ "status" := JStr "precondition_failed";
                 "message" := JStr "connection refused";
                 "action_required" := JNull ]}).
Proof.
  rewrite (X24_failed_check_blocks_the_action RouterFacts.blank_runtime
     RouterFacts.silent_world checked_hub "submit_work" "u1" ∅
     RouterFacts.initial_state
     (HubFacts.action "submit_work" "lumiere" "check_answers"
        (Some "le_veilleur.check_pending"))
     (RouterFacts.connection "lumiere" "http://localhost:8021"
        {| Config.exposed := ["check_answers"];
           Config.hidden := ["rubric_grade"; "annotate_pdf"];
           Config.internal := ["ocr_extract"] |})
     "le_veilleur.check_pending"
     (RouterFacts.connection "le_veilleur" "http://localhost:8023"
        {| Config.exposed := []; Config.hidden := [];
           Config.internal := ["check_pending"] |})
     "connection refused"); checked_hub_hyps.
Defined.

(** [X25] With the hooks of [BaseHub], when the precondition agent's
    answer unwraps to a value that is not an object and does not contain
    "has_pending" (a plain string, a list), the check passes it through and
    [handle_action] raises [AttributeError] on its [.get]: this failure is
    not turned into a [precondition_failed] result. *)
Theorem X25_check_result_not_an_object_escapes
    rt w hub action_id user_id params s action agent p pagent data v :
  initialized hub = true ->
  _get_action hub action_id = Some action ->
  agents hub !! Config.agent action = Some agent ->
  Config.skill action ∈ Config.exposed (Config.skill_exposure agent) ->
  plain_hooks hub ->
  declared_precondition action = Some p ->
  agents hub !! (Router.parse_precondition p).1 = Some pagent ->
  let s1 := entered s action_id user_id params in
  let message := RouterFacts.check_message w p user_id params s1 in
  http_post w (trace s1) (Config.url pagent) message = Reply data ->
  Router.unwrap_response data = Ok v ->
  py_in "has_pending" v = Ok false ->
  type_of v <> TDict ->
  handle_action rt w hub action_id user_id params s
    = (Raise (Builtin (NoAttribute (type_of v) "get")),
       RouterProps.after_call s1 (Config.url pagent) message).
Proof.
  intros Hinit Hact Hagent Hskill Hplain Hp Hpa s1 message Hreply Hun Hin Hty.
  assert (Hcheck : (Router.check_precondition rt w (agents hub) p user_id
                      params s1).1 = Ok v).
  { rewrite (RouterProps.check_precondition_run rt w (agents hub) p user_id
               params s1 pagent Hpa).
    cbn [fst]. rewrite RouterProps.delivered_after_uuid.
    unfold RouterProps.delivered. fold message.
    rewrite Hreply, Hun. simpl. unfold Router.interpret_precondition.
    by rewrite Hin. }
  pose proof (handle_action_checked rt w hub action_id user_id params s
                action agent p pagent Hinit Hact Hagent Hskill Hplain Hp Hpa
                v Hcheck) as Hend.
  by destruct v.
Qed.

Lemma X25_check_result_not_an_object_escapes_witness :
  (handle_action RouterFacts.blank_runtime
     (RouterFacts.constant_world (JDict {[ "result" := JStr "ok" ]}))
     checked_hub "submit_work" "u1" ∅ RouterFacts.initial_state).1
  = Raise (Builtin (NoAttribute TStr "get")).
Proof.
  rewrite (X25_check_result_not_an_object_escapes RouterFacts.blank_runtime
     (RouterFacts.constant_world (JDict {[ "result" := JStr "ok" ]}))
     checked_hub "submit_work" "u1" ∅ RouterFacts.initial_state
     (HubFacts.action "submit_work" "lumiere" "check_answers"
        (Some "le_veilleur.check_pending"))
     (RouterFacts.connection "lumiere" "http://localhost:8021"
        {| Config.exposed := ["check_answers"];
           Config.hidden := ["rubric_grade"; "annotate_pdf"];
           Config.internal := ["ocr_extract"] |})
     "le_veilleur.check_pending"
     (RouterFacts.connection "le_veilleur" "http://localhost:8023"
        {| Config.exposed := []; Config.hidden := [];
           Config.internal := ["check_pending"] |})
     (JDict {[ "result" := JStr "ok" ]}) (JStr "ok"));
    first [checked_hub_hyps | discriminate].
Defined.

End HubProps.

(** ** Construction, initialisation and the hub-level services *)

Module LifecycleProps.
Import Py Eff Lifecycle.

Lemma registered_lookup cls agent_name :
  registered cls !! agent_name
    = (fun url =>
         connect agent_name url
           (default empty_exposure (define_skill_exposure cls !! agent_name)))
      <$> register_agents cls !! agent_name.
Proof.
  unfold registered. rewrite map_lookup_imap.
  by destruct (register_agents cls !! agent_name).
Qed.

Lemma initialize_object cls self now s :
  (initialize cls self now s).1.2 = initialized_object cls self now.
Proof. unfold initialize. by destruct (on_initialize cls s). Qed.

(** [X26] After [initialize], and also when its [on_initialize] hook
    raises, the hub is marked initialised; every agent of
    [register_agents] is registered with its address and with the exposure
    [define_skill_exposure] gives it, or with three empty lists when it
    gives none; agents registered by an earlier [initialize] and not
    registered again are still there; the actions are those of
    [define_ui_actions]; and the identity manager and the consent ledger
    are new, so every earlier session and consent record is forgotten. *)
Theorem X26_initialize cls self now s :
  let self' := (initialize cls self now s).1.2 in
  initialized self' = true
  /\ (forall agent_name url,
        register_agents cls !! agent_name = Some url ->
        agents self' !! agent_name
          = Some (connect agent_name url
                    (default empty_exposure
                             (define_skill_exposure cls !! agent_name))))
  /\ (forall agent_name,
        register_agents cls !! agent_name = None ->
        agents self' !! agent_name = agents self !! agent_name)
  /\ actions self' = define_ui_actions cls
  /\ (forall token t, (check_auth self' token t).1 = Ok None)
  /\ (forall user_id,
        check_consent self' user_id
          = Ok (negb (Config.required (configure_consent cls))))
  /\ ((initialize cls self now s).1.1, (initialize cls self now s).2)
     = on_initialize cls s.
Proof.
  intros self'. subst self'. rewrite initialize_object.
  split; [done|]. split; [|split; [|split; [done|split; [|split]]]].
  - intros agent_name url Hu. simpl.
    apply lookup_union_Some_l. by rewrite registered_lookup, Hu.
  - intros agent_name Hu. simpl.
    apply lookup_union_r. by rewrite registered_lookup, Hu.
  - intros token t. unfold check_auth. simpl.
    unfold Auth.validate_session. simpl. by rewrite lookup_empty.
  - intros user_id. unfold check_consent. simpl.
    unfold Consent.has_consented. simpl. rewrite lookup_empty.
    by destruct (Config.required _).
  - unfold initialize. by destruct (on_initialize cls s) as [o s'].
Qed.

(** [X27] On a hub that was only constructed, [handle_action] raises
    [RuntimeError].  After [initialize], an action whose agent is
    registered without an entry in [define_skill_exposure] is refused with
    [PermissionError] whatever its skill, and an action whose agent appears
    in [define_skill_exposure] only, and was never registered, fails with
    [ValueError] ("Unknown agent"); in all three cases nothing is
    posted. *)
Theorem X27_initialize_then_handle_action rt w cls now s0 action_id user_id
    params s :
  handle_action_on rt w cls created action_id user_id params s
    = (Raise (RuntimeError "Hub not initialized"), s)
  /\ forall action,
       let self := (initialize cls created now s0).1.2 in
       Hub._get_action (base_hub cls self) action_id = Some action ->
       (forall url,
          register_agents cls !! Config.agent action = Some url ->
          define_skill_exposure cls !! Config.agent action = None ->
          handle_action_on rt w cls self action_id user_id params s
            = (Raise (PermissionError
                        ("Skill " ++ Config.skill action ++
                         " is not available in this hub")), s))
       /\ (register_agents cls !! Config.agent action = None ->
             handle_action_on rt w cls self action_id user_id params s
               = (Raise (ValueError
                           ("Unknown agent: " ++ Config.agent action)), s)).
Proof.
  split; [done|].
  intros action self Hact. subst self. rewrite initialize_object in Hact |- *.
  unfold handle_action_on, Hub.handle_action. rewrite Hact. simpl.
  split.
  - intros url Hu He.
    rewrite (lookup_union_Some_l _ _ _
               (connect (Config.agent action) url empty_exposure)).
    + done.
    + by rewrite registered_lookup, Hu, He.
  - intros Hu. rewrite lookup_union_r.
    + by rewrite lookup_empty.
    + by rewrite registered_lookup, Hu.
Qed.

(** [X28] [record_consent] of the hub writes the ledger before it runs the
    [on_user_consent] hook: when the hook raises, the caller gets the
    exception, and the consent is recorded all the same. *)
Theorem X28_record_consent_survives_hook cls self user_id now s cm :
  consent_manager self = Some cm ->
  let r := record_consent cls self user_id now s in
  consent_manager r.1.2 = Some (Consent.record_consent cm user_id now).2
  /\ check_consent r.1.2 user_id = Ok true
  /\ r.2 = (on_user_consent cls user_id s).2
  /\ (forall e, (on_user_consent cls user_id s).1 = Raise e ->
        r.1.1 = Raise e)
  /\ (forall u, (on_user_consent cls user_id s).1 = Ok u ->
        r.1.1 = Ok (Consent.Recorded user_id now
                      "Consent recorded successfully")).
Proof.
  intros Hcm r. subst r. unfold record_consent. rewrite Hcm. simpl.
  destruct (on_user_consent cls user_id s) as [[u|e] s']; simpl.
  - split; [done|]. split; [|split; [done|split; [done|]]].
    + unfold check_consent, Consent.has_consented. simpl.
      rewrite lookup_insert_eq. simpl. by destruct (negb _).
    + by intros u' [= <-].
  - split; [done|]. split; [|split; [done|split; [|done]]].
    + unfold check_consent, Consent.has_consented. simpl.
      rewrite lookup_insert_eq. simpl. by destruct (negb _).
    + by intros e' [= <-].
Qed.

(** *** The hub of [examples/training_hub.py] *)

Definition training_action (id label icon agent skill description : string)
    (precondition : option string) (primary : bool) (position : Z)
    (group : string) : Config.HubAction :=
  {| Config.id := id; Config.label := label; Config.icon := icon;
     Config.agent := agent; Config.skill := skill;
     Config.description := description;
     Config.precondition := precondition;
     Config.confirm := false; Config.confirm_message := "";
     Config.primary := primary; Config.position := position;
     Config.group := Some group |}.

(** [TrainingHub] with the hooks of [BaseHub]. *)
Definition training_base : HubClass :=
  {| configure :=
       {| name := "Training Hub"; slug := "training";
          description := "Personalized derivative training for ECON 3010";
          version := "1.0.0"; auth_required := true;
          consent_required := true; theme := ORGANIC;
          tagline := "Every student can grow with the right guidance";
          icon := "🎓"; course := Some "ECON 3010";
          semester := Some "26Sp" |};
     register_agents :=
       {[ "gaston" := "http://localhost:8020";
          "lumiere" := "http://localhost:8021";
          "le_marteau" := "http://localhost:8022";
          "le_veilleur" := "http://localhost:8023" ]};
     define_skill_exposure :=
       {[ "gaston" :=
            {| Config.exposed :=
                 ["request_worksheet"; "get_progress"; "download_work"];
               Config.hidden := [];
               Config.internal := ["chatbot"] |};
          "lumiere" :=
            {| Config.exposed := ["check_answers"];
               Config.hidden := ["rubric_grade"; "annotate_pdf"];
               Config.internal := ["ocr_extract"] |};
          "le_marteau" :=
            {| Config.exposed := [];
               Config.hidden := [];
               Config.internal :=
                 ["generate_worksheet"; "adapt_difficulty"; "render_pdf"] |};
          "le_veilleur" :=
            {| Config.exposed := [];
               Config.hidden := [];
               Config.internal :=
                 ["create_profile"; "log_session"; "log_result";
                  "get_progress"; "check_pending"; "get_student_data";
                  "get_class_overview"] |} ]};
     define_ui_actions :=
       [ training_action "generate_worksheet" "Generate New Worksheet" "📝"
           "gaston" "request_worksheet"
           "Get personalized training problems based on your weak areas"
           None true 1 "gaston";
         training_action "view_progress" "View My Progress" "📊"
           "gaston" "get_progress"
           "See how you're doing (same view as TAs)" None false 2 "gaston";
         training_action "download_work" "Download All My Work" "📥"
           "gaston" "download_work"
           "Download all your worksheets and reports" None false 3 "gaston";
         training_action "submit_work" "Submit & Grade" "💡"
           "lumiere" "check_answers"
           "Upload your completed worksheet for instant feedback"
           (Some "le_veilleur.check_pending") true 1 "lumiere" ];
     configure_auth :=
       {| Config.method := "magic_link";
          Config.email_domain := Some "virginia.edu";
          Config.session_duration_hours := 24;
          Config.oauth_provider := None; Config.oauth_client_id := None |};
     configure_consent :=
       {| Config.required := true; Config.title := "Training Hub Consent";
          Config.text := "This optional tool uses AI to:
• Generate personalized training problems
• Grade your work and provide feedback
• Track your progress over time

Your data is stored securely in UVA Box.
This is OPTIONAL training — not required for your grade.";
          Config.data_usage :=
            ["Generate personalized training problems";
             "Grade submissions and provide feedback";
             "Track progress over time"];
          Config.data_shared_with :=
            ["Your professor (Dr. Santugini)"; "Course TAs";
             "AI services (OpenAI) for grading"];
          Config.revocable := true;
          Config.optional_participation := true |};
     on_initialize := mret tt;
     on_user_login := fun _ _ => mret tt;
     on_user_consent := fun _ => mret tt;
     on_action_start := Hub.default_on_action_start;
     on_action_complete := Hub.default_on_action_complete |}.

(** [TrainingHub.on_user_consent]: a profile is created with
    [le_veilleur], through the router of the initialised hub. *)
Definition training_on_user_consent (w : World) (user_id : string) : M unit :=
  _ ← Router.call_agent_skill w (registered training_base)
        "le_veilleur" "create_profile"
        {[ "student_id" := JStr user_id;
           "course" := JStr "ECON 3010";
           "semester" := JStr "26Sp" ]};
  mret tt.

Definition training_hub (w : World) : HubClass :=
  {| configure := configure training_base;
     register_agents := register_agents training_base;
     define_skill_exposure := define_skill_exposure training_base;
     define_ui_actions := define_ui_actions training_base;
     configure_auth := configure_auth training_base;
     configure_consent := configure_consent training_base;
     on_initialize := on_initialize training_base;
     on_user_login := on_user_login training_base;
     on_user_consent := training_on_user_consent w;
     on_action_start := on_action_start training_base;
     on_action_complete := on_action_complete training_base |}.

(** The training hub once initialised. *)
Definition training_object (w : World) : HubObject :=
  (initialize (training_hub w) created 0 RouterFacts.initial_state).1.2.

(** With [le_veilleur] unreachable the profile cannot be created: the
    call raises and the consent is on record. *)
Lemma X28_record_consent_survives_hook_witness :
  let r := record_consent (training_hub RouterFacts.silent_world)
             (training_object RouterFacts.silent_world) "bob" 5
             RouterFacts.initial_state in
  r.1.1 = Raise (HTTPError "connection refused")
  /\ check_consent r.1.2 "bob" = Ok true.
Proof.
  intros r.
  destruct (X28_record_consent_survives_hook
              (training_hub RouterFacts.silent_world)
              (training_object RouterFacts.silent_world) "bob" 5
              RouterFacts.initial_state
              (Consent.new (configure_consent training_base)) eq_refl)
    as (_ & Hrec & _ & Hraise & _).
  split; [|exact Hrec].
  apply Hraise. reflexivity.
Defined.

End LifecycleProps.

(** ** The HTTP boundary *)

Module HandlerProps.
Import Py Eff Handler.

Lemma bearer_token request tok :
  authorization request = Some ("Bearer " ++ tok) ->
  _get_session_token request = Some tok.
Proof. intros H. unfold _get_session_token. by rewrite H. Qed.

(** The object with its identity manager replaced. *)
Definition with_auth (self : Lifecycle.HubObject) (am : Auth.AuthManager)
  : Lifecycle.HubObject :=
  {| Lifecycle.config := Lifecycle.config self;
     Lifecycle.agents := Lifecycle.agents self;
     Lifecycle.actions := Lifecycle.actions self;
     Lifecycle.auth_manager := Some am;
     Lifecycle.consent_manager := Lifecycle.consent_manager self;
     Lifecycle.initialized := Lifecycle.initialized self;
     Lifecycle.started_at := Lifecycle.started_at self |}.

(** [X29] The session token of a request is what follows ["Bearer "] in
    its [Authorization] header when the header has that form, and the
    [session_token] cookie otherwise.  A header ["Bearer "] with nothing
    after it therefore hides a cookie: the request is refused with 401
    "Authentication required", as is a request with no token at all, and
    the hub is not touched.  With a token, the request is served as the
    user [validate_session] returns, or refused with 401 "Invalid or
    expired session", and an expired session is deleted on the way.  The
    logout route always answers with success, and after it the same request
    is refused with 401. *)
Theorem X29_require_auth self request now :
  (forall tok, authorization request = Some ("Bearer " ++ tok) ->
     _get_session_token request = Some tok)
  /\ (forall header, authorization request = Some header ->
        PyStr.startswith header "Bearer " = false ->
        _get_session_token request = session_cookie request)
  /\ (authorization request = None ->
        _get_session_token request = session_cookie request)
  /\ (no_token (_get_session_token request) = true ->
        _require_auth self request now
          = (HTTPException 401 "Authentication required", self))
  /\ (forall am tok,
        Lifecycle.auth_manager self = Some am ->
        _get_session_token request = Some tok -> tok <> "" ->
        _require_auth self request now
          = (match (Auth.validate_session am tok now).1 with
             | Some user => Served user
             | None => HTTPException 401 "Invalid or expired session"
             end,
             with_auth self (Auth.validate_session am tok now).2))
  /\ (forall am,
        Lifecycle.auth_manager self = Some am ->
        (logout self request).1 = Served tt
        /\ exists detail,
             (_require_auth (logout self request).2 request now).1
               = HTTPException 401 detail).
Proof.
  split; [|split; [|split; [|split; [|split]]]].
  - apply bearer_token.
  - intros header Hh Hs. unfold _get_session_token. rewrite Hh, Hs.
    by rewrite andb_false_r.
  - intros Hh. unfold _get_session_token. by rewrite Hh.
  - unfold _require_auth, no_token.
    destruct (_get_session_token request) as [tok|]; [|done]. by intros ->.
  - intros am tok Ham Htok Hne. unfold _require_auth. rewrite Htok.
    rewrite (proj2 (String.eqb_neq tok "") Hne).
    unfold Lifecycle.check_auth. rewrite Ham.
    by destruct (Auth.validate_session am tok now) as [[user|] am'].
  - intros am Ham. unfold logout, _require_auth.
    destruct (_get_session_token request) as [tok|]; [|by eauto].
    destruct (String.eqb tok ""); [by eauto|]. rewrite Ham. simpl.
    split; [done|]. exists "Invalid or expired session".
    unfold Lifecycle.check_auth. simpl. unfold Auth.validate_session.
    by rewrite AuthProps.invalidate_lookup.
Qed.

Lemma X29_require_auth_witness :
  _require_auth (LifecycleProps.training_object RouterFacts.silent_world)
    {| authorization := Some "Bearer "; session_cookie := Some "sess" |} 0
  = (HTTPException 401 "Authentication required",
     LifecycleProps.training_object RouterFacts.silent_world).
Proof.
  pose proof (X29_require_auth
                (LifecycleProps.training_object RouterFacts.silent_world)
                {| authorization := Some "Bearer ";
                   session_cookie := Some "sess" |} 0)
    as (Hb & _ & _ & H401 & _).
  apply H401. by rewrite (Hb "" eq_refl).
Defined.

Lemma gate_open self user_id detail c :
  Lifecycle.config self = Some c ->
  Lifecycle.consent_required c = false
  \/ Lifecycle.check_consent self user_id = Ok true ->
  consent_gate self user_id detail = None.
Proof.
  intros Hc Hopen. unfold consent_gate. rewrite Hc.
  destruct Hopen as [->| ->]; [done|].
  by destruct (Lifecycle.consent_required c).
Qed.

Lemma gate_closed self user_id detail c :
  Lifecycle.config self = Some c ->
  Lifecycle.consent_required c = true ->
  Lifecycle.check_consent self user_id = Ok false ->
  consent_gate self user_id detail = Some (HTTPException 403 detail).
Proof. intros Hc Hreq Hno. unfold consent_gate. by rewrite Hc, Hreq, Hno. Qed.

(** [X30] The action route runs [handle_action] only for an authenticated
    request: when [_require_auth] refuses, the refusal is the reply and
    nothing is posted.  For an authenticated user, when the hub requires
    consent and the user has not consented, the reply is 403 and nothing
    is posted.  Otherwise the reply is the result of [handle_action], and
    an exception it raises becomes 400 when its class is [ValueError] or a
    subclass of it (an unknown action or agent, an agent body that is not
    JSON, a hook's [UnicodeDecodeError]), 403 when it is otherwise a
    [PermissionError] or a subclass of it, and 500 "Action failed" for
    anything else; the route that takes the action id in its path differs
    in that it lets such other exceptions through uncaught. *)
Theorem X30_execute_action rt w cls issubclass self action_id params request
    now s :
  (forall code detail self',
     _require_auth self request now = (HTTPException code detail, self') ->
     execute_action rt w cls issubclass self action_id params request now s
       = ((HTTPException code detail, self'), s))
  /\ (forall user self' c,
        _require_auth self request now = (Served user, self') ->
        Lifecycle.config self' = Some c ->
        (Lifecycle.consent_required c = true ->
           Lifecycle.check_consent self' (Auth.ui_user_id user) = Ok false ->
           execute_action rt w cls issubclass self action_id params request
                          now s
             = ((HTTPException 403 "Consent required before using this hub",
                 self'), s))
        /\ (Lifecycle.consent_required c = false
            \/ Lifecycle.check_consent self' (Auth.ui_user_id user)
               = Ok true ->
            let run := Lifecycle.handle_action_on rt w cls self' action_id
                         (Auth.ui_user_id user) params s in
            (forall result, run.1 = Ok result ->
               execute_action rt w cls issubclass self action_id params
                              request now s
                 = ((Served result, self'), run.2))
            /\ (forall msg,
                  run.1 = Raise (ValueError msg)
                  \/ run.1 = Raise (JSONDecodeError msg) ->
                  execute_action rt w cls issubclass self action_id params
                                 request now s
                    = ((HTTPException 400 msg, self'), run.2))
            /\ (forall c' msg,
                  run.1 = Raise (Raised c' msg) ->
                  issubclass c' "ValueError" = true ->
                  execute_action rt w cls issubclass self action_id params
                                 request now s
                    = ((HTTPException 400 msg, self'), run.2))
            /\ (forall msg, run.1 = Raise (PermissionError msg) ->
                  execute_action rt w cls issubclass self action_id params
                                 request now s
                    = ((HTTPException 403 msg, self'), run.2))
            /\ (forall c' msg,
                  run.1 = Raise (Raised c' msg) ->
                  issubclass c' "ValueError" = false ->
                  issubclass c' "PermissionError" = true ->
                  execute_action rt w cls issubclass self action_id params
                                 request now s
                    = ((HTTPException 403 msg, self'), run.2))
            /\ (forall e, run.1 = Raise e ->
                  is_value_error issubclass e = false ->
                  is_permission_error issubclass e = false ->
                  execute_action rt w cls issubclass self action_id params
                                 request now s
                    = ((HTTPException 500 "Action failed", self'), run.2)
                  /\ execute_action_by_id rt w cls issubclass self action_id
                                          params request now s
                     = ((Uncaught e, self'), run.2)))).
Proof.
  split.
  - intros code detail self' Hauth. unfold execute_action. by rewrite Hauth.
  - intros user self' c Hauth Hc. split.
    + intros Hreq Hno. unfold execute_action.
      by rewrite Hauth, (gate_closed self' _ _ c Hc Hreq Hno).
    + intros Hopen run. subst run.
      unfold execute_action, execute_action_by_id.
      rewrite Hauth, !(gate_open self' _ _ c Hc Hopen).
      unfold Lifecycle.handle_action_on.
      destruct (Hub.handle_action _ _ _ _ _ _ _) as [[result|e] s']; simpl.
      * split; [by intros result' [= <-]|].
        split; [by intros msg [?|?]|].
        split; [done|]. split; [done|]. split; [done|done].
      * split; [done|].
        split; [intros msg [[= ->]|[= ->]]; done|].
        split; [intros c' msg [= ->] Hv; simpl; by rewrite Hv|].
        split; [by intros msg [= ->]|].
        split; [intros c' msg [= ->] Hv Hp; simpl; by rewrite Hv, Hp|].
        intros e' [= <-] Hv Hp. by rewrite Hv, Hp.
Qed.

(** The training hub with [bob] logged in under the session token
    ["sess"], before any consent. *)
Definition logged_in (w : World) : Lifecycle.HubObject :=
  with_auth (LifecycleProps.training_object w)
    (Auth.verify_magic_link
       (Auth.send_magic_link
          (Auth.new (Lifecycle.configure_auth LifecycleProps.training_base))
          "bob@virginia.edu" "tok" 0).2
       "tok" "sess" 1 2 3).2.

Definition bearer (tok : string) : Request :=
  {| authorization := Some ("Bearer " ++ tok); session_cookie := None |}.

(** [issubclass] on the built-in classes below [ValueError]. *)
Definition builtin_classes (c base : string) : bool :=
  String.eqb c base
  || (String.eqb base "ValueError"
      && bool_decide (c ∈ ["UnicodeError"; "UnicodeDecodeError";
                           "UnicodeEncodeError"; "UnicodeTranslateError"])).

(** The training hub with a start hook that fails to decode its input,
    and [bob] logged in after giving consent. *)
Definition undecodable_start (_ _ : string) (_ : dict) : M dict :=
  raise (Raised "UnicodeDecodeError" "invalid start byte").

Definition decoding_hub (w : World) : Lifecycle.HubClass :=
  {| Lifecycle.configure := Lifecycle.configure LifecycleProps.training_base;
     Lifecycle.register_agents :=
       Lifecycle.register_agents LifecycleProps.training_base;
     Lifecycle.define_skill_exposure :=
       Lifecycle.define_skill_exposure LifecycleProps.training_base;
     Lifecycle.define_ui_actions :=
       Lifecycle.define_ui_actions LifecycleProps.training_base;
     Lifecycle.configure_auth :=
       Lifecycle.configure_auth LifecycleProps.training_base;
     Lifecycle.configure_consent :=
       Lifecycle.configure_consent LifecycleProps.training_base;
     Lifecycle.on_initialize :=
       Lifecycle.on_initialize LifecycleProps.training_base;
     Lifecycle.on_user_login :=
       Lifecycle.on_user_login LifecycleProps.training_base;
     Lifecycle.on_user_consent := LifecycleProps.training_on_user_consent w;
     Lifecycle.on_action_start := undecodable_start;
     Lifecycle.on_action_complete :=
       Lifecycle.on_action_complete LifecycleProps.training_base |}.

Definition consented (w : World) : Lifecycle.HubObject :=
  (Lifecycle.record_consent (decoding_hub w) (logged_in w) "bob" 5
     RouterFacts.initial_state).1.2.

Lemma X30_execute_action_witness :
  execute_action RouterFacts.blank_runtime HubFacts.ok_world
    (LifecycleProps.training_hub HubFacts.ok_world) builtin_classes
    (logged_in HubFacts.ok_world) "generate_worksheet" ∅ (bearer "sess") 10
    RouterFacts.initial_state
  = ((HTTPException 403 "Consent required before using this hub",
      logged_in HubFacts.ok_world), RouterFacts.initial_state)
  /\ execute_action RouterFacts.blank_runtime HubFacts.ok_world
       (LifecycleProps.training_hub HubFacts.ok_world) builtin_classes
       (logged_in HubFacts.ok_world) "generate_worksheet" ∅ (bearer "nope")
       10 RouterFacts.initial_state
     = ((HTTPException 401 "Invalid or expired session",
         logged_in HubFacts.ok_world), RouterFacts.initial_state)
  /\ (execute_action RouterFacts.blank_runtime HubFacts.ok_world
        (decoding_hub HubFacts.ok_world) builtin_classes
        (consented HubFacts.ok_world) "generate_worksheet" ∅ (bearer "sess")
        10 RouterFacts.initial_state).1.1
     = HTTPException 400 "invalid start byte".
Proof.
  pose proof (X30_execute_action RouterFacts.blank_runtime HubFacts.ok_world
                (LifecycleProps.training_hub HubFacts.ok_world)
                builtin_classes
                (logged_in HubFacts.ok_world) "generate_worksheet" ∅
                (bearer "sess") 10 RouterFacts.initial_state) as (_ & Hin).
  pose proof (X30_execute_action RouterFacts.blank_runtime HubFacts.ok_world
                (LifecycleProps.training_hub HubFacts.ok_world)
                builtin_classes
                (logged_in HubFacts.ok_world) "generate_worksheet" ∅
                (bearer "nope") 10 RouterFacts.initial_state) as (Hout & _).
  pose proof (X30_execute_action RouterFacts.blank_runtime HubFacts.ok_world
                (decoding_hub HubFacts.ok_world) builtin_classes
                (consented HubFacts.ok_world) "generate_worksheet" ∅
                (bearer "sess") 10 RouterFacts.initial_state) as (_ & Hhook).
  split; [|split].
  - destruct (Hin {| Auth.ui_user_id := "bob";
                     Auth.ui_email := "bob@virginia.edu";
                     Auth.ui_expires := 2 + 24 * Auth.hour |}
                  (logged_in HubFacts.ok_world)
                  (Lifecycle.configure LifecycleProps.training_base))
      as [Hdeny _]; [reflexivity|reflexivity|].
    apply Hdeny; reflexivity.
  - apply Hout. reflexivity.
  - destruct (Hhook {| Auth.ui_user_id := "bob";
                       Auth.ui_email := "bob@virginia.edu";
                       Auth.ui_expires := 2 + 24 * Auth.hour |}
                    (consented HubFacts.ok_world)
                    (Lifecycle.configure LifecycleProps.training_base))
      as [_ Hrun]; [reflexivity|reflexivity|].
    destruct Hrun as (_ & _ & H400 & _); [right; reflexivity|].
    rewrite (H400 "UnicodeDecodeError" "invalid start byte");
      reflexivity.
Defined.

End HandlerProps.
